(** * YMF271 (OPX) emulation core of libvgm: a shallow embedding of
    [emu/cores/ymf271.c] and the properties of its specification.

    Integers of the C code are [Z] with the wrap-around of their C type
    written out; [double] is the kernel's binary64 ([PrimFloat]); arrays are
    stdpp lists updated by index; the lookup tables that [init_tables]
    fills once are read-only functions of their indices.  The functions
    appear in the order of the C file and keep its names. *)

From Stdlib Require Import ZArith Lia Bool Floats.
From stdpp Require Import base list.

#[local] Set Warnings "-inexact-float".
#[local] Open Scope Z_scope.

(** ** Machine integers *)

(** Value of [x] once stored in an unsigned / signed C integer of [w] bits
    (two's complement; the conversion every supported compiler performs). *)
Definition wrap_u (w x : Z) : Z := x mod 2 ^ w.
Definition wrap_s (w x : Z) : Z := (x + 2 ^ (w - 1)) mod 2 ^ w - 2 ^ (w - 1).

Definition to_UINT8 : Z -> Z := wrap_u 8.
Definition to_UINT16 : Z -> Z := wrap_u 16.
Definition to_UINT32 : Z -> Z := wrap_u 32.
Definition to_UINT64 : Z -> Z := wrap_u 64.
Definition to_INT8 : Z -> Z := wrap_s 8.
Definition to_INT16 : Z -> Z := wrap_s 16.
Definition to_INT32 : Z -> Z := wrap_s 32.
Definition to_INT64 : Z -> Z := wrap_s 64.

(** C truth value of an integer, and the [c ? 1 : 0] idiom. *)
Definition nonzero (x : Z) : bool := negb (x =? 0).
Definition flag (b : bool) : Z := if b then 1 else 0.

(** Read entry [i] of a constant C array given as a list. *)
Definition tab (l : list Z) (i : Z) : Z := default 0 (l !! Z.to_nat i).

(** ** [double] arithmetic *)

(** [(double)n] for an integer that a double holds exactly. *)
Definition double_of_Z (n : Z) : float :=
  if n <? 0 then PrimFloat.opp (PrimFloat.of_uint63 (Uint63.of_Z (- n)))
  else PrimFloat.of_uint63 (Uint63.of_Z n).

(** The integer part of a finite double (rounding toward zero). *)
Definition trunc_double (f : float) : option Z :=
  match Prim2SF f with
  | S754_zero _ => Some 0
  | S754_finite s m e =>
      let v := if 0 <=? e then Z.pos m * 2 ^ e else Z.pos m / 2 ^ (- e) in
      Some (if s then - v else v)
  | _ => None
  end.

(** [(int)f]: truncation; outside the range of [int] the C result is not
    defined, and the value taken here is the one of the x86 conversion. *)
Definition int_of_double (f : float) : Z :=
  match trunc_double f with
  | Some v => if (- 2 ^ 31 <=? v) && (v <? 2 ^ 31) then v else - 2 ^ 31
  | None => - 2 ^ 31
  end.

(** [(UINT32)f]: truncation through a 64-bit conversion, low 32 bits. *)
Definition uint32_of_double (f : float) : Z :=
  match trunc_double f with
  | Some v => if (- 2 ^ 63 <=? v) && (v <? 2 ^ 63) then to_UINT32 v else 0
  | None => 0
  end.

(** ** Constants *)

Definition STD_CLOCK : Z := 16934400.

Definition MAXOUT : Z := 32768.
Definition MINOUT : Z := -32768.

Definition ACC_18BIT_MAX : Z := 131071.
Definition ACC_18BIT_MIN : Z := -131072.

Definition SIN_BITS : Z := 10.
Definition SIN_LEN : Z := Z.shiftl 1 SIN_BITS.
Definition SIN_MASK : Z := SIN_LEN - 1.

Definition LFO_LENGTH : Z := 256.
Definition LFO_SHIFT : Z := 8.
Definition PLFO_MAX : float := 1%float.
Definition PLFO_MIN : float := (-1)%float.
Definition ALFO_MAX : Z := 65536.
Definition ALFO_MIN : Z := 0.

Definition ENV_ATTACK : Z := 0.
Definition ENV_DECAY1 : Z := 1.
Definition ENV_DECAY2 : Z := 2.
Definition ENV_RELEASE : Z := 3.

Definition OP_INPUT_FEEDBACK : Z := -1.
Definition OP_INPUT_NONE : Z := -2.

Definition ENV_VOLUME_SHIFT : Z := 16.

Definition ACC_TL_SCALE : Z := 2.

Definition INF : float := (-1)%float.

Definition M_PI : float := 3.14159265358979323846%float.

(** ** Constant tables *)

(** Read entry [i] of a constant array of doubles. *)
Definition ftab (l : list float) (i : Z) : float :=
  default 0%float (l !! Z.to_nat i).

(** Envelope times in milliseconds per rate, at the standard clock. *)
Definition ARTime : list float :=
  [ INF; INF; INF; INF; 6188.12; 4980.68; 4144.76; 3541.04;
    3094.06; 2490.34; 2072.38; 1770.52; 1547.03; 1245.17; 1036.19; 885.26;
    773.51; 622.59; 518.10; 441.63; 386.76; 311.29; 259.05; 221.32;
    193.38; 155.65; 129.52; 110.66; 96.69; 77.82; 64.76; 55.33;
    48.34; 38.91; 32.38; 27.66; 24.17; 19.46; 16.19; 13.83;
    12.09; 9.73; 8.10; 6.92; 6.04; 4.86; 4.05; 3.46;
    3.02; 2.47; 2.14; 1.88; 1.70; 1.38; 1.16; 1.02;
    0.88; 0.70; 0.57; 0.48; 0.43; 0.43; 0.43; 0.07 ]%float.

Definition DCTime : list float :=
  [ INF; INF; INF; INF; 93599.64; 74837.91; 62392.02; 53475.56;
    46799.82; 37418.96; 31196.01; 26737.78; 23399.91; 18709.48; 15598.00; 13368.89;
    11699.95; 9354.74; 7799.00; 6684.44; 5849.98; 4677.37; 3899.50; 3342.22;
    2924.99; 2338.68; 1949.75; 1671.11; 1462.49; 1169.34; 974.88; 835.56;
    731.25; 584.67; 487.44; 417.78; 365.62; 292.34; 243.72; 208.89;
    182.81; 146.17; 121.86; 104.44; 91.41; 73.08; 60.93; 52.22;
    45.69; 36.55; 33.85; 26.09; 22.83; 18.28; 15.22; 13.03;
    11.41; 9.12; 7.60; 6.51; 5.69; 5.69; 5.69; 5.69 ]%float.

(** LFO frequencies of the manual, with its two known corrections. *)
Definition LFO_frequency_table : list float :=
  [ 0.00066; 0.00068; 0.00070; 0.00073; 0.00075; 0.00078; 0.00081; 0.00084;
    0.00088; 0.00091; 0.00096; 0.00100; 0.00105; 0.00111; 0.00117; 0.00124;
    0.00131; 0.00136; 0.00140; 0.00145; 0.00150; 0.00156; 0.00162; 0.00168;
    0.00175; 0.00183; 0.00191; 0.00200; 0.00210; 0.00221; 0.00234; 0.00247;
    0.00263; 0.00271; 0.00280; 0.00290; 0.00300; 0.00312; 0.00324; 0.00336;
    0.00350; 0.00366; 0.00382; 0.00401; 0.00421; 0.00443; 0.00467; 0.00495;
    0.00526; 0.00543; 0.00561; 0.00580; 0.00601; 0.00623; 0.00647; 0.00673;
    0.00701; 0.00731; 0.00765; 0.00801; 0.00841; 0.00885; 0.00935; 0.00990;
    0.01051; 0.01085; 0.01122; 0.01160; 0.01202; 0.01246; 0.01294; 0.01346;
    0.01402; 0.01463; 0.01529; 0.01602; 0.01682; 0.01771; 0.01869; 0.01979;
    0.02103; 0.02171; 0.02243; 0.02320; 0.02403; 0.02492; 0.02588; 0.02692;
    0.02804; 0.02926; 0.03059; 0.03204; 0.03365; 0.03542; 0.03738; 0.03958;
    0.04206; 0.04341; 0.04486; 0.04641; 0.04807; 0.04985; 0.05176; 0.05383;
    0.05608; 0.05851; 0.06117; 0.06409; 0.06729; 0.07083; 0.07477; 0.07917;
    0.08411; 0.08683; 0.08972; 0.09282; 0.09613; 0.09969; 0.10353; 0.10767;
    0.11215; 0.11703; 0.12235; 0.12817; 0.13458; 0.14167; 0.14954; 0.15833;
    0.16823; 0.17365; 0.17944; 0.18563; 0.19226; 0.19938; 0.20705; 0.21533;
    0.22430; 0.23406; 0.24470; 0.25635; 0.26917; 0.28333; 0.29907; 0.31666;
    0.33646; 0.34731; 0.35889; 0.37126; 0.38452; 0.39876; 0.41410; 0.43066;
    0.44861; 0.46811; 0.48939; 0.51270; 0.53833; 0.56666; 0.59814; 0.63333;
    0.67291; 0.69462; 0.71777; 0.74252; 0.76904; 0.79753; 0.82820; 0.86133;
    0.89722; 0.93623; 0.97878; 1.02539; 1.07666; 1.13333; 1.19629; 1.26666;
    1.34583; 1.38924; 1.43555; 1.48505; 1.53809; 1.59509; 1.65640; 1.72266;
    1.79443; 1.87245; 1.95756; 2.05078; 2.15332; 2.26665; 2.39258; 2.53332;
    2.69165; 2.77848; 2.87109; 2.97010; 3.07617; 3.19010; 3.31280; 3.44531;
    3.58887; 3.74490; 3.91513; 4.10156; 4.30664; 4.53331; 4.78516; 5.06664;
    5.38330; 5.55696; 5.74219; 5.94019; 6.15234; 6.38021; 6.62560; 6.89062;
    7.17773; 7.48981; 7.83026; 8.20312; 8.61328; 9.06661; 9.57031; 10.13327;
    10.76660; 11.11391; 11.48438; 11.88039; 12.30469; 12.76042; 13.25120; 13.78125;
    14.35547; 14.97962; 15.66051; 16.40625; 17.22656; 18.13322; 19.14062; 20.26654;
    21.53320; 22.96875; 24.60938; 26.50240; 28.71094; 31.32102; 34.45312; 38.28125;
    43.06641; 49.21875; 57.42188; 68.90625; 86.13281; 114.84375; 172.26562; 344.53125 ]%float.

(** Rate key scaling: rows are keycodes 0..31, columns keyscale 0..3. *)
Definition RKS_Table : list (list Z) :=
  [ [0; 0; 0; 0]; [0; 0; 0; 0]; [0; 0; 0; 1]; [0; 0; 0; 1];
    [0; 0; 1; 2]; [0; 0; 1; 2]; [0; 0; 1; 3]; [0; 0; 1; 3];
    [0; 0; 1; 4]; [0; 0; 1; 4]; [0; 0; 2; 5]; [0; 0; 2; 5];
    [0; 0; 1; 6]; [0; 0; 1; 6]; [0; 0; 1; 7]; [0; 0; 1; 7];
    [0; 0; 2; 8]; [0; 0; 2; 8]; [0; 0; 2; 9]; [0; 0; 2; 9];
    [0; 0; 2; 10]; [0; 0; 2; 10]; [0; 0; 2; 11]; [0; 0; 2; 11];
    [0; 0; 3; 12]; [0; 0; 3; 12]; [0; 0; 3; 13]; [0; 0; 3; 13];
    [0; 0; 3; 14]; [0; 0; 3; 14]; [0; 0; 3; 15]; [0; 0; 3; 15] ].

Definition multiple_table : list float :=
  [ 0.5; 1; 2; 3; 4; 5; 6; 7; 8; 9; 10; 11; 12; 13; 14; 15 ]%float.

Definition pow_table : list float :=
  [ 128; 256; 512; 1024; 2048; 4096; 8192; 16384;
    0.5; 1; 2; 4; 8; 16; 32; 64 ]%float.

Definition fs_frequency : list float :=
  [ 1 / 1; 1 / 2; 1 / 4; 1 / 8 ]%float.

Definition channel_attenuation_table : list float :=
  [ 0.0; 2.5; 6.0; 8.5; 12.0; 14.5; 18.1; 20.6;
    24.1; 26.6; 30.1; 32.6; 36.1; 96.1; 96.1; 96.1 ]%float.

(** Self-modulation depth of the key-on slot, in units of pi/16. *)
Definition feedback_level : list Z := [ 0; 1; 2; 4; 8; 16; 32; 64 ].

(** Modulation depth between operators (not monotone, as in the manual). *)
Definition modulation_level : list Z := [ 16; 8; 4; 2; 1; 32; 64; 128 ].

(** Slot mapping of the low address nibble; [-1] marks an invalid address. *)
Definition fm_tab : list Z :=
  [ 0; 1; 2; -1; 3; 4; 5; -1; 6; 7; 8; -1; 9; 10; 11; -1 ].
Definition pcm_tab : list Z :=
  [ 0; 4; 8; -1; 12; 16; 20; -1; 24; 28; 32; -1; 36; 40; 44; -1 ].

(** Detune in cents, rows DT=0..3, columns keycode 0..31. *)
Definition dt_cents : list (list float) :=
  [ [ 0; 0; 0; 0; 0; 0; 0; 0;
      0; 0; 0; 0; 0; 0; 0; 0;
      0; 0; 0; 0; 0; 0; 0; 0;
      0; 0; 0; 0; 0; 0; 0; 0 ];
    [ 0.0000; 0.0000; 0.0000; 0.0000; 0.9918; 0.8341; 0.7013; 0.5898;
      0.4960; 0.4171; 0.3507; 0.2949; 0.4960; 0.4171; 0.3507; 0.2949;
      0.2480; 0.3128; 0.2630; 0.2212; 0.2480; 0.2086; 0.1754; 0.1843;
      0.1550; 0.1564; 0.1315; 0.1290; 0.1240; 0.1043; 0.0877; 0.0737 ];
    [ 1.9831; 1.6679; 1.4024; 1.1793; 1.9831; 1.6679; 1.4024; 1.1793;
      0.9918; 1.2510; 1.0519; 0.8846; 0.9918; 0.8341; 0.7013; 0.7372;
      0.6200; 0.6256; 0.5260; 0.5160; 0.4960; 0.4171; 0.3945; 0.3686;
      0.3410; 0.3128; 0.2849; 0.2580; 0.2480; 0.2086; 0.1754; 0.1475 ];
    [ 3.9639; 3.3341; 2.8036; 2.3578; 1.9831; 2.5012; 2.1031; 1.7687;
      1.9831; 1.6679; 1.4024; 1.4740; 1.2397; 1.2510; 1.0519; 1.0319;
      0.9918; 0.8341; 0.7890; 0.7372; 0.6819; 0.6256; 0.5699; 0.5160;
      0.4960; 0.4432; 0.4164; 0.3686; 0.3410; 0.2868; 0.2411; 0.2028 ] ]%float.

Definition representative_fns : list Z := [ 0x400; 0x840; 0x9C0; 0xD40 ].

(** ** Data model *)

(** Builds the setter of field [proj] from the eta-expansion [eta] of its
    record: the expansion with the field replaced by the new value. *)
Ltac build_setter eta proj :=
  lazymatch type of proj with
  | ?R -> ?T =>
      let v := fresh "v" in
      let s := fresh "s" in
      refine (fun (v : T) (s : R) => _);
      let e := eval cbv beta delta [eta] in (eta s) in
      lazymatch eval pattern (proj s) in e with
      | ?f _ => let r := eval cbv beta in (f v) in exact r
      end
  end.

(** [YMF271Slot]: one of the 48 operator slots. *)
Record YMF271Slot : Type := mkSlot {
  ext_en : Z;                 (* UINT8 *)
  ext_out : Z;                (* UINT8 *)
  lfoFreq : Z;                (* UINT8 *)
  lfowave : Z;                (* UINT8 *)
  pms : Z;                    (* UINT8 *)
  ams : Z;                    (* UINT8 *)
  detune : Z;                 (* UINT8 *)
  multiple : Z;               (* UINT8 *)
  tl : Z;                     (* UINT8 *)
  keyscale : Z;               (* UINT8 *)
  ar : Z;                     (* UINT8 *)
  decay1rate : Z;             (* UINT8 *)
  decay2rate : Z;             (* UINT8 *)
  decay1lvl : Z;              (* UINT8 *)
  relrate : Z;                (* UINT8 *)
  block : Z;                  (* UINT8 *)
  fns_hi : Z;                 (* UINT8 *)
  fns : Z;                    (* UINT32 *)
  feedback : Z;               (* UINT8 *)
  waveform : Z;               (* UINT8 *)
  accon : Z;                  (* UINT8 *)
  algorithm : Z;              (* UINT8 *)
  ch0_level : Z;              (* UINT8 *)
  ch1_level : Z;              (* UINT8 *)
  ch2_level : Z;              (* UINT8 *)
  ch3_level : Z;              (* UINT8 *)
  startaddr : Z;              (* UINT32 *)
  loopaddr : Z;               (* UINT32 *)
  endaddr : Z;                (* UINT32 *)
  altloop : Z;                (* UINT8 *)
  fs : Z;                     (* UINT8 *)
  srcnote : Z;                (* UINT8 *)
  srcb : Z;                   (* UINT8 *)
  step : Z;                   (* UINT32 *)
  stepptr : Z;                (* UINT64 *)
  active : Z;                 (* UINT8 *)
  bits : Z;                   (* UINT8 *)
  volume : Z;                 (* INT32 *)
  env_state : Z;              (* INT32 *)
  env_attack_step : Z;        (* INT32 *)
  env_decay1_step : Z;        (* INT32 *)
  env_decay2_step : Z;        (* INT32 *)
  env_release_step : Z;       (* INT32 *)
  feedback_modulation0 : Z;   (* INT64 *)
  feedback_modulation1 : Z;   (* INT64 *)
  lfo_phase : Z;              (* INT32 *)
  lfo_step : Z;               (* INT32 *)
  lfo_amplitude : Z;          (* INT32 *)
  lfo_phasemod : float;       (* double *)
  loop_direction : Z          (* INT8: 1 forward, -1 reverse *)
}.

Definition slot_eta (s : YMF271Slot) : YMF271Slot :=
  mkSlot (ext_en s) (ext_out s) (lfoFreq s) (lfowave s) (pms s) (ams s)
    (detune s) (multiple s) (tl s) (keyscale s) (ar s) (decay1rate s)
    (decay2rate s) (decay1lvl s) (relrate s) (block s) (fns_hi s) (fns s)
    (feedback s) (waveform s) (accon s) (algorithm s) (ch0_level s)
    (ch1_level s) (ch2_level s) (ch3_level s) (startaddr s) (loopaddr s)
    (endaddr s) (altloop s) (fs s) (srcnote s) (srcb s) (step s) (stepptr s)
    (active s) (bits s) (volume s) (env_state s) (env_attack_step s)
    (env_decay1_step s) (env_decay2_step s) (env_release_step s)
    (feedback_modulation0 s) (feedback_modulation1 s) (lfo_phase s)
    (lfo_step s) (lfo_amplitude s) (lfo_phasemod s) (loop_direction s).

Definition set_ext_en : Z -> YMF271Slot -> YMF271Slot := ltac:(build_setter slot_eta ext_en).
Definition set_ext_out : Z -> YMF271Slot -> YMF271Slot := ltac:(build_setter slot_eta ext_out).
Definition set_lfoFreq : Z -> YMF271Slot -> YMF271Slot := ltac:(build_setter slot_eta lfoFreq).
Definition set_lfowave : Z -> YMF271Slot -> YMF271Slot := ltac:(build_setter slot_eta lfowave).
Definition set_pms : Z -> YMF271Slot -> YMF271Slot := ltac:(build_setter slot_eta pms).
Definition set_ams : Z -> YMF271Slot -> YMF271Slot := ltac:(build_setter slot_eta ams).
Definition set_detune : Z -> YMF271Slot -> YMF271Slot := ltac:(build_setter slot_eta detune).
Definition set_multiple : Z -> YMF271Slot -> YMF271Slot := ltac:(build_setter slot_eta multiple).
Definition set_tl : Z -> YMF271Slot -> YMF271Slot := ltac:(build_setter slot_eta tl).
Definition set_keyscale : Z -> YMF271Slot -> YMF271Slot := ltac:(build_setter slot_eta keyscale).
Definition set_ar : Z -> YMF271Slot -> YMF271Slot := ltac:(build_setter slot_eta ar).
Definition set_decay1rate : Z -> YMF271Slot -> YMF271Slot := ltac:(build_setter slot_eta decay1rate).
Definition set_decay2rate : Z -> YMF271Slot -> YMF271Slot := ltac:(build_setter slot_eta decay2rate).
Definition set_decay1lvl : Z -> YMF271Slot -> YMF271Slot := ltac:(build_setter slot_eta decay1lvl).
Definition set_relrate : Z -> YMF271Slot -> YMF271Slot := ltac:(build_setter slot_eta relrate).
Definition set_block : Z -> YMF271Slot -> YMF271Slot := ltac:(build_setter slot_eta block).
Definition set_fns_hi : Z -> YMF271Slot -> YMF271Slot := ltac:(build_setter slot_eta fns_hi).
Definition set_fns : Z -> YMF271Slot -> YMF271Slot := ltac:(build_setter slot_eta fns).
Definition set_feedback_reg : Z -> YMF271Slot -> YMF271Slot := ltac:(build_setter slot_eta feedback).
Definition set_waveform : Z -> YMF271Slot -> YMF271Slot := ltac:(build_setter slot_eta waveform).
Definition set_accon : Z -> YMF271Slot -> YMF271Slot := ltac:(build_setter slot_eta accon).
Definition set_algorithm : Z -> YMF271Slot -> YMF271Slot := ltac:(build_setter slot_eta algorithm).
Definition set_ch0_level : Z -> YMF271Slot -> YMF271Slot := ltac:(build_setter slot_eta ch0_level).
Definition set_ch1_level : Z -> YMF271Slot -> YMF271Slot := ltac:(build_setter slot_eta ch1_level).
Definition set_ch2_level : Z -> YMF271Slot -> YMF271Slot := ltac:(build_setter slot_eta ch2_level).
Definition set_ch3_level : Z -> YMF271Slot -> YMF271Slot := ltac:(build_setter slot_eta ch3_level).
Definition set_startaddr : Z -> YMF271Slot -> YMF271Slot := ltac:(build_setter slot_eta startaddr).
Definition set_loopaddr : Z -> YMF271Slot -> YMF271Slot := ltac:(build_setter slot_eta loopaddr).
Definition set_endaddr : Z -> YMF271Slot -> YMF271Slot := ltac:(build_setter slot_eta endaddr).
Definition set_altloop : Z -> YMF271Slot -> YMF271Slot := ltac:(build_setter slot_eta altloop).
Definition set_fs : Z -> YMF271Slot -> YMF271Slot := ltac:(build_setter slot_eta fs).
Definition set_srcnote : Z -> YMF271Slot -> YMF271Slot := ltac:(build_setter slot_eta srcnote).
Definition set_srcb : Z -> YMF271Slot -> YMF271Slot := ltac:(build_setter slot_eta srcb).
Definition set_step : Z -> YMF271Slot -> YMF271Slot := ltac:(build_setter slot_eta step).
Definition set_stepptr : Z -> YMF271Slot -> YMF271Slot := ltac:(build_setter slot_eta stepptr).
Definition set_active : Z -> YMF271Slot -> YMF271Slot := ltac:(build_setter slot_eta active).
Definition set_bits : Z -> YMF271Slot -> YMF271Slot := ltac:(build_setter slot_eta bits).
Definition set_volume : Z -> YMF271Slot -> YMF271Slot := ltac:(build_setter slot_eta volume).
Definition set_env_state : Z -> YMF271Slot -> YMF271Slot := ltac:(build_setter slot_eta env_state).
Definition set_env_attack_step : Z -> YMF271Slot -> YMF271Slot := ltac:(build_setter slot_eta env_attack_step).
Definition set_env_decay1_step : Z -> YMF271Slot -> YMF271Slot := ltac:(build_setter slot_eta env_decay1_step).
Definition set_env_decay2_step : Z -> YMF271Slot -> YMF271Slot := ltac:(build_setter slot_eta env_decay2_step).
Definition set_env_release_step : Z -> YMF271Slot -> YMF271Slot := ltac:(build_setter slot_eta env_release_step).
Definition set_feedback_modulation0 : Z -> YMF271Slot -> YMF271Slot := ltac:(build_setter slot_eta feedback_modulation0).
Definition set_feedback_modulation1 : Z -> YMF271Slot -> YMF271Slot := ltac:(build_setter slot_eta feedback_modulation1).
Definition set_lfo_phase : Z -> YMF271Slot -> YMF271Slot := ltac:(build_setter slot_eta lfo_phase).
Definition set_lfo_step : Z -> YMF271Slot -> YMF271Slot := ltac:(build_setter slot_eta lfo_step).
Definition set_lfo_amplitude : Z -> YMF271Slot -> YMF271Slot := ltac:(build_setter slot_eta lfo_amplitude).
Definition set_lfo_phasemod : float -> YMF271Slot -> YMF271Slot := ltac:(build_setter slot_eta lfo_phasemod).
Definition set_loop_direction : Z -> YMF271Slot -> YMF271Slot := ltac:(build_setter slot_eta loop_direction).

(** [YMF271Group]: sync mode and PFM flag shared by the four slots of a
    group, and the host's mute flag. *)
Record YMF271Group : Type := mkGroup {
  sync : Z;                   (* UINT8 *)
  pfm : Z;                    (* UINT8 *)
  Muted : Z                   (* UINT8 *)
}.

Definition group_eta (g : YMF271Group) : YMF271Group :=
  mkGroup (sync g) (pfm g) (Muted g).

Definition set_sync : Z -> YMF271Group -> YMF271Group := ltac:(build_setter group_eta sync).
Definition set_pfm : Z -> YMF271Group -> YMF271Group := ltac:(build_setter group_eta pfm).
Definition set_Muted : Z -> YMF271Group -> YMF271Group := ltac:(build_setter group_eta Muted).

(** [YMF271Chip]: the device.  The lookup tables are functions of their
    indices.  [mem_base] is [None] for the null pointer.  The host's
    callbacks are kept as "is it set" flags; [irq_calls] and [ext_writes]
    record, oldest first, the arguments the callbacks were invoked with. *)
Record YMF271Chip : Type := mkChip {
  lut_waves : Z -> Z -> Z;            (* INT16 *lut_waves[8] *)
  lut_plfo : Z -> Z -> Z -> float;    (* double *lut_plfo[4][8] *)
  lut_alfo : Z -> Z -> Z;             (* int *lut_alfo[4] *)
  lut_ar : Z -> float;                (* double lut_ar[64] *)
  lut_dc : Z -> float;                (* double lut_dc[64] *)
  lut_lfo : Z -> float;               (* double lut_lfo[256] *)
  lut_attenuation : Z -> Z;           (* int lut_attenuation[16] *)
  lut_total_level : Z -> Z;           (* int lut_total_level[128] *)
  lut_env_volume : Z -> Z;            (* int lut_env_volume[256] *)
  lut_detune : Z -> Z -> Z;           (* INT32 lut_detune[8][32] *)
  slots : list YMF271Slot;            (* YMF271Slot slots[48] *)
  groups : list YMF271Group;          (* YMF271Group groups[12] *)
  regs_main : list Z;                 (* UINT8 regs_main[0x10] *)
  timerA : Z;                         (* UINT32 *)
  timerB : Z;                         (* UINT32 *)
  timerAVal : Z;                      (* UINT32 *)
  timerBVal : Z;                      (* UINT32 *)
  irqstate : Z;                       (* UINT8 *)
  status : Z;                         (* UINT8 *)
  end_status : Z;                     (* UINT16 *)
  enable : Z;                         (* UINT8 *)
  ext_address : Z;                    (* UINT32 *)
  ext_rw : Z;                         (* UINT8 *)
  ext_readlatch : Z;                  (* UINT8 *)
  busy_flag : Z;                      (* UINT8 *)
  mem_base : option (list Z);         (* UINT8 *mem_base *)
  mem_size : Z;                       (* UINT32 *)
  clock : Z;                          (* UINT32 *)
  mixbuf_smpls : Z;                   (* UINT32 *)
  mix_buffer : list Z;                (* INT32 *mix_buffer *)
  acc_buffer : list Z;                (* INT32 *acc_buffer *)
  irq_handler : bool;                 (* irq_handler != NULL *)
  ext_write_handler : bool;           (* ext_write_handler != NULL *)
  debug_envelope : Z;                 (* UINT8 *)
  irq_calls : list Z;
  ext_writes : list (Z * Z)
}.

Definition chip_eta (c : YMF271Chip) : YMF271Chip :=
  mkChip (lut_waves c) (lut_plfo c) (lut_alfo c) (lut_ar c) (lut_dc c)
    (lut_lfo c) (lut_attenuation c) (lut_total_level c) (lut_env_volume c)
    (lut_detune c) (slots c) (groups c) (regs_main c) (timerA c) (timerB c)
    (timerAVal c) (timerBVal c) (irqstate c) (status c) (end_status c)
    (enable c) (ext_address c) (ext_rw c) (ext_readlatch c) (busy_flag c)
    (mem_base c) (mem_size c) (clock c) (mixbuf_smpls c) (mix_buffer c)
    (acc_buffer c) (irq_handler c) (ext_write_handler c) (debug_envelope c)
    (irq_calls c) (ext_writes c).

Definition set_lut_waves : (Z -> Z -> Z) -> YMF271Chip -> YMF271Chip := ltac:(build_setter chip_eta lut_waves).
Definition set_lut_plfo : (Z -> Z -> Z -> float) -> YMF271Chip -> YMF271Chip := ltac:(build_setter chip_eta lut_plfo).
Definition set_lut_alfo : (Z -> Z -> Z) -> YMF271Chip -> YMF271Chip := ltac:(build_setter chip_eta lut_alfo).
Definition set_lut_ar : (Z -> float) -> YMF271Chip -> YMF271Chip := ltac:(build_setter chip_eta lut_ar).
Definition set_lut_dc : (Z -> float) -> YMF271Chip -> YMF271Chip := ltac:(build_setter chip_eta lut_dc).
Definition set_lut_lfo : (Z -> float) -> YMF271Chip -> YMF271Chip := ltac:(build_setter chip_eta lut_lfo).
Definition set_lut_attenuation : (Z -> Z) -> YMF271Chip -> YMF271Chip := ltac:(build_setter chip_eta lut_attenuation).
Definition set_lut_total_level : (Z -> Z) -> YMF271Chip -> YMF271Chip := ltac:(build_setter chip_eta lut_total_level).
Definition set_lut_env_volume : (Z -> Z) -> YMF271Chip -> YMF271Chip := ltac:(build_setter chip_eta lut_env_volume).
Definition set_lut_detune : (Z -> Z -> Z) -> YMF271Chip -> YMF271Chip := ltac:(build_setter chip_eta lut_detune).
Definition set_slots : list YMF271Slot -> YMF271Chip -> YMF271Chip := ltac:(build_setter chip_eta slots).
Definition set_groups : list YMF271Group -> YMF271Chip -> YMF271Chip := ltac:(build_setter chip_eta groups).
Definition set_regs_main : list Z -> YMF271Chip -> YMF271Chip := ltac:(build_setter chip_eta regs_main).
Definition set_timerA : Z -> YMF271Chip -> YMF271Chip := ltac:(build_setter chip_eta timerA).
Definition set_timerB : Z -> YMF271Chip -> YMF271Chip := ltac:(build_setter chip_eta timerB).
Definition set_irqstate : Z -> YMF271Chip -> YMF271Chip := ltac:(build_setter chip_eta irqstate).
Definition set_status : Z -> YMF271Chip -> YMF271Chip := ltac:(build_setter chip_eta status).
Definition set_end_status : Z -> YMF271Chip -> YMF271Chip := ltac:(build_setter chip_eta end_status).
Definition set_enable : Z -> YMF271Chip -> YMF271Chip := ltac:(build_setter chip_eta enable).
Definition set_ext_address : Z -> YMF271Chip -> YMF271Chip := ltac:(build_setter chip_eta ext_address).
Definition set_ext_rw : Z -> YMF271Chip -> YMF271Chip := ltac:(build_setter chip_eta ext_rw).
Definition set_ext_readlatch : Z -> YMF271Chip -> YMF271Chip := ltac:(build_setter chip_eta ext_readlatch).
Definition set_busy_flag : Z -> YMF271Chip -> YMF271Chip := ltac:(build_setter chip_eta busy_flag).
Definition set_mem_base : option (list Z) -> YMF271Chip -> YMF271Chip := ltac:(build_setter chip_eta mem_base).
Definition set_mem_size : Z -> YMF271Chip -> YMF271Chip := ltac:(build_setter chip_eta mem_size).
Definition set_clock : Z -> YMF271Chip -> YMF271Chip := ltac:(build_setter chip_eta clock).
Definition set_mixbuf_smpls : Z -> YMF271Chip -> YMF271Chip := ltac:(build_setter chip_eta mixbuf_smpls).
Definition set_mix_buffer : list Z -> YMF271Chip -> YMF271Chip := ltac:(build_setter chip_eta mix_buffer).
Definition set_acc_buffer : list Z -> YMF271Chip -> YMF271Chip := ltac:(build_setter chip_eta acc_buffer).
Definition set_irq_handler : bool -> YMF271Chip -> YMF271Chip := ltac:(build_setter chip_eta irq_handler).
Definition set_ext_write_handler : bool -> YMF271Chip -> YMF271Chip := ltac:(build_setter chip_eta ext_write_handler).
Definition set_debug_envelope : Z -> YMF271Chip -> YMF271Chip := ltac:(build_setter chip_eta debug_envelope).
Definition set_irq_calls : list Z -> YMF271Chip -> YMF271Chip := ltac:(build_setter chip_eta irq_calls).
Definition set_ext_writes : list (Z * Z) -> YMF271Chip -> YMF271Chip := ltac:(build_setter chip_eta ext_writes).

(** A zero-filled slot and group, as [calloc] leaves them. *)
Definition slot_zero : YMF271Slot :=
  mkSlot 0 0 0 0 0 0 0 0 0 0 0 0 0 0 0 0 0 0 0 0 0 0 0 0 0 0 0 0 0 0 0 0 0
    0 0 0 0 0 0 0 0 0 0 0 0 0 0 0 0%float 0.
Definition group_zero : YMF271Group := mkGroup 0 0 0.

(** [chip->slots[n]], [chip->groups[n]] and their assignment.  The C code
    only forms indices below 48 and 12; an index outside the array reads
    the zero element here and a store to it is dropped. *)
Definition get_slot (chip : YMF271Chip) (n : Z) : YMF271Slot :=
  default slot_zero (slots chip !! Z.to_nat n).
Definition put_slot (n : Z) (s : YMF271Slot) (chip : YMF271Chip) : YMF271Chip :=
  set_slots (<[Z.to_nat n := s]> (slots chip)) chip.
Definition get_group (chip : YMF271Chip) (n : Z) : YMF271Group :=
  default group_zero (groups chip !! Z.to_nat n).
Definition put_group (n : Z) (g : YMF271Group) (chip : YMF271Chip) : YMF271Chip :=
  set_groups (<[Z.to_nat n := g]> (groups chip)) chip.

(** Element [i] of a sample buffer or register array, and its store. *)
Definition buf_set (i v : Z) (l : list Z) : list Z := <[Z.to_nat i := v]> l.

(** [chip->irq_handler(chip->irq_param, arg)]: the call is logged. *)
Definition call_irq_handler (arg : Z) (chip : YMF271Chip) : YMF271Chip :=
  set_irq_calls (irq_calls chip ++ [arg]) chip.

(** [chip->ext_write_handler(chip->ext_param, address, data)]. *)
Definition call_ext_write_handler (address data : Z) (chip : YMF271Chip)
  : YMF271Chip :=
  set_ext_writes (ext_writes chip ++ [(address, data)]) chip.

(** The loop [for (i = i0; i < i0 + n; i++) body], on the chip state. *)
Fixpoint for_range (i : Z) (n : nat) (body : Z -> YMF271Chip -> YMF271Chip)
  (chip : YMF271Chip) : YMF271Chip :=
  match n with
  | O => chip
  | S n' => for_range (i + 1) n' body (body i chip)
  end.

(** ** Phase step *)

Definition get_internal_keycode (block fns : Z) : Z :=
  let n43 :=
    if fns <? 0x780 then 0
    else if fns <? 0x900 then 1
    else if fns <? 0xa80 then 2
    else 3 in
  Z.land block 7 * 4 + n43.

Definition calculate_step (chip : YMF271Chip) (slot : YMF271Slot)
  : YMF271Slot :=
  if waveform slot =? 7 then
    (* external waveform (PCM) *)
    let st := (double_of_Z (to_UINT32 (2 * Z.lor (fns slot) 2048))
               * ftab pow_table (block slot)
               * ftab fs_frequency (fs slot))%float in
    let st := (st * ftab multiple_table (multiple slot))%float in
    let st := (st * lfo_phasemod slot)%float in
    let st := (st / (524288.0 / 65536.0))%float in
    set_step (uint32_of_double st) slot
  else
    (* internal waveform (FM) *)
    let keycode := get_internal_keycode (block slot) (fns slot) in
    let detune_offset := lut_detune chip (detune slot) keycode in
    let fns_detuned := to_INT32 (to_INT32 (fns slot) + detune_offset) in
    let fns_detuned := if fns_detuned <? 0 then 0 else fns_detuned in
    let st := (double_of_Z (to_INT32 (2 * fns_detuned))
               * ftab pow_table (block slot))%float in
    let st := (st * ftab multiple_table (multiple slot)
               * double_of_Z SIN_LEN)%float in
    let st := (st * lfo_phasemod slot)%float in
    let st := (st / (536870912.0 / 65536.0))%float in
    set_step (uint32_of_double st) slot.

(** ** Envelope generator *)

Definition check_envelope_end (slot : YMF271Slot) : Z * YMF271Slot :=
  if volume slot <=? 0 then (1, set_volume 0 (set_active 0 slot))
  else (0, slot).

(** Sets or clears the end-status bit of a slot; only the slots whose
    number is a multiple of 4 have one. *)
Definition calculate_status_end (chip : YMF271Chip) (slotnum state : Z)
  : YMF271Chip :=
  if nonzero (Z.land slotnum 3) then chip
  else
    let subbit := to_UINT8 (Z.quot slotnum 12) in
    let bankbit := to_UINT8 (Z.shiftr (Z.rem slotnum 12) 2) in
    let bit := Z.shiftl 1 (subbit + bankbit * 4) in
    if nonzero state then
      set_end_status (to_UINT16 (Z.lor (end_status chip) bit)) chip
    else
      set_end_status (to_UINT16 (Z.land (end_status chip) (Z.lnot bit))) chip.

Definition update_envelope (slot : YMF271Slot) : YMF271Slot :=
  if env_state slot =? ENV_ATTACK then
    let slot := set_volume (to_INT32 (volume slot + env_attack_step slot)) slot in
    if Z.shiftl 255 ENV_VOLUME_SHIFT <=? volume slot then
      set_env_state ENV_DECAY1
        (set_volume (Z.shiftl 255 ENV_VOLUME_SHIFT) slot)
    else slot
  else if env_state slot =? ENV_DECAY1 then
    let decay_level := 255 - Z.shiftl (decay1lvl slot) 4 in
    let slot := set_volume (to_INT32 (volume slot - env_decay1_step slot)) slot in
    let '(ended, slot) := check_envelope_end slot in
    if negb (nonzero ended)
       && (Z.shiftr (volume slot) ENV_VOLUME_SHIFT <=? decay_level)
    then set_env_state ENV_DECAY2 slot
    else slot
  else if env_state slot =? ENV_DECAY2 then
    let slot := set_volume (to_INT32 (volume slot - env_decay2_step slot)) slot in
    snd (check_envelope_end slot)
  else if env_state slot =? ENV_RELEASE then
    let slot := set_volume (to_INT32 (volume slot - env_release_step slot)) slot in
    snd (check_envelope_end slot)
  else slot.

Definition get_keyscaled_rate (rate keycode keyscale : Z) : Z :=
  let newrate :=
    rate + tab (default [] (RKS_Table !! Z.to_nat keycode)) keyscale in
  let newrate := if 63 <? newrate then 63 else newrate in
  let newrate := if newrate <? 0 then 0 else newrate in
  newrate.

Definition get_external_keycode (block fns srcb srcnote : Z) : Z :=
  let n43 :=
    if fns <? 0x100 then 0
    else if fns <? 0x300 then 1
    else if fns <? 0x500 then 2
    else 3 in
  let src_keycode := srcb * 4 + srcnote in
  let block_keycode := Z.land block 7 * 4 + n43 in
  let keycode := src_keycode + block_keycode in
  if 31 <? keycode then 31 else keycode.

(** Step of one envelope stage: [(int)(((double)num / lut[rate]) * 65536.0)],
    and 0 for the rates below 4. *)
Definition env_step (lut : Z -> float) (num rate : Z) : Z :=
  if rate <? 4 then 0
  else int_of_double (double_of_Z num / lut rate * 65536.0)%float.

Definition init_envelope (chip : YMF271Chip) (slot : YMF271Slot)
  : YMF271Slot :=
  let decay_level := 255 - Z.shiftl (decay1lvl slot) 4 in
  let keycode :=
    if negb (waveform slot =? 7) then
      get_internal_keycode (block slot) (fns slot)
    else
      get_external_keycode (block slot) (Z.land (fns slot) 0x7ff)
        (srcb slot) (srcnote slot) in
  let rate := get_keyscaled_rate (ar slot * 2) keycode (keyscale slot) in
  let slot := set_env_attack_step (env_step (lut_ar chip) (255 - 0) rate) slot in
  let rate := get_keyscaled_rate (decay1rate slot * 2) keycode (keyscale slot) in
  let slot :=
    set_env_decay1_step (env_step (lut_dc chip) (255 - decay_level) rate) slot in
  let rate := get_keyscaled_rate (decay2rate slot * 2) keycode (keyscale slot) in
  let slot := set_env_decay2_step (env_step (lut_dc chip) (255 - 0) rate) slot in
  let rate := get_keyscaled_rate (relrate slot * 4) keycode (keyscale slot) in
  let slot := set_env_release_step (env_step (lut_dc chip) (255 - 0) rate) slot in
  let slot := set_volume (Z.shiftl (255 - 160) ENV_VOLUME_SHIFT) slot in
  set_env_state ENV_ATTACK slot.

(** ** LFO *)

Definition init_lfo (chip : YMF271Chip) (slot : YMF271Slot) : YMF271Slot :=
  let slot := set_lfo_phase 0 slot in
  let slot := set_lfo_amplitude (lut_alfo chip (lfowave slot) 0) slot in
  let slot := set_lfo_phasemod (lut_plfo chip (lfowave slot) (pms slot) 0) slot in
  set_lfo_step
    (int_of_double
       (double_of_Z LFO_LENGTH * lut_lfo chip (lfoFreq slot) / 44100.0
        * 256.0)%float)
    slot.

Definition update_lfo (chip : YMF271Chip) (slot : YMF271Slot) : YMF271Slot :=
  let slot := set_lfo_phase (to_INT32 (lfo_phase slot + lfo_step slot)) slot in
  let idx := Z.land (Z.shiftr (lfo_phase slot) LFO_SHIFT) (LFO_LENGTH - 1) in
  let slot := set_lfo_amplitude (lut_alfo chip (lfowave slot) idx) slot in
  let slot := set_lfo_phasemod (lut_plfo chip (lfowave slot) (pms slot) idx) slot in
  calculate_step chip slot.

(** ** Slot volume: envelope, amplitude LFO and total level *)

Definition calculate_slot_volume (chip : YMF271Chip) (slot : YMF271Slot) : Z :=
  let lfo_volume :=
    if ams slot =? 0 then 65536
    else if ams slot =? 1 then
      65536 - Z.shiftr (to_INT32 (lfo_amplitude slot * 33124)) 16
    else if ams slot =? 2 then
      65536 - Z.shiftr (to_INT32 (lfo_amplitude slot * 16742)) 16
    else if ams slot =? 3 then
      65536 - Z.shiftr (to_INT32 (lfo_amplitude slot * 4277)) 16
    else 65536 in
  let env_volume :=
    Z.shiftr
      (to_INT64
         (lut_env_volume chip (255 - Z.shiftr (volume slot) ENV_VOLUME_SHIFT)
          * lfo_volume))
      16 in
  let volume := to_INT32 (Z.shiftr (to_INT64 (env_volume * lut_total_level chip (tl slot))) 16) in
  volume.

(** ** External memory *)

(** The index at which [ymf271_read_memory] dereferences [mem_base] for a
    requested offset, if it does: the offset masked to 23 bits, when that
    is below [mem_size]. *)
Definition rom_index (chip : YMF271Chip) (offset : Z) : option Z :=
  let offset := Z.land (to_UINT32 offset) 0x7fffff in
  if offset <? mem_size chip then Some offset else None.

(** [chip->mem_base[i]]. *)
Definition mem_byte (chip : YMF271Chip) (i : Z) : Z :=
  match mem_base chip with
  | Some m => default 0 (m !! Z.to_nat i)
  | None => 0
  end.

Definition ymf271_read_memory (chip : YMF271Chip) (offset : Z) : Z :=
  match rom_index chip offset with
  | Some i => mem_byte chip i
  | None => 0
  end.

(** ** PCM playback *)

(** Loop handling at the top of each sample of [update_pcm]. *)
Definition pcm_loop (chip : YMF271Chip) (slotnum : Z) (slot : YMF271Slot)
  : YMF271Chip * YMF271Slot :=
  if 0 <? loop_direction slot then
    (* forward playback *)
    if endaddr slot <? Z.shiftr (stepptr slot) 16 then
      let slot :=
        if nonzero (altloop slot) then
          (* alternate loop: reverse direction at end *)
          let slot := set_loop_direction (-1) slot in
          set_stepptr
            (Z.lor (Z.shiftl (endaddr slot) 16) (Z.land (stepptr slot) 0xffff))
            slot
        else
          (* normal loop: jump to loop address *)
          let slot :=
            set_stepptr
              (to_UINT64 (stepptr slot - Z.shiftl (endaddr slot) 16
                          + Z.shiftl (loopaddr slot) 16))
              slot in
          if endaddr slot <? Z.shiftr (stepptr slot) 16 then
            (* overflow *)
            let slot := set_stepptr (Z.land (stepptr slot) 0xffff) slot in
            let slot :=
              set_stepptr (Z.lor (stepptr slot) (Z.shiftl (loopaddr slot) 16))
                slot in
            if endaddr slot <? Z.shiftr (stepptr slot) 16 then
              (* still overflow *)
              let slot := set_stepptr (Z.land (stepptr slot) 0xffff) slot in
              set_stepptr (Z.lor (stepptr slot) (Z.shiftl (endaddr slot) 16))
                slot
            else slot
          else slot in
      (calculate_status_end chip slotnum 1, slot)
    else (chip, slot)
  else
    (* reverse playback (alternate loop mode) *)
    if to_INT64 (Z.shiftr (stepptr slot) 16) <? to_INT64 (loopaddr slot) then
      let slot := set_loop_direction 1 slot in
      (chip,
       set_stepptr
         (Z.lor (Z.shiftl (loopaddr slot) 16) (Z.land (stepptr slot) 0xffff))
         slot)
    else (chip, slot).

(** The sample fetch of [update_pcm], reading memory through [rd]. *)
Definition pcm_fetch_with (rd : Z -> Z) (slot : YMF271Slot) : Z :=
  if bits slot =? 8 then
    (* 8bit *)
    to_INT16 (Z.shiftl (rd (startaddr slot + Z.shiftr (stepptr slot) 16)) 8)
  else
    (* 12bit packed format: 3 bytes store 2 samples *)
    let sample_index := to_UINT32 (Z.shiftr (stepptr slot) 16) in
    let byte_offset := to_UINT32 (Z.shiftr sample_index 1 * 3) in
    if nonzero (Z.land sample_index 1) then
      to_INT16
        (Z.lor (Z.shiftl (rd (startaddr slot + byte_offset + 2)) 8)
               (Z.shiftl (Z.land (rd (startaddr slot + byte_offset + 1)) 0x0f) 4))
    else
      to_INT16
        (Z.lor (Z.shiftl (rd (startaddr slot + byte_offset)) 8)
               (Z.land (rd (startaddr slot + byte_offset + 1)) 0xf0)).

Definition pcm_fetch (chip : YMF271Chip) (slot : YMF271Slot) : Z :=
  pcm_fetch_with (ymf271_read_memory chip) slot.

(** The clamp to the 18-bit accumulator range. *)
Definition acc_saturate (x : Z) : Z :=
  if ACC_18BIT_MAX <? x then ACC_18BIT_MAX
  else if x <? ACC_18BIT_MIN then ACC_18BIT_MIN
  else x.

(** Accon=1: the sample times the accumulation factor, saturated to 18
    bits, then scaled to 16 bits. *)
Definition pcm_acc_output (slot : YMF271Slot) (sample : Z) : Z :=
  let accumulation_factor :=
    to_INT32 (if tl slot =? 0 then ACC_TL_SCALE else tl slot * ACC_TL_SCALE) in
  let accumulated := to_INT64 (sample * accumulation_factor) in
  let accumulated := acc_saturate accumulated in
  to_INT32 (Z.shiftr accumulated 2).

(** Accon=1: one channel of the shared accumulator buffer. *)
Definition pcm_acc_channel (chip : YMF271Chip) (idx output level : Z)
  (accp : list Z) : list Z :=
  let acc :=
    to_INT32 (tab accp idx
              + Z.shiftr (to_INT32 (output * lut_attenuation chip level)) 16) in
  let acc := acc_saturate acc in
  buf_set idx (to_INT32 acc) accp.

(** Accon=0: volume of one channel, and its addition to the mix buffer. *)
Definition pcm_ch_vol (chip : YMF271Chip) (final_volume level : Z) : Z :=
  let ch_vol :=
    Z.shiftr (to_INT64 (final_volume * lut_attenuation chip level)) 16 in
  if 65536 <? ch_vol then 65536 else ch_vol.

Definition pcm_mix_channel (idx sample ch_vol : Z) (mixp : list Z) : list Z :=
  buf_set idx
    (to_INT32 (tab mixp idx + Z.shiftr (to_INT64 (sample * ch_vol)) 16)) mixp.

(** Sample [i] of the loop of [update_pcm].  The slot is the element
    [slotnum] of [chip->slots], and [mixp] is [chip->mix_buffer] at both
    call sites. *)
Definition update_pcm_sample (slotnum i : Z) (chip : YMF271Chip)
  : YMF271Chip :=
  let slot := get_slot chip slotnum in
  let '(chip, slot) := pcm_loop chip slotnum slot in
  let sample := pcm_fetch chip slot in
  let slot := update_envelope slot in
  let slot := update_lfo chip slot in
  let chip :=
    if nonzero (accon slot) then
      let output := pcm_acc_output slot sample in
      let accp := acc_buffer chip in
      let accp := pcm_acc_channel chip (to_UINT32 (i * 4 + 0)) output (ch0_level slot) accp in
      let accp := pcm_acc_channel chip (to_UINT32 (i * 4 + 1)) output (ch1_level slot) accp in
      let accp := pcm_acc_channel chip (to_UINT32 (i * 4 + 2)) output (ch2_level slot) accp in
      let accp := pcm_acc_channel chip (to_UINT32 (i * 4 + 3)) output (ch3_level slot) accp in
      set_acc_buffer accp chip
    else
      let final_volume := calculate_slot_volume chip slot in
      let ch0_vol := pcm_ch_vol chip final_volume (ch0_level slot) in
      let ch1_vol := pcm_ch_vol chip final_volume (ch1_level slot) in
      let ch2_vol := pcm_ch_vol chip final_volume (ch2_level slot) in
      let ch3_vol := pcm_ch_vol chip final_volume (ch3_level slot) in
      let mixp := mix_buffer chip in
      let mixp := pcm_mix_channel (to_UINT32 (i * 4 + 0)) sample ch0_vol mixp in
      let mixp := pcm_mix_channel (to_UINT32 (i * 4 + 1)) sample ch1_vol mixp in
      let mixp := pcm_mix_channel (to_UINT32 (i * 4 + 2)) sample ch2_vol mixp in
      let mixp := pcm_mix_channel (to_UINT32 (i * 4 + 3)) sample ch3_vol mixp in
      set_mix_buffer mixp chip in
  (* go to next step (forward or reverse based on direction) *)
  let slot :=
    if 0 <? loop_direction slot then
      set_stepptr (to_UINT64 (stepptr slot + step slot)) slot
    else
      set_stepptr (to_UINT64 (stepptr slot - step slot)) slot in
  put_slot slotnum slot chip.

Definition update_pcm (chip : YMF271Chip) (slotnum length : Z) : YMF271Chip :=
  if negb (nonzero (active (get_slot chip slotnum))) then chip
  else for_range 0 (Z.to_nat length) (update_pcm_sample slotnum) chip.

(** ** FM operators *)

(** Computations that read and update the chip and return a value. *)
Definition op (A : Type) : Type := YMF271Chip -> A * YMF271Chip.

#[export] Instance op_ret : MRet op := fun A a chip => (a, chip).
#[export] Instance op_bind : MBind op :=
  fun A B f m chip => let '(a, chip') := m chip in f a chip'.

(** Calculates the output of one FM operator. *)
Definition calculate_op (slotnum inp : Z) : op Z := fun chip =>
  let slot := get_slot chip slotnum in
  let slot := update_envelope slot in
  let slot := update_lfo chip slot in
  let env := calculate_slot_volume chip slot in
  let '(slot_input, slot) :=
    if inp =? OP_INPUT_FEEDBACK then
      (* from own feedback *)
      (Z.quot
         (to_INT64 (feedback_modulation0 slot + feedback_modulation1 slot)) 2,
       set_feedback_modulation0 (feedback_modulation1 slot) slot)
    else if negb (inp =? OP_INPUT_NONE) then
      (* from previous slot output *)
      (to_INT64 (to_INT64 (Z.shiftl inp (SIN_BITS - 2))
                 * tab modulation_level (feedback slot)),
       slot)
    else (0, slot) in
  let slot_output :=
    lut_waves chip (waveform slot)
      (Z.land (Z.shiftr (to_UINT64 (stepptr slot + slot_input)) 16) SIN_MASK) in
  let slot_output := Z.shiftr (to_INT64 (slot_output * env)) 16 in
  let slot := set_stepptr (to_UINT64 (stepptr slot + step slot)) slot in
  (slot_output, put_slot slotnum slot chip).

Definition set_feedback (slotnum inp : Z) : op unit := fun chip =>
  let slot := get_slot chip slotnum in
  let slot :=
    set_feedback_modulation1
      (Z.quot
         (to_INT64 (to_INT64 (Z.shiftl inp (SIN_BITS - 2))
                    * tab feedback_level (feedback slot)))
         4)
      slot in
  (tt, put_slot slotnum slot chip).

(** Calculates the output of one FM operator in PFM mode: the carrier
    sample is read from external memory at the modulated position. *)
Definition calculate_op_pfm (slotnum inp : Z) : op Z := fun chip =>
  let slot := get_slot chip slotnum in
  let slot := update_envelope slot in
  let slot := update_lfo chip slot in
  let env := calculate_slot_volume chip slot in
  let '(slot_input, slot) :=
    if inp =? OP_INPUT_FEEDBACK then
      (Z.quot
         (to_INT64 (feedback_modulation0 slot + feedback_modulation1 slot)) 2,
       set_feedback_modulation0 (feedback_modulation1 slot) slot)
    else if negb (inp =? OP_INPUT_NONE) then
      (to_INT64 (to_INT64 (Z.shiftl inp (SIN_BITS - 2))
                 * tab modulation_level (feedback slot)),
       slot)
    else (0, slot) in
  let modulated_stepptr := to_INT64 (to_INT64 (stepptr slot) + slot_input) in
  let modulated_stepptr :=
    if modulated_stepptr <? 0 then 0 else modulated_stepptr in
  let sample_offset := to_UINT32 (Z.shiftr modulated_stepptr 16) in
  let sample_length := to_UINT32 (endaddr slot - startaddr slot) in
  let sample_offset :=
    if sample_length <? sample_offset then
      if loopaddr slot <=? endaddr slot then
        let loop_length := to_UINT32 (endaddr slot - loopaddr slot) in
        if 0 <? loop_length then
          to_UINT32
            (loopaddr slot - startaddr slot
             + Z.rem (to_UINT32 (sample_offset - sample_length)) loop_length)
        else sample_length
      else sample_length
    else sample_offset in
  let rd := ymf271_read_memory chip in
  let sample :=
    if bits slot =? 8 then
      to_INT16 (Z.shiftl (rd (to_UINT32 (startaddr slot + sample_offset))) 8)
    else
      let byte_offset := to_UINT32 (Z.shiftr sample_offset 1 * 3) in
      let pcm_addr := to_UINT32 (startaddr slot + byte_offset) in
      if nonzero (Z.land sample_offset 1) then
        to_INT16
          (Z.lor (Z.shiftl (rd (pcm_addr + 2)) 8)
                 (Z.shiftl (Z.land (rd (pcm_addr + 1)) 0x0f) 4))
      else
        to_INT16
          (Z.lor (Z.shiftl (rd pcm_addr) 8) (Z.land (rd (pcm_addr + 1)) 0xf0)) in
  let slot_output := Z.shiftr (to_INT64 (sample * env)) 16 in
  let slot := set_stepptr (to_UINT64 (stepptr slot + step slot)) slot in
  (slot_output, put_slot slotnum slot chip).

(** [pfm_enabled ? calculate_op_pfm(chip, slot, inp) : calculate_op(chip, slot, inp)] *)
Definition carrier (pfm_enabled slotnum inp : Z) : op Z :=
  if nonzero pfm_enabled then calculate_op_pfm slotnum inp
  else calculate_op slotnum inp.

(** [pfm_enabled ? calculate_op_pfm(chip, slot, inp) : value] *)
Definition carrier_or (pfm_enabled slotnum inp value : Z) : op Z :=
  if nonzero pfm_enabled then calculate_op_pfm slotnum inp
  else mret value.

(** ** Group dispatcher *)

(** The sixteen 4-operator topologies; the result is
    [(output1, output2, output3, output4)], zero for a modulator. *)
Definition fm4_algorithm (slot1 slot2 slot3 slot4 pfm_enabled alg : Z)
  : op (Z * Z * Z * Z) :=
  match alg with
  | 0 =>
      phase_mod1 ← calculate_op slot1 OP_INPUT_FEEDBACK;
      set_feedback slot1 phase_mod1;;
      phase_mod3 ← calculate_op slot3 phase_mod1;
      phase_mod2 ← calculate_op slot2 phase_mod3;
      output4 ← carrier pfm_enabled slot4 phase_mod2;
      mret (0, 0, 0, output4)
  | 1 =>
      phase_mod1 ← calculate_op slot1 OP_INPUT_FEEDBACK;
      phase_mod3 ← calculate_op slot3 phase_mod1;
      set_feedback slot1 phase_mod3;;
      phase_mod2 ← calculate_op slot2 phase_mod3;
      output4 ← carrier pfm_enabled slot4 phase_mod2;
      mret (0, 0, 0, output4)
  | 2 =>
      phase_mod1 ← calculate_op slot1 OP_INPUT_FEEDBACK;
      set_feedback slot1 phase_mod1;;
      phase_mod3 ← calculate_op slot3 OP_INPUT_NONE;
      phase_mod2 ← calculate_op slot2 (Z.quot (to_INT64 (phase_mod1 + phase_mod3)) 1);
      output4 ← carrier pfm_enabled slot4 phase_mod2;
      mret (0, 0, 0, output4)
  | 3 =>
      phase_mod1 ← calculate_op slot1 OP_INPUT_FEEDBACK;
      set_feedback slot1 phase_mod1;;
      phase_mod3 ← calculate_op slot3 OP_INPUT_NONE;
      phase_mod2 ← calculate_op slot2 phase_mod3;
      output4 ← carrier pfm_enabled slot4 (Z.quot (to_INT64 (phase_mod1 + phase_mod2)) 1);
      mret (0, 0, 0, output4)
  | 4 =>
      phase_mod1 ← calculate_op slot1 OP_INPUT_FEEDBACK;
      set_feedback slot1 phase_mod1;;
      phase_mod3 ← calculate_op slot3 phase_mod1;
      phase_mod2 ← calculate_op slot2 OP_INPUT_NONE;
      output4 ← carrier pfm_enabled slot4 (Z.quot (to_INT64 (phase_mod3 + phase_mod2)) 1);
      mret (0, 0, 0, output4)
  | 5 =>
      phase_mod1 ← calculate_op slot1 OP_INPUT_FEEDBACK;
      phase_mod3 ← calculate_op slot3 phase_mod1;
      set_feedback slot1 phase_mod3;;
      phase_mod2 ← calculate_op slot2 OP_INPUT_NONE;
      output4 ← carrier pfm_enabled slot4 (Z.quot (to_INT64 (phase_mod3 + phase_mod2)) 1);
      mret (0, 0, 0, output4)
  | 6 =>
      phase_mod1 ← calculate_op slot1 OP_INPUT_FEEDBACK;
      set_feedback slot1 phase_mod1;;
      output3 ← carrier pfm_enabled slot3 phase_mod1;
      phase_mod2 ← calculate_op slot2 OP_INPUT_NONE;
      output4 ← carrier pfm_enabled slot4 phase_mod2;
      mret (0, 0, output3, output4)
  | 7 =>
      phase_mod1 ← calculate_op slot1 OP_INPUT_FEEDBACK;
      phase_mod3 ← calculate_op slot3 phase_mod1;
      set_feedback slot1 phase_mod3;;
      output3 ← carrier_or pfm_enabled slot3 phase_mod1 phase_mod3;
      phase_mod2 ← calculate_op slot2 OP_INPUT_NONE;
      output4 ← carrier pfm_enabled slot4 phase_mod2;
      mret (0, 0, output3, output4)
  | 8 =>
      phase_mod1 ← calculate_op slot1 OP_INPUT_FEEDBACK;
      set_feedback slot1 phase_mod1;;
      output1 ← carrier_or pfm_enabled slot1 OP_INPUT_FEEDBACK phase_mod1;
      phase_mod3 ← calculate_op slot3 OP_INPUT_NONE;
      phase_mod2 ← calculate_op slot2 phase_mod3;
      output4 ← carrier pfm_enabled slot4 phase_mod2;
      mret (output1, 0, 0, output4)
  | 9 =>
      phase_mod1 ← calculate_op slot1 OP_INPUT_FEEDBACK;
      set_feedback slot1 phase_mod1;;
      output1 ← carrier_or pfm_enabled slot1 OP_INPUT_FEEDBACK phase_mod1;
      phase_mod3 ← calculate_op slot3 OP_INPUT_NONE;
      phase_mod2 ← calculate_op slot2 OP_INPUT_NONE;
      output4 ← carrier pfm_enabled slot4 (Z.quot (to_INT64 (phase_mod3 + phase_mod2)) 1);
      mret (output1, 0, 0, output4)
  | 10 =>
      phase_mod1 ← calculate_op slot1 OP_INPUT_FEEDBACK;
      set_feedback slot1 phase_mod1;;
      output3 ← carrier pfm_enabled slot3 phase_mod1;
      output2 ← carrier pfm_enabled slot2 OP_INPUT_NONE;
      output4 ← carrier pfm_enabled slot4 OP_INPUT_NONE;
      mret (0, output2, output3, output4)
  | 11 =>
      phase_mod1 ← calculate_op slot1 OP_INPUT_FEEDBACK;
      phase_mod3 ← calculate_op slot3 phase_mod1;
      set_feedback slot1 phase_mod3;;
      output3 ← carrier_or pfm_enabled slot3 phase_mod1 phase_mod3;
      output2 ← carrier pfm_enabled slot2 OP_INPUT_NONE;
      output4 ← carrier pfm_enabled slot4 OP_INPUT_NONE;
      mret (0, output2, output3, output4)
  | 12 =>
      phase_mod1 ← calculate_op slot1 OP_INPUT_FEEDBACK;
      set_feedback slot1 phase_mod1;;
      output3 ← carrier pfm_enabled slot3 phase_mod1;
      output2 ← carrier pfm_enabled slot2 phase_mod1;
      output4 ← carrier pfm_enabled slot4 phase_mod1;
      mret (0, output2, output3, output4)
  | 13 =>
      phase_mod1 ← calculate_op slot1 OP_INPUT_FEEDBACK;
      set_feedback slot1 phase_mod1;;
      output1 ← carrier_or pfm_enabled slot1 OP_INPUT_FEEDBACK phase_mod1;
      phase_mod3 ← calculate_op slot3 OP_INPUT_NONE;
      output2 ← carrier pfm_enabled slot2 phase_mod3;
      output4 ← carrier pfm_enabled slot4 OP_INPUT_NONE;
      mret (output1, output2, 0, output4)
  | 14 =>
      phase_mod1 ← calculate_op slot1 OP_INPUT_FEEDBACK;
      set_feedback slot1 phase_mod1;;
      output1 ← carrier_or pfm_enabled slot1 OP_INPUT_FEEDBACK phase_mod1;
      output3 ← carrier pfm_enabled slot3 phase_mod1;
      phase_mod2 ← calculate_op slot2 OP_INPUT_NONE;
      output4 ← carrier pfm_enabled slot4 phase_mod2;
      mret (output1, 0, output3, output4)
  | 15 =>
      phase_mod1 ← calculate_op slot1 OP_INPUT_FEEDBACK;
      set_feedback slot1 phase_mod1;;
      output1 ← carrier_or pfm_enabled slot1 OP_INPUT_FEEDBACK phase_mod1;
      output3 ← carrier pfm_enabled slot3 OP_INPUT_NONE;
      output2 ← carrier pfm_enabled slot2 OP_INPUT_NONE;
      output4 ← carrier pfm_enabled slot4 OP_INPUT_NONE;
      mret (output1, output2, output3, output4)
  | _ => mret (0, 0, 0, 0)
  end.

(** The four 2-operator topologies: [(output1, output3)]. *)
Definition fm2_algorithm (slot1 slot3 pfm_enabled alg : Z) : op (Z * Z) :=
  match alg with
  | 0 =>
      phase_mod1 ← calculate_op slot1 OP_INPUT_FEEDBACK;
      set_feedback slot1 phase_mod1;;
      output3 ← carrier pfm_enabled slot3 phase_mod1;
      mret (0, output3)
  | 1 =>
      phase_mod1 ← calculate_op slot1 OP_INPUT_FEEDBACK;
      phase_mod3 ← calculate_op slot3 phase_mod1;
      set_feedback slot1 phase_mod3;;
      output3 ← carrier_or pfm_enabled slot3 phase_mod1 phase_mod3;
      mret (0, output3)
  | 2 =>
      phase_mod1 ← calculate_op slot1 OP_INPUT_FEEDBACK;
      set_feedback slot1 phase_mod1;;
      output1 ← carrier_or pfm_enabled slot1 OP_INPUT_FEEDBACK phase_mod1;
      output3 ← carrier pfm_enabled slot3 OP_INPUT_NONE;
      mret (output1, output3)
  | 3 =>
      phase_mod1 ← calculate_op slot1 OP_INPUT_FEEDBACK;
      set_feedback slot1 phase_mod1;;
      output1 ← carrier_or pfm_enabled slot1 OP_INPUT_FEEDBACK phase_mod1;
      output3 ← carrier pfm_enabled slot3 phase_mod1;
      mret (output1, output3)
  | _ => mret (0, 0)
  end.

(** The eight 3-operator topologies: [(output1, output2, output3)]. *)
Definition fm3_algorithm (slot1 slot2 slot3 pfm_enabled alg : Z)
  : op (Z * Z * Z) :=
  match alg with
  | 0 =>
      phase_mod1 ← calculate_op slot1 OP_INPUT_FEEDBACK;
      set_feedback slot1 phase_mod1;;
      phase_mod3 ← calculate_op slot3 phase_mod1;
      output2 ← carrier pfm_enabled slot2 phase_mod3;
      mret (0, output2, 0)
  | 1 =>
      phase_mod1 ← calculate_op slot1 OP_INPUT_FEEDBACK;
      phase_mod3 ← calculate_op slot3 phase_mod1;
      set_feedback slot1 phase_mod3;;
      output2 ← carrier pfm_enabled slot2 phase_mod3;
      mret (0, output2, 0)
  | 2 =>
      phase_mod1 ← calculate_op slot1 OP_INPUT_FEEDBACK;
      set_feedback slot1 phase_mod1;;
      phase_mod3 ← calculate_op slot3 OP_INPUT_NONE;
      output2 ← carrier pfm_enabled slot2 (Z.quot (to_INT64 (phase_mod1 + phase_mod3)) 1);
      mret (0, output2, 0)
  | 3 =>
      phase_mod1 ← calculate_op slot1 OP_INPUT_FEEDBACK;
      set_feedback slot1 phase_mod1;;
      output1 ← carrier_or pfm_enabled slot1 OP_INPUT_FEEDBACK phase_mod1;
      phase_mod3 ← calculate_op slot3 OP_INPUT_NONE;
      output2 ← carrier pfm_enabled slot2 phase_mod3;
      mret (output1, output2, 0)
  | 4 =>
      phase_mod1 ← calculate_op slot1 OP_INPUT_FEEDBACK;
      set_feedback slot1 phase_mod1;;
      output3 ← carrier pfm_enabled slot3 phase_mod1;
      output2 ← carrier pfm_enabled slot2 OP_INPUT_NONE;
      mret (0, output2, output3)
  | 5 =>
      phase_mod1 ← calculate_op slot1 OP_INPUT_FEEDBACK;
      phase_mod3 ← calculate_op slot3 phase_mod1;
      set_feedback slot1 phase_mod3;;
      output3 ← carrier_or pfm_enabled slot3 phase_mod1 phase_mod3;
      output2 ← carrier pfm_enabled slot2 OP_INPUT_NONE;
      mret (0, output2, output3)
  | 6 =>
      phase_mod1 ← calculate_op slot1 OP_INPUT_FEEDBACK;
      set_feedback slot1 phase_mod1;;
      output1 ← carrier_or pfm_enabled slot1 OP_INPUT_FEEDBACK phase_mod1;
      output3 ← carrier pfm_enabled slot3 OP_INPUT_NONE;
      output2 ← carrier pfm_enabled slot2 OP_INPUT_NONE;
      mret (output1, output2, output3)
  | 7 =>
      phase_mod1 ← calculate_op slot1 OP_INPUT_FEEDBACK;
      set_feedback slot1 phase_mod1;;
      output1 ← carrier_or pfm_enabled slot1 OP_INPUT_FEEDBACK phase_mod1;
      output3 ← carrier pfm_enabled slot3 phase_mod1;
      output2 ← carrier pfm_enabled slot2 OP_INPUT_NONE;
      mret (output1, output2, output3)
  | _ => mret (0, 0, 0)
  end.

(** One operator output on one channel, after its channel level. *)
Definition fm_ch_out (chip : YMF271Chip) (output level : Z) : Z :=
  Z.shiftr (to_INT64 (output * lut_attenuation chip level)) 16.

(** [mixp[idx] += out_a + out_b + ...] for the operators [outs], each given
    as (output, slot number), on the channel whose level is [lvl]. *)
Definition fm_mix_channel (chip : YMF271Chip) (idx : Z)
  (lvl : YMF271Slot -> Z) (outs : list (Z * Z)) (mixp : list Z) : list Z :=
  let sum :=
    foldl (fun acc o => to_INT64 (acc + fm_ch_out chip o.1 (lvl (get_slot chip o.2))))
      0 outs in
  buf_set idx (to_INT32 (tab mixp idx + sum)) mixp.

(** FM output of sample [i] to the 4 channels of the mix buffer. *)
Definition fm_mix (i : Z) (outs : list (Z * Z)) (chip : YMF271Chip)
  : YMF271Chip :=
  let mixp := mix_buffer chip in
  let mixp := fm_mix_channel chip (to_UINT32 (i * 4 + 0)) ch0_level outs mixp in
  let mixp := fm_mix_channel chip (to_UINT32 (i * 4 + 1)) ch1_level outs mixp in
  let mixp := fm_mix_channel chip (to_UINT32 (i * 4 + 2)) ch2_level outs mixp in
  let mixp := fm_mix_channel chip (to_UINT32 (i * 4 + 3)) ch3_level outs mixp in
  set_mix_buffer mixp chip.

(** PFM is only available for groups 0, 4, 8. *)
Definition pfm_enabled_of (j : Z) (slot_group : YMF271Group) : Z :=
  if (j =? 0) || (j =? 4) || (j =? 8) then pfm slot_group else 0.

(** One sample of a 4-operator group, of a 2-operator pair and of a
    3-operator group. *)
Definition fm4_sample (slot1 slot2 slot3 slot4 pfm_enabled i : Z)
  (chip : YMF271Chip) : YMF271Chip :=
  let '(output1, output2, output3, output4, chip) :=
    fm4_algorithm slot1 slot2 slot3 slot4 pfm_enabled
      (algorithm (get_slot chip slot1)) chip in
  fm_mix i [(output1, slot1); (output2, slot2); (output3, slot3); (output4, slot4)]
    chip.

Definition fm2_sample (slot1 slot3 pfm_enabled i : Z) (chip : YMF271Chip)
  : YMF271Chip :=
  let '(output1, output3, chip) :=
    fm2_algorithm slot1 slot3 pfm_enabled
      (Z.land (algorithm (get_slot chip slot1)) 3) chip in
  fm_mix i [(output1, slot1); (output3, slot3)] chip.

Definition fm3_sample (slot1 slot2 slot3 pfm_enabled i : Z)
  (chip : YMF271Chip) : YMF271Chip :=
  let '(output1, output2, output3, chip) :=
    fm3_algorithm slot1 slot2 slot3 pfm_enabled
      (Z.land (algorithm (get_slot chip slot1)) 7) chip in
  fm_mix i [(output1, slot1); (output2, slot2); (output3, slot3)] chip.

(** The 2x2-operator mode runs the pair for [op_] = 0, then for 1; each is
    generated only while its own key-on slot is active. *)
Definition update_group_fm2 (j op_ proc_smpls : Z) (pfm_enabled : Z)
  (chip : YMF271Chip) : YMF271Chip :=
  let slot1 := j + (op_ + 0) * 12 in
  let slot3 := j + (op_ + 2) * 12 in
  if nonzero (active (get_slot chip slot1)) then
    for_range 0 (Z.to_nat proc_smpls) (fm2_sample slot1 slot3 pfm_enabled) chip
  else chip.

(** The body of the loop over the groups [j] of [ymf271_update], for a
    chunk of [proc_smpls] samples. *)
Definition update_group (j proc_smpls : Z) (chip : YMF271Chip) : YMF271Chip :=
  let slot_group := get_group chip j in
  if nonzero (Muted slot_group) || negb (bool_decide (is_Some (mem_base chip)))
  then chip
  else
    match sync slot_group with
    | 0 =>
        (* 4 operator FM *)
        let slot1 := j + 0 * 12 in
        let slot2 := j + 1 * 12 in
        let slot3 := j + 2 * 12 in
        let slot4 := j + 3 * 12 in
        let pfm_enabled := pfm_enabled_of j slot_group in
        if nonzero (active (get_slot chip slot1)) then
          for_range 0 (Z.to_nat proc_smpls)
            (fm4_sample slot1 slot2 slot3 slot4 pfm_enabled) chip
        else chip
    | 1 =>
        (* 2x 2 operator FM *)
        let pfm_enabled := pfm_enabled_of j slot_group in
        let chip := update_group_fm2 j 0 proc_smpls pfm_enabled chip in
        update_group_fm2 j 1 proc_smpls pfm_enabled chip
    | 2 =>
        (* 3 operator FM + PCM *)
        let slot1 := j + 0 * 12 in
        let slot2 := j + 1 * 12 in
        let slot3 := j + 2 * 12 in
        let pfm_enabled := pfm_enabled_of j slot_group in
        let chip :=
          if nonzero (active (get_slot chip slot1)) then
            for_range 0 (Z.to_nat proc_smpls)
              (fm3_sample slot1 slot2 slot3 pfm_enabled) chip
          else chip in
        update_pcm chip (j + 3 * 12) proc_smpls
    | 3 =>
        (* PCM *)
        let chip := update_pcm chip (j + 0 * 12) proc_smpls in
        let chip := update_pcm chip (j + 1 * 12) proc_smpls in
        let chip := update_pcm chip (j + 2 * 12) proc_smpls in
        update_pcm chip (j + 3 * 12) proc_smpls
    | _ => chip
    end.

(** [memset(buf, 0, sizeof(buf[0]) * n)]. *)
Definition clear_samples (n : Z) (buf : list Z) : list Z :=
  replicate (Z.to_nat n `min` length buf) 0 ++ drop (Z.to_nat n) buf.

(** Fold of the accumulator into the mix and stereo mix-down of sample
    [i]: the chip and the pair (left, right) written to the outputs. *)
Definition output_sample (i : Z) (chip : YMF271Chip)
  : YMF271Chip * (Z * Z) :=
  let add k mixp :=
    buf_set (to_UINT32 (i * 4 + k))
      (to_INT32 (tab mixp (to_UINT32 (i * 4 + k))
                 + tab (acc_buffer chip) (to_UINT32 (i * 4 + k))))
      mixp in
  let mixp := add 3 (add 2 (add 1 (add 0 (mix_buffer chip)))) in
  let chip := set_mix_buffer mixp chip in
  let ch0 := tab mixp (to_UINT32 (i * 4 + 0)) in
  let ch1 := tab mixp (to_UINT32 (i * 4 + 1)) in
  let ch2 := tab mixp (to_UINT32 (i * 4 + 2)) in
  let ch3 := tab mixp (to_UINT32 (i * 4 + 3)) in
  let left := to_INT32 (ch0 + Z.shiftr (to_INT32 (ch2 * 5)) 8) in
  let right := to_INT32 (ch1 + Z.shiftr (to_INT32 (ch3 * 5)) 8) in
  (chip, (Z.shiftr left 2, Z.shiftr right 2)).

Fixpoint output_samples (i : Z) (n : nat) (chip : YMF271Chip)
  : YMF271Chip * list (Z * Z) :=
  match n with
  | O => (chip, [])
  | S n' =>
      let '(chip, lr) := output_sample i chip in
      let '(chip, rest) := output_samples (i + 1) n' chip in
      (chip, lr :: rest)
  end.

(** One chunk of [ymf271_update]: the buffers are cleared, the twelve
    groups are generated in ascending order, the result is mixed down. *)
Definition update_chunk (proc_smpls : Z) (chip : YMF271Chip)
  : YMF271Chip * list (Z * Z) :=
  let chip := set_mix_buffer (clear_samples (proc_smpls * 4) (mix_buffer chip)) chip in
  let chip := set_acc_buffer (clear_samples (proc_smpls * 4) (acc_buffer chip)) chip in
  let chip := for_range 0 12 (fun j => update_group j proc_smpls) chip in
  output_samples 0 (Z.to_nat proc_smpls) chip.

(** [ymf271_update]: chunks of at most [mixbuf_smpls] samples.  The C loop
    does not end when [mixbuf_smpls] is 0; [fuel] bounds the number of
    chunks, and [samples] chunks are always enough otherwise. *)
Fixpoint ymf271_update_from (fuel : nat) (smpl_ofs samples : Z)
  (chip : YMF271Chip) : option (YMF271Chip * list (Z * Z)) :=
  if samples <=? smpl_ofs then Some (chip, [])
  else
    match fuel with
    | O => None
    | S fuel' =>
        let proc_smpls := samples - smpl_ofs in
        let proc_smpls :=
          if mixbuf_smpls chip <? proc_smpls then mixbuf_smpls chip
          else proc_smpls in
        let '(chip, out) := update_chunk proc_smpls chip in
        match ymf271_update_from fuel' (smpl_ofs + proc_smpls) samples chip with
        | Some (chip, rest) => Some (chip, out ++ rest)
        | None => None
        end
    end.

Definition ymf271_update (chip : YMF271Chip) (samples : Z)
  : option (YMF271Chip * list (Z * Z)) :=
  ymf271_update_from (Z.to_nat samples) 0 samples chip.

(** ** Register front-end *)

(** Key-on initialisation of another slot of the group: the block that
    [write_register] repeats for each member slot [os]. *)
Definition keyon_init_other (other_slot : Z) (chip : YMF271Chip)
  : YMF271Chip :=
  let os := get_slot chip other_slot in
  let os := set_step 0 os in
  let os := set_stepptr 0 os in
  let os := set_loop_direction 1 os in
  let os := init_envelope chip os in
  let os := init_lfo chip os in
  let os := calculate_step chip os in
  let os := set_feedback_modulation0 0 os in
  let os := set_feedback_modulation1 0 os in
  put_slot other_slot os chip.

Definition write_register (chip : YMF271Chip) (slotnum reg data : Z)
  : YMF271Chip :=
  let slot := get_slot chip slotnum in
  let upd (slot : YMF271Slot) := put_slot slotnum slot chip in
  match reg with
  | 0x0 =>
      let slot := set_ext_en (flag (nonzero (Z.land data 0x80))) slot in
      let slot := set_ext_out (Z.land (Z.shiftr data 3) 0xf) slot in
      if nonzero (Z.land data 1) then
        (* key on *)
        let groupnum := Z.rem slotnum 12 in
        let bank := Z.quot slotnum 12 in
        let group := get_group chip groupnum in
        let slot := set_step 0 slot in
        let slot := set_stepptr 0 slot in
        let slot := set_active 1 slot in
        let slot := set_loop_direction 1 slot in
        let slot := init_envelope chip slot in
        let slot := init_lfo chip slot in
        let slot := calculate_step chip slot in
        let chip := calculate_status_end chip slotnum 0 in
        let slot := set_feedback_modulation0 0 slot in
        let slot := set_feedback_modulation1 0 slot in
        let chip := put_slot slotnum slot chip in
        if (sync group =? 0) && (bank =? 0) then
          (* 4-slot mode: initialize all 4 slots when Slot1 (bank 0) keys on *)
          for_range 1 3 (fun i => keyon_init_other (groupnum + i * 12)) chip
        else if sync group =? 1 then
          (* 2x2-slot mode: Slot1+Slot3 or Slot2+Slot4 *)
          if bank =? 0 then keyon_init_other (groupnum + 2 * 12) chip
          else if bank =? 1 then keyon_init_other (groupnum + 3 * 12) chip
          else chip
        else if (sync group =? 2) && (bank =? 0) then
          (* 3+1 slot mode: initialize Slot2 and Slot3 *)
          for_range 1 2 (fun i => keyon_init_other (groupnum + i * 12)) chip
        else chip
      else
        upd (if nonzero (active slot) then set_env_state ENV_RELEASE slot
             else slot)
  | 0x1 => upd (set_lfoFreq data slot)
  | 0x2 =>
      let slot := set_lfowave (Z.land data 3) slot in
      let slot := set_pms (Z.land (Z.shiftr data 3) 0x7) slot in
      upd (set_ams (Z.land (Z.shiftr data 6) 0x3) slot)
  | 0x3 =>
      let slot := set_multiple (Z.land data 0xf) slot in
      upd (set_detune (Z.land (Z.shiftr data 4) 0x7) slot)
  | 0x4 => upd (set_tl (Z.land data 0x7f) slot)
  | 0x5 =>
      let slot := set_ar (Z.land data 0x1f) slot in
      upd (set_keyscale (Z.land (Z.shiftr data 5) 0x3) slot)
  | 0x6 => upd (set_decay1rate (Z.land data 0x1f) slot)
  | 0x7 => upd (set_decay2rate (Z.land data 0x1f) slot)
  | 0x8 =>
      let slot := set_relrate (Z.land data 0xf) slot in
      upd (set_decay1lvl (Z.land (Z.shiftr data 4) 0xf) slot)
  | 0x9 =>
      (* write frequency and block here *)
      let slot :=
        set_fns (Z.lor (Z.land (Z.shiftl (fns_hi slot) 8) 0x0f00) data) slot in
      upd (set_block (Z.land (Z.shiftr (fns_hi slot) 4) 0xf) slot)
  | 0xa => upd (set_fns_hi data slot)
  | 0xb =>
      let slot := set_waveform (Z.land data 0x7) slot in
      let slot := set_feedback_reg (Z.land (Z.shiftr data 4) 0x7) slot in
      upd (set_accon (flag (nonzero (Z.land data 0x80))) slot)
  | 0xc => upd (set_algorithm (Z.land data 0xf) slot)
  | 0xd =>
      let slot := set_ch0_level (Z.shiftr data 4) slot in
      upd (set_ch1_level (Z.land data 0xf) slot)
  | 0xe =>
      let slot := set_ch2_level (Z.shiftr data 4) slot in
      upd (set_ch3_level (Z.land data 0xf) slot)
  | _ => chip
  end.

(** Registers 0, 9, 10, 12, 13 and 14 are the synchronized registers. *)
Definition is_sync_reg (reg : Z) : bool :=
  match reg with
  | 0 | 9 | 10 | 12 | 13 | 14 => true
  | _ => false
  end.

(** Is [bank] a key-on slot of a group in sync mode [sync]? *)
Definition is_keyon_bank (sync bank : Z) : bool :=
  match sync with
  | 0 => bank =? 0
  | 1 => (bank =? 0) || (bank =? 1)
  | 2 => bank =? 0
  | _ => false
  end.

Definition ymf271_write_fm (chip : YMF271Chip) (bank address data : Z)
  : YMF271Chip :=
  let groupnum := tab fm_tab (Z.land address 0xf) in
  let reg := Z.land (Z.shiftr address 4) 0xf in
  if groupnum =? -1 then chip
  else
    let sync_reg := is_sync_reg reg in
    let sync_mode := is_keyon_bank (sync (get_group chip groupnum)) bank in
    if sync_mode && sync_reg then
      (* key-on slot & synced register *)
      match sync (get_group chip groupnum) with
      | 0 =>
          let chip := write_register chip (12 * 0 + groupnum) reg data in
          let chip := write_register chip (12 * 1 + groupnum) reg data in
          let chip := write_register chip (12 * 2 + groupnum) reg data in
          write_register chip (12 * 3 + groupnum) reg data
      | 1 =>
          if bank =? 0 then
            let chip := write_register chip (12 * 0 + groupnum) reg data in
            write_register chip (12 * 2 + groupnum) reg data
          else
            let chip := write_register chip (12 * 1 + groupnum) reg data in
            write_register chip (12 * 3 + groupnum) reg data
      | 2 =>
          let chip := write_register chip (12 * 0 + groupnum) reg data in
          let chip := write_register chip (12 * 1 + groupnum) reg data in
          write_register chip (12 * 2 + groupnum) reg data
      | _ => chip
      end
    else
      (* write register normally *)
      write_register chip (12 * bank + groupnum) reg data.

Definition ymf271_write_pcm (chip : YMF271Chip) (address data : Z)
  : YMF271Chip :=
  let slotnum := tab pcm_tab (Z.land address 0xf) in
  if slotnum =? -1 then chip
  else
    let slot := get_slot chip slotnum in
    let upd (slot : YMF271Slot) := put_slot slotnum slot chip in
    let clr (x mask : Z) := to_UINT32 (Z.land x (Z.lnot mask)) in
    match Z.land (Z.shiftr address 4) 0xf with
    | 0x0 =>
        let slot := set_startaddr (clr (startaddr slot) 0xff) slot in
        upd (set_startaddr (Z.lor (startaddr slot) data) slot)
    | 0x1 =>
        let slot := set_startaddr (clr (startaddr slot) 0xff00) slot in
        upd (set_startaddr (Z.lor (startaddr slot) (Z.shiftl data 8)) slot)
    | 0x2 =>
        let slot := set_startaddr (clr (startaddr slot) 0xff0000) slot in
        let slot :=
          set_startaddr
            (Z.lor (startaddr slot) (Z.shiftl (Z.land data 0x7f) 16)) slot in
        upd (set_altloop (flag (nonzero (Z.land data 0x80))) slot)
    | 0x3 =>
        let slot := set_endaddr (clr (endaddr slot) 0xff) slot in
        upd (set_endaddr (Z.lor (endaddr slot) data) slot)
    | 0x4 =>
        let slot := set_endaddr (clr (endaddr slot) 0xff00) slot in
        upd (set_endaddr (Z.lor (endaddr slot) (Z.shiftl data 8)) slot)
    | 0x5 =>
        let slot := set_endaddr (clr (endaddr slot) 0xff0000) slot in
        upd (set_endaddr
               (Z.lor (endaddr slot) (Z.shiftl (Z.land data 0x7f) 16)) slot)
    | 0x6 =>
        let slot := set_loopaddr (clr (loopaddr slot) 0xff) slot in
        upd (set_loopaddr (Z.lor (loopaddr slot) data) slot)
    | 0x7 =>
        let slot := set_loopaddr (clr (loopaddr slot) 0xff00) slot in
        upd (set_loopaddr (Z.lor (loopaddr slot) (Z.shiftl data 8)) slot)
    | 0x8 =>
        let slot := set_loopaddr (clr (loopaddr slot) 0xff0000) slot in
        upd (set_loopaddr
               (Z.lor (loopaddr slot) (Z.shiftl (Z.land data 0x7f) 16)) slot)
    | 0x9 =>
        let slot := set_fs (Z.land data 0x3) slot in
        let slot := set_bits (if nonzero (Z.land data 0x4) then 12 else 8) slot in
        let slot := set_srcnote (Z.land (Z.shiftr data 3) 0x3) slot in
        upd (set_srcb (Z.land (Z.shiftr data 5) 0x7) slot)
    | _ => chip
    end.

(** ** Timers *)

(** Expiry of Timer A, called by the host when its period has elapsed. *)
Definition ymf271_timer_a_tick (chip : YMF271Chip) : YMF271Chip :=
  let chip := set_status (to_UINT8 (Z.lor (status chip) 1)) chip in
  (* assert IRQ *)
  if nonzero (Z.land (enable chip) 4) then
    let chip := set_irqstate (to_UINT8 (Z.lor (irqstate chip) 1)) chip in
    if irq_handler chip then call_irq_handler 1 chip else chip
  else chip.

(** Expiry of Timer B. *)
Definition ymf271_timer_b_tick (chip : YMF271Chip) : YMF271Chip :=
  let chip := set_status (to_UINT8 (Z.lor (status chip) 2)) chip in
  (* assert IRQ *)
  if nonzero (Z.land (enable chip) 8) then
    let chip := set_irqstate (to_UINT8 (Z.lor (irqstate chip) 2)) chip in
    if irq_handler chip then call_irq_handler 1 chip else chip
  else chip.

(** Reset of one timer by register 0x13: its bit [bit] is cleared in the
    IRQ state and in the status, and the IRQ line is released through the
    callback unless the other timer (bit [other]) still asserts it.  The
    write handler has this block once for Timer A (bits 1, 2) and once for
    Timer B (bits 2, 1). *)
Definition timer_reset (bit other : Z) (chip : YMF271Chip) : YMF271Chip :=
  let chip :=
    set_irqstate (to_UINT8 (Z.land (irqstate chip) (Z.lnot bit))) chip in
  let chip := set_status (to_UINT8 (Z.land (status chip) (Z.lnot bit))) chip in
  if irq_handler chip && nonzero (Z.land (Z.lnot (irqstate chip)) other)
  then call_irq_handler 0 chip
  else chip.

Definition ymf271_write_timer (chip : YMF271Chip) (address data : Z)
  : YMF271Chip :=
  if Z.land address 0xf0 =? 0 then
    let groupnum := tab fm_tab (Z.land address 0xf) in
    if groupnum =? -1 then chip
    else
      let group := get_group chip groupnum in
      let group := set_sync (Z.land data 0x3) group in
      let group := set_pfm (Z.shiftr data 7) group in
      put_group groupnum group chip
  else
    match address with
    | 0x10 =>
        (* High 8 bit of Timer A period *)
        set_timerA
          (to_UINT32 (Z.lor (Z.land (timerA chip) 0x003) (Z.shiftl data 2))) chip
    | 0x11 =>
        (* Low 2 bit of Timer A period *)
        set_timerA
          (to_UINT32 (Z.lor (Z.land (timerA chip) 0x3fc) (Z.land data 0x03))) chip
    | 0x12 => set_timerB data chip
    | 0x13 =>
        (* the timer loads are left to the host: both blocks are empty *)
        (* timer A reset *)
        let chip :=
          if nonzero (Z.land data 0x10) then timer_reset 1 2 chip else chip in
        (* timer B reset *)
        let chip :=
          if nonzero (Z.land data 0x20) then timer_reset 2 1 chip else chip in
        set_enable data chip
    | 0x14 =>
        let chip := set_ext_address (to_UINT32 (Z.land (ext_address chip) (Z.lnot 0xff))) chip in
        set_ext_address (Z.lor (ext_address chip) data) chip
    | 0x15 =>
        let chip := set_ext_address (to_UINT32 (Z.land (ext_address chip) (Z.lnot 0xff00))) chip in
        set_ext_address (Z.lor (ext_address chip) (Z.shiftl data 8)) chip
    | 0x16 =>
        let chip := set_ext_address (to_UINT32 (Z.land (ext_address chip) (Z.lnot 0xff0000))) chip in
        let chip :=
          set_ext_address
            (Z.lor (ext_address chip) (Z.shiftl (Z.land data 0x7f) 16)) chip in
        set_ext_rw (flag (nonzero (Z.land data 0x80))) chip
    | 0x17 =>
        let chip :=
          set_ext_address (Z.land (to_UINT32 (ext_address chip + 1)) 0x7fffff) chip in
        if negb (nonzero (ext_rw chip)) && ext_write_handler chip
        then call_ext_write_handler (ext_address chip) data chip
        else chip
    | _ => chip
    end.

(** ** Bus interface *)

(** Write of [data] to port [offset]. *)
Definition ymf271_w (chip : YMF271Chip) (offset data : Z) : YMF271Chip :=
  let chip :=
    set_regs_main (buf_set (Z.land offset 0xf) data (regs_main chip)) chip in
  match Z.land offset 0xf with
  | 0x1 => ymf271_write_fm chip 0 (tab (regs_main chip) 0x0) data
  | 0x3 => ymf271_write_fm chip 1 (tab (regs_main chip) 0x2) data
  | 0x5 => ymf271_write_fm chip 2 (tab (regs_main chip) 0x4) data
  | 0x7 => ymf271_write_fm chip 3 (tab (regs_main chip) 0x6) data
  | 0x9 => ymf271_write_pcm chip (tab (regs_main chip) 0x8) data
  | 0xd => ymf271_write_timer chip (tab (regs_main chip) 0xc) data
  | _ => chip   (* address regs and unused ports *)
  end.

(** Read of port [offset]: the byte returned and the chip afterwards. *)
Definition ymf271_r (chip : YMF271Chip) (offset : Z) : Z * YMF271Chip :=
  match Z.land offset 0xf with
  | 0x0 =>
      (to_UINT8
         (Z.lor (Z.lor (Z.shiftl (busy_flag chip) 7) (status chip))
                (Z.shiftl (Z.land (end_status chip) 0xf) 3)),
       chip)
  | 0x1 => (to_UINT8 (Z.shiftr (end_status chip) 4), chip)
  | 0x2 =>
      if negb (nonzero (ext_rw chip)) then (0xff, chip)
      else
        let ret := ext_readlatch chip in
        let chip :=
          set_ext_address (Z.land (to_UINT32 (ext_address chip + 1)) 0x7fffff) chip in
        let chip :=
          set_ext_readlatch (ymf271_read_memory chip (ext_address chip)) chip in
        (ret, chip)
  | _ => (0xff, chip)
  end.

(** ** Table initialisation and device life cycle *)

(** A loop [for (i = lo; i < hi; i++) t[i] = f(i)] on a table: the entries
    in the range get their value, the others are not assigned. *)
Definition fill {A : Type} (lo hi : Z) (f : Z -> A) (old : Z -> A) : Z -> A :=
  fun i => if (lo <=? i) && (i <? hi) then f i else old i.

(** [malloc] of [n] entries of type INT32.  The memory is not
    initialised: [fresh i] is the value that entry [i] happens to hold. *)
Definition malloc_INT32 (fresh : Z -> Z) (n : Z) : list Z :=
  map (fun i => to_INT32 (fresh i)) (seqZ 0 n).

Section Tables.

(** [sin] and [pow] of the C library. *)
Variable sin : float -> float.
Variable pow : float -> float -> float.

(** What [malloc] leaves in the mix buffer and in the accumulator buffer
    that [device_start_ymf271] allocates. *)
Variable mix_fresh : Z -> Z.
Variable acc_fresh : Z -> Z.

(** [(INT16)x] of a double [x]. *)
Definition int16_of_double (x : float) : Z := to_INT16 (int_of_double x).

Definition init_detune_table (chip : YMF271Chip) : YMF271Chip :=
  let entry (d k : Z) : Z :=
    let dt := if d <? 4 then d else d - 4 in
    let sign := if d <? 4 then 1 else -1 in
    let cents := ftab (default [] (dt_cents !! Z.to_nat dt)) k in
    let n43 := Z.land k 3 in
    let fns := tab representative_fns n43 in
    let ratio := (pow 2.0 (cents / 1200.0) - 1.0)%float in
    let offset := int_of_double (double_of_Z fns * ratio + 0.5)%float in
    to_INT32 (offset * sign) in
  set_lut_detune
    (fill 0 8 (fun d => fill 0 32 (entry d) (lut_detune chip d))
       (lut_detune chip))
    chip.

(** Entry [i] of waveform [w], as the first loop of [init_tables]
    stores it. *)
Definition wave_entry (w i : Z) : Z :=
  let m := sin (double_of_Z (i * 2 + 1) * M_PI / double_of_Z SIN_LEN)%float in
  let m2 := sin (double_of_Z (i * 4 + 1) * M_PI / double_of_Z SIN_LEN)%float in
  let first_half := i <? Z.quot SIN_LEN 2 in
  match w with
  | 0 => int16_of_double (m * double_of_Z MAXOUT)%float
  | 1 =>
      if first_half then int16_of_double (m * m * double_of_Z MAXOUT)%float
      else int16_of_double (m * m * double_of_Z MINOUT)%float
  | 2 =>
      if first_half then int16_of_double (m * double_of_Z MAXOUT)%float
      else int16_of_double (- m * double_of_Z MAXOUT)%float
  | 3 =>
      if first_half then int16_of_double (m * double_of_Z MAXOUT)%float else 0
  | 4 =>
      if first_half then int16_of_double (m2 * double_of_Z MAXOUT)%float else 0
  | 5 =>
      if first_half
      then int16_of_double (PrimFloat.abs m2 * double_of_Z MAXOUT)%float
      else 0
  | 6 => to_INT16 (1 * MAXOUT)
  | _ => 0
  end.

(** The four LFO phase-modulation shapes at phase [i]. *)
Definition plfo_shape (j i : Z) : float :=
  let fsaw_wave :=
    (double_of_Z (Z.rem i (Z.quot LFO_LENGTH 2)) * PLFO_MAX
     / (double_of_Z LFO_LENGTH / 2.0 - 1.0))%float in
  let ftri_wave :=
    (double_of_Z (Z.rem i (Z.quot LFO_LENGTH 4)) * PLFO_MAX
     / (double_of_Z LFO_LENGTH / 4.0))%float in
  match j with
  | 0 => 0%float
  | 1 =>
      if i <? Z.quot LFO_LENGTH 2 then fsaw_wave
      else (fsaw_wave - PLFO_MAX)%float
  | 2 => if i <? Z.quot LFO_LENGTH 2 then PLFO_MAX else PLFO_MIN
  | _ =>
      match Z.quot i (Z.quot LFO_LENGTH 4) with
      | 0 => ftri_wave
      | 1 => (PLFO_MAX - ftri_wave)%float
      | 2 => (0 - ftri_wave)%float
      | 3 => (0 - (PLFO_MAX - ftri_wave))%float
      | _ => 0%float
      end
  end.

(** Depth of the phase modulation in cents, per PMS. *)
Definition plfo_cents : list float :=
  [ 0; 3.378; 5.0646; 6.7495; 10.1143; 20.1699; 40.1076; 79.307 ]%float.

Definition plfo_entry (j p i : Z) : float :=
  if p =? 0 then pow 2.0 0.0
  else pow 2.0 (ftab plfo_cents p * plfo_shape j i / 1200.0)%float.

Definition alfo_entry (j i : Z) : Z :=
  let tri_wave :=
    Z.quot (Z.rem i (Z.quot LFO_LENGTH 2) * ALFO_MAX) (Z.quot LFO_LENGTH 2) in
  match j with
  | 0 => 0
  | 1 => ALFO_MAX - Z.quot (i * ALFO_MAX) LFO_LENGTH
  | 2 => if i <? Z.quot LFO_LENGTH 2 then ALFO_MAX else ALFO_MIN
  | _ => if i <? Z.quot LFO_LENGTH 2 then ALFO_MAX - tri_wave else tri_wave
  end.

Definition init_tables (chip : YMF271Chip) : YMF271Chip :=
  let chip :=
    set_lut_waves
      (fill 0 8 (fun w => fill 0 SIN_LEN (wave_entry w) (lut_waves chip w))
         (lut_waves chip))
      chip in
  let chip :=
    set_lut_plfo
      (fill 0 4
         (fun j => fill 0 8
            (fun p => fill 0 LFO_LENGTH (plfo_entry j p) (lut_plfo chip j p))
            (lut_plfo chip j))
         (lut_plfo chip))
      chip in
  let chip :=
    set_lut_alfo
      (fill 0 4 (fun j => fill 0 LFO_LENGTH (alfo_entry j) (lut_alfo chip j))
         (lut_alfo chip))
      chip in
  let chip :=
    set_lut_env_volume
      (fill 0 256
         (fun i =>
            int_of_double
              (65536.0 / pow 10.0 (double_of_Z i / (256.0 / 96.0) / 20.0))%float)
         (lut_env_volume chip))
      chip in
  let chip :=
    set_lut_attenuation
      (fill 0 16
         (fun i =>
            int_of_double
              (65536.0 / pow 10.0 (ftab channel_attenuation_table i / 20.0))%float)
         (lut_attenuation chip))
      chip in
  let chip :=
    set_lut_total_level
      (fill 0 128
         (fun i =>
            let db := (0.75 * double_of_Z i)%float in
            int_of_double (65536.0 / pow 10.0 (db / 20.0))%float)
         (lut_total_level chip))
      chip in
  (* timing may use a non-standard XTAL *)
  let clock_correction :=
    (double_of_Z STD_CLOCK / double_of_Z (clock chip))%float in
  let chip :=
    set_lut_lfo
      (fill 0 256
         (fun i => (ftab LFO_frequency_table i * clock_correction)%float)
         (lut_lfo chip))
      chip in
  let chip :=
    set_lut_ar
      (fill 0 64
         (fun i => (ftab ARTime i * clock_correction * 44100.0 / 1000.0)%float)
         (lut_ar chip))
      chip in
  let chip :=
    set_lut_dc
      (fill 0 64
         (fun i => (ftab DCTime i * clock_correction * 44100.0 / 1000.0)%float)
         (lut_dc chip))
      chip in
  init_detune_table chip.

(** The chip as [calloc] returns it: every byte zero. *)
Definition chip_calloc : YMF271Chip :=
  mkChip (fun _ _ => 0) (fun _ _ _ => 0%float) (fun _ _ => 0)
    (fun _ => 0%float) (fun _ => 0%float) (fun _ => 0%float)
    (fun _ => 0) (fun _ => 0) (fun _ => 0) (fun _ _ => 0)
    (replicate 48 slot_zero) (replicate 12 group_zero) (replicate 16 0)
    0 0 0 0 0 0 0 0 0 0 0 0 None 0 0 0 [] [] false false 0 [] [].

Definition ymf271_set_mute_mask (chip : YMF271Chip) (MuteMask : Z)
  : YMF271Chip :=
  for_range 0 12
    (fun CurChn chip =>
       put_group CurChn
         (set_Muted (Z.land (Z.shiftr MuteMask CurChn) 0x01)
            (get_group chip CurChn))
         chip)
    chip.

(** [device_start_ymf271] for the clock of the configuration.  The two
    sample buffers come from [malloc] and are not cleared here:
    [ymf271_update] clears the part of them that a chunk uses. *)
Definition device_start_ymf271 (cfg_clock : Z) : YMF271Chip :=
  let chip := chip_calloc in
  let chip := set_clock cfg_clock chip in
  let rate := Z.quot (clock chip) 384 in
  let chip := set_mem_size 0x00 chip in
  let chip := set_mem_base None chip in
  let chip := set_irq_handler false chip in
  let chip := set_ext_write_handler false chip in
  let chip := set_debug_envelope 0 chip in
  let chip := init_tables chip in
  let chip := set_mixbuf_smpls (Z.quot rate 10) chip in
  let chip :=
    set_mix_buffer (malloc_INT32 mix_fresh (mixbuf_smpls chip * 4)) chip in
  let chip :=
    set_acc_buffer (malloc_INT32 acc_fresh (mixbuf_smpls chip * 4)) chip in
  ymf271_set_mute_mask chip 0x000.

End Tables.

Definition device_reset_ymf271 (chip : YMF271Chip) : YMF271Chip :=
  let chip :=
    for_range 0 48
      (fun i chip =>
         let slot := get_slot chip i in
         let slot := set_active 0 slot in
         let slot := set_volume 0 slot in
         put_slot i slot chip)
      chip in
  (* reset timers and IRQ *)
  let chip := set_irqstate 0 chip in
  let chip := set_status 0 chip in
  let chip := set_end_status 0 chip in
  let chip := set_enable 0 chip in
  let chip := set_busy_flag 0 chip in
  let chip := set_debug_envelope 0 chip in
  if irq_handler chip then call_irq_handler 0 chip else chip.

(** [realloc] of the ROM to [memsize] bytes, all set to 0xFF by the
    [memset].  For 0 bytes [realloc] frees the ROM and returns NULL (the
    behaviour of glibc), and the [memset] of 0 bytes writes nothing. *)
Definition ymf271_alloc_rom (chip : YMF271Chip) (memsize : Z) : YMF271Chip :=
  if mem_size chip =? memsize then chip
  else
    let chip :=
      set_mem_base
        (if memsize =? 0 then None
         else Some (replicate (Z.to_nat memsize) 0xFF))
        chip in
    set_mem_size memsize chip.

(** [memcpy] of [data] into the ROM at [offset], cut at its end. *)
Definition ymf271_write_rom (chip : YMF271Chip) (offset : Z) (data : list Z)
  : YMF271Chip :=
  let length := Z.of_nat (length data) in
  if mem_size chip <? offset then chip
  else
    let length :=
      if mem_size chip <? to_UINT32 (offset + length)
      then to_UINT32 (mem_size chip - offset)
      else length in
    match mem_base chip with
    | Some m =>
        let m' :=
          take (Z.to_nat offset) m ++ take (Z.to_nat length) data
          ++ drop (Z.to_nat (offset + length)) m in
        set_mem_base (Some m') chip
    | None => chip
    end.

(** ** Envelope ranges *)

(** The range of [volume] between key-on and the end of the envelope. *)
Definition env_volume_in_range (slot : YMF271Slot) : Prop :=
  0 <= volume slot <= Z.shiftl 255 ENV_VOLUME_SHIFT.

(** The range of a per-stage step: not negative, and small enough for
    [volume + step] to stay an [INT32]. *)
Definition env_step_in_range (st : Z) : Prop :=
  0 <= st <= 2 ^ 31 - 1 - Z.shiftl 255 ENV_VOLUME_SHIFT.

Definition env_steps_in_range (slot : YMF271Slot) : Prop :=
  env_step_in_range (env_attack_step slot)
  /\ env_step_in_range (env_decay1_step slot)
  /\ env_step_in_range (env_decay2_step slot)
  /\ env_step_in_range (env_release_step slot).

(** The same range as a check, and the check of every step that
    [init_envelope] can compute from the rate tables of a chip: rates 0 to
    63, numerator 255 or, for Decay1, [decay1lvl << 4]. *)
Definition env_step_in_rangeb (st : Z) : bool :=
  (0 <=? st) && (st <=? 2 ^ 31 - 1 - Z.shiftl 255 ENV_VOLUME_SHIFT).

Definition env_tables_in_rangeb (chip : YMF271Chip) : bool :=
  forallb
    (fun rate =>
       env_step_in_rangeb (env_step (lut_ar chip) 255 rate)
       && env_step_in_rangeb (env_step (lut_dc chip) 255 rate)
       && forallb
            (fun lvl =>
               env_step_in_rangeb (env_step (lut_dc chip) (Z.shiftl lvl 4) rate))
            (seqZ 0 16))
    (seqZ 0 64).

(** ** Accumulator path *)



(** Case analysis on every conditional of the goal. *)
Ltac case_ifs :=
  repeat match goal with
         | |- context [if ?b then _ else _] => destruct b
         end.

(** ** Activity of a group *)

(** The step that [update_envelope] subtracts in the stage of the slot. *)
Definition env_stage_step (slot : YMF271Slot) : Z :=
  if env_state slot =? ENV_DECAY1 then env_decay1_step slot
  else if env_state slot =? ENV_DECAY2 then env_decay2_step slot
  else env_release_step slot.

(** The slots whose [active] flag [update_group] tests for group [j] in
    each sync mode: the key-on slot of each FM configuration and every PCM
    slot. *)
Definition gating_slots (sync j : Z) : list Z :=
  match sync with
  | 0 => [ j + 0 * 12 ]
  | 1 => [ j + (0 + 0) * 12; j + (1 + 0) * 12 ]
  | 2 => [ j + 0 * 12; j + 3 * 12 ]
  | 3 => [ j + 0 * 12; j + 1 * 12; j + 2 * 12; j + 3 * 12 ]
  | _ => []
  end.

(** The envelope registers of a slot: the loop handling and the LFO update
    of a sample leave them alone. *)
Definition same_env_regs (s s' : YMF271Slot) : Prop :=
  active s' = active s /\ volume s' = volume s
  /\ env_state s' = env_state s
  /\ env_decay1_step s' = env_decay1_step s
  /\ env_decay2_step s' = env_decay2_step s
  /\ env_release_step s' = env_release_step s.

(** ** Synchronized registers *)

(** What a write of [data] to the synchronized register [reg] leaves in a
    slot: [old] is the slot before the write, [new] the slot after it.
    Register 0x9 combines [data] with the [fns_hi] latch of the slot
    itself. *)
Definition sync_reg_written (reg data : Z) (old new : YMF271Slot) : Prop :=
  match reg with
  | 0x0 =>
      ext_en new = flag (nonzero (Z.land data 0x80))
      /\ ext_out new = Z.land (Z.shiftr data 3) 0xf
      /\ if nonzero (Z.land data 1) then
           active new = 1 /\ env_state new = ENV_ATTACK
         else
           active new = active old
           /\ env_state new =
              if nonzero (active old) then ENV_RELEASE else env_state old
  | 0x9 =>
      fns new = Z.lor (Z.land (Z.shiftl (fns_hi old) 8) 0x0f00) data
      /\ block new = Z.land (Z.shiftr (fns_hi old) 4) 0xf
  | 0xa => fns_hi new = data
  | 0xc => algorithm new = Z.land data 0xf
  | 0xd => ch0_level new = Z.shiftr data 4 /\ ch1_level new = Z.land data 0xf
  | 0xe => ch2_level new = Z.shiftr data 4 /\ ch3_level new = Z.land data 0xf
  | _ => True
  end.

(** What [write_register] keeps: the groups, the number of slots, and the
    slots other than those named by [touched]. *)
Definition keeps_other_slots (touched : Z -> Prop) (chip chip' : YMF271Chip)
  : Prop :=
  groups chip' = groups chip
  /\ length (slots chip') = length (slots chip)
  /\ forall t, 0 <= t -> ~ touched t -> get_slot chip' t = get_slot chip t.

(** The state of the broadcast of a synchronized register to group [g]
    after the writes to banks 0 .. k-1: these slots hold the written
    fields, and (unless the write is a key-on) the slots of the banks still
    to come are as they were on the chip [chip0] before the broadcast. *)
Definition sync_written_upto (chip0 : YMF271Chip) (g reg data k : Z)
  (chip : YMF271Chip) : Prop :=
  groups chip = groups chip0
  /\ length (slots chip) = length (slots chip0)
  /\ (forall b, 0 <= b < k ->
        sync_reg_written reg data (get_slot chip0 (12 * b + g))
          (get_slot chip (12 * b + g)))
  /\ (forall b, k <= b < 4 ->
        reg <> 0 \/ nonzero (Z.land data 1) = false ->
        get_slot chip (12 * b + g) = get_slot chip0 (12 * b + g)).

(** ** Predicates of the further properties *)

(** The registers of a slot: the fields that the register writes set.  The
    other fields are the running state of the voice. *)
Definition slot_regs (s : YMF271Slot) :=
  (ext_en s, ext_out s, lfoFreq s, lfowave s, pms s, ams s, detune s,
   multiple s, tl s, keyscale s, ar s, decay1rate s, decay2rate s,
   decay1lvl s, relrate s, block s, fns_hi s, fns s, feedback s, waveform s,
   accon s, algorithm s, (ch0_level s, ch1_level s, ch2_level s, ch3_level s),
   (startaddr s, loopaddr s, endaddr s, altloop s, fs s, srcnote s, srcb s,
    bits s)).

(** The state of the chip outside the slots, the end-status flags and the
    contents of the two sample buffers. *)
Definition host_state (chip : YMF271Chip) :=
  (groups chip, regs_main chip, (mem_base chip, mem_size chip),
   (clock chip, mixbuf_smpls chip),
   (timerA chip, timerB chip, enable chip, irqstate chip, status chip,
    busy_flag chip),
   (ext_address chip, ext_rw chip, ext_readlatch chip),
   (irq_handler chip, ext_write_handler chip, irq_calls chip, ext_writes chip),
   (length (slots chip), length (mix_buffer chip), length (acc_buffer chip))).

(** [chip'] has the registers of [chip]: the same state outside the slots
    and, in every slot, the same registers. *)
Definition same_registers (chip chip' : YMF271Chip) : Prop :=
  host_state chip' = host_state chip
  /\ forall k, slot_regs (get_slot chip' k) = slot_regs (get_slot chip k).

(** An operator computation that keeps the registers. *)
Definition op_keeps {A : Type} (m : op A) : Prop :=
  forall chip, same_registers chip (m chip).2.

(** Group [j] is skipped by [ymf271_update], or every slot it tests is
    inactive. *)
Definition group_idle (chip : YMF271Chip) (j : Z) : Prop :=
  Muted (get_group chip j) <> 0
  \/ mem_base chip = None
  \/ forall s, In s (gating_slots (sync (get_group chip j)) j) ->
               active (get_slot chip s) = 0.

Definition chip_idle (chip : YMF271Chip) : Prop :=
  forall j, 0 <= j < 12 -> group_idle chip j.

(** The two sample buffers as [device_start_ymf271] allocates them. *)
Definition buffers_allocated (chip : YMF271Chip) : Prop :=
  mixbuf_smpls chip * 4 < 2 ^ 32
  /\ Z.of_nat (length (mix_buffer chip)) = mixbuf_smpls chip * 4
  /\ Z.of_nat (length (acc_buffer chip)) = mixbuf_smpls chip * 4.

(** The part of the chip that a write to a group leaves alone. *)
Definition outside_groups (chip : YMF271Chip) :=
  (slots chip, regs_main chip, mem_base chip, mem_size chip,
   (mixbuf_smpls chip, mix_buffer chip, acc_buffer chip),
   (timerA chip, timerB chip, enable chip, irqstate chip, status chip,
    end_status chip),
   length (groups chip)).

(** [n] successive reads of port [offset]: the bytes, in order. *)
Fixpoint reads (n : nat) (offset : Z) (chip : YMF271Chip)
  : list Z * YMF271Chip :=
  match n with
  | O => ([], chip)
  | S n' =>
      let '(b, chip) := ymf271_r chip offset in
      let '(bs, chip) := reads n' offset chip in
      (b :: bs, chip)
  end.

(** The bit of [end_status] that belongs to slot [s]. *)
Definition end_flag_bit (s : Z) : Z :=
  Z.quot s 12 + Z.shiftr (Z.rem s 12) 2 * 4.

(** The registers of a slot that index a table are inside it:
    [lut_lfo[256]], [lut_alfo[4]], [lut_plfo[4][8]], [lut_detune[8]],
    [multiple_table[16]], [lut_total_level[128]], [RKS_Table[32][4]],
    [pow_table[16]], [feedback_level[8]], [lut_waves[8]],
    [lut_attenuation[16]] and [fs_frequency[4]]; the source block and note
    are not negative. *)
Definition slot_indices_ok (s : YMF271Slot) : Prop :=
  0 <= lfoFreq s < 256 /\ 0 <= lfowave s < 4 /\ 0 <= pms s < 8
  /\ 0 <= detune s < 8 /\ 0 <= multiple s < 16 /\ 0 <= tl s < 128
  /\ 0 <= keyscale s < 4 /\ 0 <= block s < 16 /\ 0 <= feedback s < 8
  /\ 0 <= waveform s < 8
  /\ 0 <= ch0_level s < 16 /\ 0 <= ch1_level s < 16
  /\ 0 <= ch2_level s < 16 /\ 0 <= ch3_level s < 16
  /\ 0 <= fs s < 4 /\ 0 <= srcnote s < 4 /\ 0 <= srcb s < 8.

Definition chip_indices_ok (chip : YMF271Chip) : Prop :=
  forall k, slot_indices_ok (get_slot chip k).

(** The entries of the shared accumulator at the indices [K] are 18-bit
    values. *)
Definition acc_in_range_on (K : Z -> Prop) (chip : YMF271Chip) : Prop :=
  forall k, K k -> ACC_18BIT_MIN <= tab (acc_buffer chip) k <= ACC_18BIT_MAX.

(** Every entry of the shared accumulator is an 18-bit value. *)
Definition acc_in_range (chip : YMF271Chip) : Prop :=
  acc_in_range_on (fun _ => True) chip.

(** An operator computation that leaves the accumulator alone. *)
Definition op_acc {A : Type} (m : op A) : Prop :=
  forall chip, acc_buffer (m chip).2 = acc_buffer chip.

(** ** Concrete states for the examples *)

(** The examples run on a chip started at the standard clock.  The C
    library is not part of the model: of [pow] the examples only need
    [pow(x, 0) = 1], which the C standard fixes, and they never read a
    table entry computed with [sin]; any other value is marked as
    unavailable by a NaN. *)
Definition pow_at_zero (x y : float) : float :=
  if PrimFloat.eqb y 0%float then 1%float else nan.
Definition sin_unavailable (x : float) : float := nan.

(** In the examples the memory that [malloc] returns holds zeros. *)
Definition fresh_zeros (i : Z) : Z := 0.

Definition example_start : YMF271Chip :=
  device_start_ymf271 sin_unavailable pow_at_zero fresh_zeros fresh_zeros
    STD_CLOCK.

(** A sequence of port writes (port, data), in order. *)
Definition writes (l : list (Z * Z)) (chip : YMF271Chip) : YMF271Chip :=
  foldl (fun c w => ymf271_w c w.1 w.2) chip l.

(** A 16-byte ROM holding the byte 0x7F, and slot 0 set up as an 8-bit
    PCM voice (group 0 in sync mode 3) with Accon=1 and TL=8, keyed on. *)
Definition example_rom : YMF271Chip :=
  ymf271_write_rom (ymf271_alloc_rom example_start 16) 0 (replicate 16 0x7F).

Definition example_pcm_setup : list (Z * Z) :=
  [ (0xC, 0x00); (0xD, 0x03);     (* group 0: sync = 3, 4x PCM *)
    (0x8, 0x30); (0x9, 0x0F);     (* slot 0: endaddr = 15 *)
    (0x8, 0x90); (0x9, 0x00);     (* slot 0: fs = 0, 8-bit samples *)
    (0x0, 0xB0); (0x1, 0x87);     (* slot 0: waveform 7, Accon = 1 *)
    (0x0, 0x40); (0x1, 0x08);     (* slot 0: tl = 8 *)
    (0x0, 0x50); (0x1, 0x1F);     (* slot 0: ar = 31 *)
    (0x0, 0x80); (0x1, 0x0F) ].   (* slot 0: relrate = 15, decay1lvl = 0 *)

Definition example_pcm : YMF271Chip :=
  writes (example_pcm_setup ++ [ (0x0, 0x00); (0x1, 0x01) ]) example_rom.

(** The same voice after key-off, in its Release stage. *)
Definition example_pcm_released : YMF271Chip :=
  writes [ (0x0, 0x00); (0x1, 0x00) ] example_pcm.

(** The example chip with three more bytes behind its 16-byte ROM, and its
    slot 0 moved to sample position 17, past the end of the ROM. *)
Definition example_pcm_longer_rom : YMF271Chip :=
  set_mem_base (Some (replicate 16 0x7F ++ [1; 2; 3])) example_pcm.
Definition example_slot_past_end : YMF271Slot :=
  set_stepptr (Z.shiftl 17 16) (get_slot example_pcm 0).

(** The released voice 93 samples later, one envelope update before its
    volume reaches 0. *)
Definition example_pcm_ending : YMF271Chip :=
  (update_chunk 93 example_pcm_released).1.

(** A chip just started (every group in sync mode 0) on which 0x12 was
    written to register 0xA of group 0 through bank 1: bank 1 is not the
    key-on slot, so only slot 12 latches it. *)
Definition example_fns_latch : YMF271Chip :=
  writes [ (0x2, 0xA0); (0x3, 0x12) ] example_start.

(** A blank ROM of 16 bytes on the started chip. *)
Definition example_blank_rom : YMF271Chip := ymf271_alloc_rom example_start 16.

(** A chip started at a clock too slow for a chunk of samples. *)
Definition example_slow_clock : YMF271Chip :=
  device_start_ymf271 sin_unavailable pow_at_zero fresh_zeros fresh_zeros
    3000.

(** The blank ROM with three bytes written at offset 14 (two of them
    inside), the external address at 13 and the port in read mode. *)
Definition example_ext_reader : YMF271Chip :=
  writes [ (0xC, 0x14); (0xD, 0x0D); (0xC, 0x16); (0xD, 0x80) ]
    (ymf271_write_rom example_blank_rom 14 [1; 2; 3]).

(** Both timers have expired with their IRQs enabled, on a chip whose
    host has installed an IRQ callback. *)
Definition example_timers_expired : YMF271Chip :=
  ymf271_timer_b_tick
    (ymf271_timer_a_tick
       (ymf271_write_timer (set_irq_handler true example_start) 0x13 0x0C)).

(** * Properties *)

(** ** Machine integers *)

Lemma wrap_u_small (w x : Z) : 0 <= w -> 0 <= x < 2 ^ w -> wrap_u w x = x.
Proof. intros Hw Hx. unfold wrap_u. apply Z.mod_small. exact Hx. Qed.

Lemma wrap_u_range (w x : Z) : 0 <= w -> 0 <= wrap_u w x < 2 ^ w.
Proof.
  intros Hw. unfold wrap_u. apply Z.mod_pos_bound.
  apply Z.pow_pos_nonneg; lia.
Qed.

Lemma wrap_s_small (w x : Z) :
  0 < w -> - 2 ^ (w - 1) <= x < 2 ^ (w - 1) -> wrap_s w x = x.
Proof.
  intros Hw Hx. unfold wrap_s.
  assert (Hp : 2 ^ w = 2 * 2 ^ (w - 1)).
  { replace w with (Z.succ (w - 1)) at 1 by lia. apply Z.pow_succ_r. lia. }
  rewrite Z.mod_small; lia.
Qed.



Lemma to_INT32_small (x : Z) : - 2 ^ 31 <= x < 2 ^ 31 -> to_INT32 x = x.
Proof. intros. unfold to_INT32. apply wrap_s_small; simpl; lia. Qed.


Lemma to_UINT32_small (x : Z) : 0 <= x < 2 ^ 32 -> to_UINT32 x = x.
Proof. intros. unfold to_UINT32. apply wrap_u_small; lia. Qed.

(** Bit [n] of a value stored in a byte. *)
Lemma testbit_to_UINT8 (x n : Z) :
  0 <= n < 8 -> Z.testbit (to_UINT8 x) n = Z.testbit x n.
Proof.
  intros Hn. unfold to_UINT8, wrap_u. apply Z.mod_pow2_bits_low. lia.
Qed.

Lemma nonzero_land_bit (x n : Z) :
  0 <= n -> nonzero (Z.land x (2 ^ n)) = Z.testbit x n.
Proof.
  intros Hn. unfold nonzero.
  destruct (Z.testbit x n) eqn:Hb.
  - apply negb_true_iff, Z.eqb_neq. intros H0.
    assert (Ht : Z.testbit (Z.land x (2 ^ n)) n = true).
    { rewrite Z.land_spec, Hb, Z.pow2_bits_true; auto. }
    rewrite H0, Z.bits_0 in Ht. discriminate.
  - apply negb_false_iff, Z.eqb_eq. apply Z.bits_inj'. intros k Hk.
    rewrite Z.land_spec, Z.bits_0.
    destruct (Z.eq_dec k n) as [->|Hne].
    + rewrite Hb. reflexivity.
    + rewrite Z.pow2_bits_false by lia. apply andb_false_r.
Qed.

(** ** Slots and groups of the chip *)

Lemma get_put_slot_eq (chip : YMF271Chip) (n : Z) (s : YMF271Slot) :
  (Z.to_nat n < length (slots chip))%nat ->
  get_slot (put_slot n s chip) n = s.
Proof.
  intros Hn. unfold get_slot, put_slot. simpl.
  rewrite list_lookup_insert_eq by exact Hn. reflexivity.
Qed.

Lemma get_put_slot_ne (chip : YMF271Chip) (n m : Z) (s : YMF271Slot) :
  Z.to_nat n <> Z.to_nat m ->
  get_slot (put_slot n s chip) m = get_slot chip m.
Proof.
  intros Hn. unfold get_slot, put_slot. simpl.
  rewrite list_lookup_insert_ne by exact Hn. reflexivity.
Qed.

Lemma length_put_slot (chip : YMF271Chip) (n : Z) (s : YMF271Slot) :
  length (slots (put_slot n s chip)) = length (slots chip).
Proof. unfold put_slot. simpl. apply length_insert. Qed.

(** ** Waveform tables *)

Lemma lut_waves_init_tables (sin : float -> float)
  (pow : float -> float -> float) (chip : YMF271Chip) :
  lut_waves (init_tables sin pow chip) =
  fill 0 8 (fun w => fill 0 SIN_LEN (wave_entry sin w) (lut_waves chip w))
    (lut_waves chip).
Proof. reflexivity. Qed.

(** C5: after [init_tables], each of the 1024 entries of waveform table 6
    holds [(INT16)(1 * MAXOUT)], which is -32768 and not +32768: MAXOUT
    is 32768 and does not fit the signed 16-bit entry. *)
Theorem waveform6_entries (sin : float -> float)
  (pow : float -> float -> float) (chip : YMF271Chip) :
  Forall (fun i => lut_waves (init_tables sin pow chip) 6 i = -32768)
    (seqZ 0 1024).
Proof.
  apply Forall_forall. intros i Hi. apply elem_of_seqZ in Hi.
  rewrite lut_waves_init_tables. unfold fill.
  change ((0 <=? 6) && (6 <? 8)) with true. cbv beta iota.
  assert (Hlo : (0 <=? i) = true) by (apply Z.leb_le; lia).
  assert (Hhi : (i <? SIN_LEN) = true)
    by (apply Z.ltb_lt; change SIN_LEN with 1024; lia).
  rewrite Hlo, Hhi. reflexivity.
Qed.

(** The entry at index 0, evaluated, against the value the table is meant
    to hold. *)
Lemma waveform6_first_entry (sin : float -> float)
  (pow : float -> float -> float) (chip : YMF271Chip) :
  lut_waves (init_tables sin pow chip) 6 0 = -32768 /\ -32768 <> MAXOUT.
Proof. split; [reflexivity | discriminate]. Qed.

(** ** External memory port *)

Lemma mask23_mod (x : Z) : Z.land (to_UINT32 x) 0x7fffff = x mod 2 ^ 23.
Proof.
  change 0x7fffff with (Z.ones 23). rewrite Z.land_ones by lia.
  unfold to_UINT32, wrap_u.
  apply Z.mod_mod_divide. exists (2 ^ 9). reflexivity.
Qed.

Lemma mask23_small (x : Z) :
  0 <= x < 2 ^ 23 -> Z.land (to_UINT32 x) 0x7fffff = x.
Proof. intros Hx. rewrite mask23_mod. apply Z.mod_small. exact Hx. Qed.

Lemma rom_index_range (chip : YMF271Chip) (offset i : Z) :
  rom_index chip offset = Some i ->
  0 <= i < mem_size chip /\ i < 2 ^ 23 /\ i = offset mod 2 ^ 23.
Proof.
  unfold rom_index. rewrite mask23_mod.
  destruct (offset mod 2 ^ 23 <? mem_size chip) eqn:Hlt; [|discriminate].
  intros [= <-]. apply Z.ltb_lt in Hlt.
  pose proof (Z.mod_pos_bound offset (2 ^ 23) ltac:(lia)). lia.
Qed.

Lemma rom_index_none (chip : YMF271Chip) (offset : Z) :
  rom_index chip offset = None -> mem_size chip <= offset mod 2 ^ 23.
Proof.
  unfold rom_index. rewrite mask23_mod.
  destruct (offset mod 2 ^ 23 <? mem_size chip) eqn:Hlt; [discriminate|].
  intros _. apply Z.ltb_ge in Hlt. exact Hlt.
Qed.

(** C9: a read of port 2 returns 0xFF and leaves the chip as it is when
    [ext_rw] is 0; otherwise it returns the previous latch, advances
    [ext_address] by one modulo 2^23 and refills the latch with the byte
    of the memory at the new address (0 beyond [mem_size]); nothing else
    changes. *)
Theorem read_port2 (chip : YMF271Chip) :
  let ret := (ymf271_r chip 2).1 in
  let chip' := (ymf271_r chip 2).2 in
  if ext_rw chip =? 0 then ret = 0xff /\ chip' = chip
  else
    ret = ext_readlatch chip
    /\ ext_address chip' = (ext_address chip + 1) mod 2 ^ 23
    /\ ext_readlatch chip' =
         (if ext_address chip' <? mem_size chip
          then mem_byte chip (ext_address chip') else 0)
    /\ chip' =
         set_ext_readlatch (ext_readlatch chip')
           (set_ext_address (ext_address chip') chip).
Proof.
  unfold ymf271_r. change (Z.land 2 0xf) with 2. cbv iota. unfold nonzero.
  destruct (ext_rw chip =? 0) eqn:Hrw; simpl negb; cbv iota.
  - split; reflexivity.
  - set (a := Z.land (to_UINT32 (ext_address chip + 1)) 0x7fffff).
    assert (Ha : a = (ext_address chip + 1) mod 2 ^ 23) by apply mask23_mod.
    assert (Hr : 0 <= a < 2 ^ 23).
    { rewrite Ha. apply Z.mod_pos_bound. lia. }
    simpl. repeat split.
    + exact Ha.
    + unfold ymf271_read_memory, rom_index. simpl.
      rewrite (mask23_small a Hr). destruct (a <? mem_size chip); reflexivity.
Qed.

(** ** Reset *)

(** What the slot loop of [device_reset_ymf271] does to one slot. *)
Lemma get_slot_put_slot_cases (chip : YMF271Chip) (n m : Z) (s : YMF271Slot) :
  get_slot (put_slot n s chip) m = s
  \/ get_slot (put_slot n s chip) m = get_slot chip m.
Proof.
  destruct (decide (Z.to_nat n = Z.to_nat m)) as [He|Hne].
  - destruct (decide (Z.to_nat n < length (slots chip))%nat) as [Hlt|Hge].
    + left. unfold get_slot, put_slot. simpl. rewrite <- He.
      rewrite list_lookup_insert_eq by exact Hlt. reflexivity.
    + right. unfold get_slot, put_slot. simpl.
      rewrite list_insert_ge by lia. reflexivity.
  - right. apply get_put_slot_ne. exact Hne.
Qed.

Lemma reset_loop_keeps_cleared (n : nat) (i k : Z) (chip : YMF271Chip) :
  volume (get_slot chip k) = 0 /\ active (get_slot chip k) = 0 ->
  let chip' :=
    for_range i n
      (fun i chip =>
         put_slot i (set_volume 0 (set_active 0 (get_slot chip i))) chip)
      chip in
  volume (get_slot chip' k) = 0 /\ active (get_slot chip' k) = 0.
Proof.
  revert i chip. induction n as [|n IH]; intros i chip Hk; simpl.
  - exact Hk.
  - apply IH.
    destruct (get_slot_put_slot_cases chip i k
                (set_volume 0 (set_active 0 (get_slot chip i)))) as [-> | ->].
    + split; reflexivity.
    + exact Hk.
Qed.

Lemma reset_loop_clears (n : nat) (i k : Z) (chip : YMF271Chip) :
  0 <= i -> i <= k < i + Z.of_nat n ->
  let chip' :=
    for_range i n
      (fun i chip =>
         put_slot i (set_volume 0 (set_active 0 (get_slot chip i))) chip)
      chip in
  volume (get_slot chip' k) = 0 /\ active (get_slot chip' k) = 0.
Proof.
  revert i chip. induction n as [|n IH]; intros i chip Hi Hk; simpl.
  - lia.
  - destruct (Z.eq_dec k i) as [->|Hne].
    + apply reset_loop_keeps_cleared.
      destruct (decide (Z.to_nat i < length (slots chip))%nat) as [Hlt|Hge].
      * rewrite get_put_slot_eq by exact Hlt. split; reflexivity.
      * unfold get_slot, put_slot. simpl.
        rewrite list_insert_ge by lia. rewrite lookup_ge_None_2 by lia.
        split; reflexivity.
    + apply IH; lia.
Qed.

Lemma device_reset_slot (chip : YMF271Chip) (k : Z) :
  get_slot (device_reset_ymf271 chip) k =
  get_slot
    (for_range 0 48
       (fun i chip =>
          put_slot i (set_volume 0 (set_active 0 (get_slot chip i))) chip)
       chip) k.
Proof.
  unfold device_reset_ymf271.
  match goal with
  | |- context [for_range 0 48 ?f chip] => generalize (for_range 0 48 f chip)
  end.
  intros loop. cbv zeta. destruct (irq_handler _); reflexivity.
Qed.

Lemma device_reset_fields (chip : YMF271Chip) :
  let chip' := device_reset_ymf271 chip in
  status chip' = 0 /\ irqstate chip' = 0 /\ end_status chip' = 0
  /\ enable chip' = 0 /\ busy_flag chip' = 0.
Proof.
  unfold device_reset_ymf271.
  match goal with
  | |- context [for_range 0 48 ?f chip] => generalize (for_range 0 48 f chip)
  end.
  intros loop. cbv zeta. destruct (irq_handler _); repeat split; reflexivity.
Qed.

(** C7: after [device_reset_ymf271] each of the 48 slots has volume 0 and
    is inactive, the status, IRQ state, end-status, enable and busy fields
    are 0, and both status ports read 0. *)
Theorem reset_clears_chip (chip : YMF271Chip) :
  let chip' := device_reset_ymf271 chip in
  Forall
    (fun k => volume (get_slot chip' k) = 0 /\ active (get_slot chip' k) = 0)
    (seqZ 0 48)
  /\ status chip' = 0 /\ irqstate chip' = 0 /\ end_status chip' = 0
  /\ enable chip' = 0 /\ busy_flag chip' = 0
  /\ (ymf271_r chip' 0).1 = 0 /\ (ymf271_r chip' 1).1 = 0.
Proof.
  destruct (device_reset_fields chip) as (Hst & Hirq & Hend & Hen & Hbusy).
  pose proof (device_reset_slot chip) as Hslot.
  revert Hst Hirq Hend Hen Hbusy Hslot.
  generalize (device_reset_ymf271 chip). intros chip' Hst Hirq Hend Hen Hbusy Hslot.
  cbv zeta. split.
  - apply Forall_forall. intros k Hk. apply elem_of_seqZ in Hk.
    rewrite Hslot. apply reset_loop_clears; simpl; lia.
  - do 5 (split; [assumption|]).
    unfold ymf271_r. change (Z.land 0 0xf) with 0. change (Z.land 1 0xf) with 1.
    cbv iota. simpl fst. rewrite Hst, Hend, Hbusy. split; reflexivity.
Qed.

(** ** Key-off *)

(** C10: a write of FM register 0x0 with bit 0 clear changes, in the
    addressed slot, [ext_en] and [ext_out] (decoded from the data byte) and
    sets [env_state] to Release exactly when the slot is active; every
    other field of the slot, every other slot and the rest of the chip are
    left as they were. *)
Theorem keyoff_frame (chip : YMF271Chip) (slotnum data : Z) :
  Z.land data 1 = 0 ->
  0 <= slotnum < 48 ->
  length (slots chip) = 48%nat ->
  let slot := get_slot chip slotnum in
  let chip' := write_register chip slotnum 0x0 data in
  let slot' := get_slot chip' slotnum in
  ext_en slot' = flag (nonzero (Z.land data 0x80))
  /\ ext_out slot' = Z.land (Z.shiftr data 3) 0xf
  /\ env_state slot' =
       (if active slot =? 0 then env_state slot else ENV_RELEASE)
  /\ slot' =
       set_ext_en (ext_en slot')
         (set_ext_out (ext_out slot') (set_env_state (env_state slot') slot))
  /\ (step slot' = step slot /\ stepptr slot' = stepptr slot
      /\ volume slot' = volume slot /\ active slot' = active slot)
  /\ (block slot' = block slot /\ fns slot' = fns slot
      /\ fns_hi slot' = fns_hi slot /\ detune slot' = detune slot
      /\ multiple slot' = multiple slot /\ fs slot' = fs slot)
  /\ (startaddr slot' = startaddr slot /\ loopaddr slot' = loopaddr slot
      /\ endaddr slot' = endaddr slot)
  /\ (feedback_modulation0 slot' = feedback_modulation0 slot
      /\ feedback_modulation1 slot' = feedback_modulation1 slot)
  /\ chip' = put_slot slotnum slot' chip.
Proof.
  intros Hbit Hn Hlen slot chip' slot'.
  assert (Hrange : (Z.to_nat slotnum < length (slots chip))%nat) by lia.
  assert (Hchip : chip' =
            put_slot slotnum
              (let s := set_ext_out (Z.land (Z.shiftr data 3) 0xf)
                          (set_ext_en (flag (nonzero (Z.land data 0x80))) slot) in
               if nonzero (active s) then set_env_state ENV_RELEASE s else s)
              chip).
  { unfold chip', write_register. cbv iota. unfold nonzero at 2.
    rewrite Hbit. reflexivity. }
  assert (Hslot : slot' =
            (let s := set_ext_out (Z.land (Z.shiftr data 3) 0xf)
                        (set_ext_en (flag (nonzero (Z.land data 0x80))) slot) in
             if nonzero (active s) then set_env_state ENV_RELEASE s else s)).
  { unfold slot'. rewrite Hchip. apply get_put_slot_eq. exact Hrange. }
  assert (Hlast : chip' = put_slot slotnum slot' chip).
  { rewrite Hslot. exact Hchip. }
  clearbody chip' slot' slot. clear Hchip.
  repeat match goal with |- _ /\ _ => split end; try exact Hlast;
    rewrite Hslot; destruct slot; cbv zeta; unfold nonzero; simpl active;
    destruct (_ =? 0); reflexivity.
Qed.

(** Key-off of the example voice: the slot goes to Release and keeps its
    volume, phase and activity. *)
Lemma keyoff_frame_witness :
  Z.land 0x00 1 = 0 /\ 0 <= 0 < 48 /\ length (slots example_pcm) = 48%nat
  /\ env_state (get_slot (write_register example_pcm 0 0x0 0x00) 0) = ENV_RELEASE
  /\ volume (get_slot (write_register example_pcm 0 0x0 0x00) 0)
     = volume (get_slot example_pcm 0)
  /\ active (get_slot (write_register example_pcm 0 0x0 0x00) 0) = 1.
Proof.
  assert (Hlen : length (slots example_pcm) = 48%nat) by (vm_compute; reflexivity).
  pose proof (keyoff_frame example_pcm 0 0x00 eq_refl ltac:(lia) Hlen) as H.
  cbv zeta in H. destruct H as (_ & _ & Hst & _ & (_ & _ & Hvol & Hact) & _).
  split; [reflexivity|]. split; [lia|]. split; [exact Hlen|].
  split; [rewrite Hst; vm_compute; reflexivity|].
  split; [exact Hvol|].
  rewrite Hact. vm_compute. reflexivity.
Defined.

(** ** External memory bounds *)

(** Two chips read the same byte wherever [ymf271_read_memory] dereferences
    the memory, when they have the same [mem_size] and the same bytes
    below it. *)
Lemma read_memory_below_size (chip chip2 : YMF271Chip) (offset : Z) :
  mem_size chip2 = mem_size chip ->
  (forall i, 0 <= i < mem_size chip -> mem_byte chip2 i = mem_byte chip i) ->
  ymf271_read_memory chip2 offset = ymf271_read_memory chip offset.
Proof.
  intros Hsize Hbytes. unfold ymf271_read_memory.
  destruct (rom_index chip offset) as [i|] eqn:Hi.
  - assert (Hi2 : rom_index chip2 offset = Some i).
    { unfold rom_index in *. rewrite Hsize. exact Hi. }
    rewrite Hi2. apply Hbytes. apply rom_index_range in Hi. lia.
  - assert (Hi2 : rom_index chip2 offset = None).
    { unfold rom_index in *. rewrite Hsize. exact Hi. }
    rewrite Hi2. reflexivity.
Qed.

(** With the ROM as [ymf271_alloc_rom] leaves it ([mem_size] bytes), the
    dereferenced index is inside the array. *)
Lemma rom_index_allocated (chip : YMF271Chip) (m : list Z) (offset i : Z) :
  mem_base chip = Some m -> Z.of_nat (length m) = mem_size chip ->
  rom_index chip offset = Some i -> is_Some (m !! Z.to_nat i).
Proof.
  intros Hm Hlen Hi. apply rom_index_range in Hi.
  apply lookup_lt_is_Some. lia.
Qed.

(** The PCM fetch reads the memory through [ymf271_read_memory] only. *)
Lemma pcm_fetch_below_size (chip chip2 : YMF271Chip) (slot : YMF271Slot) :
  mem_size chip2 = mem_size chip ->
  (forall i, 0 <= i < mem_size chip -> mem_byte chip2 i = mem_byte chip i) ->
  pcm_fetch chip2 slot = pcm_fetch chip slot.
Proof.
  intros Hsize Hbytes. unfold pcm_fetch, pcm_fetch_with.
  rewrite !(read_memory_below_size chip chip2) by assumption.
  reflexivity.
Qed.

(** C6: every read of the external memory, and so every PCM sample fetch,
    dereferences the ROM only at an index in [0, mem_size): the requested
    offset is masked to 23 bits, a masked offset at or above [mem_size]
    yields 0, and the fetched sample does not depend on anything but the
    bytes below [mem_size], whatever [stepptr], [startaddr], [endaddr] and
    [loopaddr] are. *)
Theorem pcm_fetch_in_bounds (chip chip2 : YMF271Chip) (slot : YMF271Slot) :
  mem_size chip2 = mem_size chip ->
  (forall i, 0 <= i < mem_size chip -> mem_byte chip2 i = mem_byte chip i) ->
  (forall offset,
     match rom_index chip offset with
     | Some i =>
         0 <= i < mem_size chip /\ i = offset mod 2 ^ 23
         /\ ymf271_read_memory chip offset = mem_byte chip i
     | None =>
         mem_size chip <= offset mod 2 ^ 23
         /\ ymf271_read_memory chip offset = 0
     end)
  /\ pcm_fetch chip2 slot = pcm_fetch chip slot.
Proof.
  intros Hsize Hbytes. split.
  - intros offset. unfold ymf271_read_memory.
    destruct (rom_index chip offset) as [i|] eqn:Hi.
    + apply rom_index_range in Hi. repeat split; lia.
    + apply rom_index_none in Hi. split; [exact Hi | reflexivity].
  - apply pcm_fetch_below_size; assumption.
Qed.

(** ** Timers and IRQ *)

Lemma timer_flag_bit (x n : Z) :
  0 <= n -> nonzero (Z.land x (2 ^ n)) = Z.testbit x n.
Proof. apply nonzero_land_bit. Qed.

Lemma timer_other_irq_bit (x n : Z) :
  0 <= n -> nonzero (Z.land (Z.lnot x) (2 ^ n)) = negb (Z.testbit x n).
Proof. intros Hn. rewrite nonzero_land_bit by exact Hn. apply Z.lnot_spec. exact Hn. Qed.

Lemma testbit_set_bit (x n k : Z) :
  0 <= n < 8 -> 0 <= k < 8 ->
  Z.testbit (to_UINT8 (Z.lor x (2 ^ n))) k = (k =? n) || Z.testbit x k.
Proof.
  intros Hn Hk. rewrite testbit_to_UINT8 by lia. rewrite Z.lor_spec.
  rewrite Z.pow2_bits_eqb by lia. rewrite (Z.eqb_sym n k). apply orb_comm.
Qed.

Lemma testbit_clear_bit (x n k : Z) :
  0 <= n < 8 -> 0 <= k < 8 ->
  Z.testbit (to_UINT8 (Z.land x (Z.lnot (2 ^ n)))) k
  = negb (k =? n) && Z.testbit x k.
Proof.
  intros Hn Hk. rewrite testbit_to_UINT8 by lia. rewrite Z.land_spec.
  rewrite Z.lnot_spec by lia.
  rewrite Z.pow2_bits_eqb by lia. rewrite (Z.eqb_sym n k). apply andb_comm.
Qed.


Lemma timer_a_tick_fields (chip : YMF271Chip) :
  let ca := ymf271_timer_a_tick chip in
  status ca = to_UINT8 (Z.lor (status chip) 1)
  /\ irqstate ca
     = (if nonzero (Z.land (enable chip) 4)
        then to_UINT8 (Z.lor (irqstate chip) 1) else irqstate chip)
  /\ irq_calls ca
     = irq_calls chip
       ++ (if nonzero (Z.land (enable chip) 4) && irq_handler chip
           then [1] else []).
Proof.
  destruct chip. unfold ymf271_timer_a_tick. simpl.
  repeat match goal with
         | |- context [if ?b then _ else _] => destruct b; simpl
         end; rewrite ?app_nil_r; repeat split; reflexivity.
Qed.

Lemma timer_b_tick_fields (chip : YMF271Chip) :
  let cb := ymf271_timer_b_tick chip in
  status cb = to_UINT8 (Z.lor (status chip) 2)
  /\ irqstate cb
     = (if nonzero (Z.land (enable chip) 8)
        then to_UINT8 (Z.lor (irqstate chip) 2) else irqstate chip)
  /\ irq_calls cb
     = irq_calls chip
       ++ (if nonzero (Z.land (enable chip) 8) && irq_handler chip
           then [1] else []).
Proof.
  destruct chip. unfold ymf271_timer_b_tick. simpl.
  repeat match goal with
         | |- context [if ?b then _ else _] => destruct b; simpl
         end; rewrite ?app_nil_r; repeat split; reflexivity.
Qed.

Lemma timer_reset_fields (bit other : Z) (chip : YMF271Chip) :
  let cr := timer_reset bit other chip in
  status cr = to_UINT8 (Z.land (status chip) (Z.lnot bit))
  /\ irqstate cr = to_UINT8 (Z.land (irqstate chip) (Z.lnot bit))
  /\ irq_calls cr
     = irq_calls chip
       ++ (if irq_handler chip
              && nonzero
                   (Z.land
                      (Z.lnot (to_UINT8 (Z.land (irqstate chip) (Z.lnot bit))))
                      other)
           then [0] else [])
  /\ irq_handler cr = irq_handler chip.
Proof.
  destruct chip. unfold timer_reset. simpl.
  repeat match goal with
         | |- context [if ?b then _ else _] => destruct b; simpl
         end; rewrite ?app_nil_r; repeat split; reflexivity.
Qed.

Lemma set_enable_fields (data : Z) (chip : YMF271Chip) :
  status (set_enable data chip) = status chip
  /\ irqstate (set_enable data chip) = irqstate chip
  /\ irq_calls (set_enable data chip) = irq_calls chip
  /\ enable (set_enable data chip) = data.
Proof. repeat split; reflexivity. Qed.

Lemma write_timer_13_fields (chip : YMF271Chip) (data : Z) :
  let cw := ymf271_write_timer chip 0x13 data in
  let ra := nonzero (Z.land data 0x10) in
  let rb := nonzero (Z.land data 0x20) in
  let clear (r : bool) (bit x : Z) :=
    if r then to_UINT8 (Z.land x (Z.lnot bit)) else x in
  status cw = clear rb 2 (clear ra 1 (status chip))
  /\ irqstate cw = clear rb 2 (clear ra 1 (irqstate chip))
  /\ irq_calls cw
     = irq_calls chip
       ++ (if ra && irq_handler chip
              && nonzero (Z.land (Z.lnot (clear ra 1 (irqstate chip))) 2)
           then [0] else [])
       ++ (if rb && irq_handler chip
              && nonzero
                   (Z.land (Z.lnot (clear rb 2 (clear ra 1 (irqstate chip)))) 1)
           then [0] else [])
  /\ enable cw = data.
Proof.
  unfold ymf271_write_timer.
  change (Z.land 0x13 0xf0 =? 0) with false. cbv iota zeta.
  destruct (timer_reset_fields 1 2 chip) as (Hs1 & Hi1 & Hc1 & Hh1).
  destruct (timer_reset_fields 2 1 (timer_reset 1 2 chip))
    as (Hs12 & Hi12 & Hc12 & Hh12).
  destruct (timer_reset_fields 2 1 chip) as (Hs2 & Hi2 & Hc2 & Hh2).
  cbv zeta in *.
  destruct (nonzero (Z.land data 16)); destruct (nonzero (Z.land data 32));
    cbn [andb];
    match goal with
    | |- context [set_enable data ?c] =>
        destruct (set_enable_fields data c) as (-> & -> & -> & ->)
    end;
    rewrite ?Hs12, ?Hi12, ?Hc12, ?Hh12, ?Hs1, ?Hi1, ?Hc1, ?Hh1,
      ?Hs2, ?Hi2, ?Hc2, ?Hh2, ?app_nil_r, <- ?app_assoc;
    repeat split; reflexivity.
Qed.

Lemma nonzero_land_4 (x : Z) : nonzero (Z.land x 4) = Z.testbit x 2.
Proof. apply (nonzero_land_bit x 2). lia. Qed.
Lemma nonzero_land_8 (x : Z) : nonzero (Z.land x 8) = Z.testbit x 3.
Proof. apply (nonzero_land_bit x 3). lia. Qed.
Lemma nonzero_land_16 (x : Z) : nonzero (Z.land x 16) = Z.testbit x 4.
Proof. apply (nonzero_land_bit x 4). lia. Qed.
Lemma nonzero_land_32 (x : Z) : nonzero (Z.land x 32) = Z.testbit x 5.
Proof. apply (nonzero_land_bit x 5). lia. Qed.
Lemma nonzero_lnot_1 (x : Z) :
  nonzero (Z.land (Z.lnot x) 1) = negb (Z.testbit x 0).
Proof. apply (timer_other_irq_bit x 0). lia. Qed.
Lemma nonzero_lnot_2 (x : Z) :
  nonzero (Z.land (Z.lnot x) 2) = negb (Z.testbit x 1).
Proof. apply (timer_other_irq_bit x 1). lia. Qed.

Lemma testbit_set_1_0 (x : Z) : Z.testbit (to_UINT8 (Z.lor x 1)) 0 = true.
Proof. apply (testbit_set_bit x 0 0); lia. Qed.
Lemma testbit_set_2_1 (x : Z) : Z.testbit (to_UINT8 (Z.lor x 2)) 1 = true.
Proof. apply (testbit_set_bit x 1 1); lia. Qed.
Lemma testbit_clear_1_0 (x : Z) :
  Z.testbit (to_UINT8 (Z.land x (Z.lnot 1))) 0 = false.
Proof. apply (testbit_clear_bit x 0 0); lia. Qed.
Lemma testbit_clear_1_1 (x : Z) :
  Z.testbit (to_UINT8 (Z.land x (Z.lnot 1))) 1 = Z.testbit x 1.
Proof. apply (testbit_clear_bit x 0 1); lia. Qed.
Lemma testbit_clear_2_0 (x : Z) :
  Z.testbit (to_UINT8 (Z.land x (Z.lnot 2))) 0 = Z.testbit x 0.
Proof. apply (testbit_clear_bit x 1 0); lia. Qed.
Lemma testbit_clear_2_1 (x : Z) :
  Z.testbit (to_UINT8 (Z.land x (Z.lnot 2))) 1 = false.
Proof. apply (testbit_clear_bit x 1 1); lia. Qed.

Create Rewrite HintDb timer_bits.
#[local] Hint Rewrite nonzero_lnot_1 nonzero_lnot_2 testbit_set_1_0
  testbit_set_2_1 testbit_clear_1_0 testbit_clear_1_1 testbit_clear_2_0
  testbit_clear_2_1 : timer_bits.

(** C3: expiry of Timer A (B) sets status bit 0 (1) in every case; with
    the enable bit 2 (3) of register 0x13 set it also asserts the IRQ state
    bit and, when a callback is installed, invokes it with argument 1.  A
    write to register 0x13 with bit 4 (5) set clears the status bit and the
    IRQ state bit of that timer and invokes the callback with argument 0
    unless the other timer still asserts the IRQ; the byte written becomes
    the enable register.  Without a callback nothing is invoked and the
    status bits are set and cleared all the same. *)
Theorem timer_irq (chip : YMF271Chip) (data : Z) :
  let ca := ymf271_timer_a_tick chip in
  let cb := ymf271_timer_b_tick chip in
  let cw := ymf271_write_timer chip 0x13 data in
  (Z.testbit (status ca) 0 = true
   /\ Z.testbit (irqstate ca) 0
      = Z.testbit (enable chip) 2 || Z.testbit (irqstate chip) 0
   /\ irq_calls ca
      = irq_calls chip
        ++ (if Z.testbit (enable chip) 2 && irq_handler chip then [1] else []))
  /\ (Z.testbit (status cb) 1 = true
      /\ Z.testbit (irqstate cb) 1
         = Z.testbit (enable chip) 3 || Z.testbit (irqstate chip) 1
      /\ irq_calls cb
         = irq_calls chip
           ++ (if Z.testbit (enable chip) 3 && irq_handler chip then [1] else []))
  /\ (Z.testbit (status cw) 0
      = (if Z.testbit data 4 then false else Z.testbit (status chip) 0)
      /\ Z.testbit (irqstate cw) 0
         = (if Z.testbit data 4 then false else Z.testbit (irqstate chip) 0)
      /\ Z.testbit (status cw) 1
         = (if Z.testbit data 5 then false else Z.testbit (status chip) 1)
      /\ Z.testbit (irqstate cw) 1
         = (if Z.testbit data 5 then false else Z.testbit (irqstate chip) 1)
      /\ irq_calls cw
         = irq_calls chip
           ++ (if Z.testbit data 4 && irq_handler chip
                  && negb (Z.testbit (irqstate chip) 1)
               then [0] else [])
           ++ (if Z.testbit data 5 && irq_handler chip
                  && negb (if Z.testbit data 4 then false
                           else Z.testbit (irqstate chip) 0)
               then [0] else [])
      /\ enable cw = data).
Proof.
  destruct (timer_a_tick_fields chip) as (Hsa & Hia & Hca).
  destruct (timer_b_tick_fields chip) as (Hsb & Hib & Hcb).
  destruct (write_timer_13_fields chip data) as (Hsw & Hiw & Hcw & Hew).
  cbv zeta in *.
  rewrite Hsa, Hia, Hca, Hsb, Hib, Hcb, Hsw, Hiw, Hcw, Hew.
  clear Hsa Hia Hca Hsb Hib Hcb Hsw Hiw Hcw Hew.
  rewrite !nonzero_land_4, !nonzero_land_8, !nonzero_land_16, !nonzero_land_32.
  destruct (Z.testbit (enable chip) 2), (Z.testbit (enable chip) 3),
    (Z.testbit data 4), (Z.testbit data 5), (irq_handler chip);
    cbn [andb orb negb];
    autorewrite with timer_bits;
    cbn [andb orb negb];
    repeat split; reflexivity.
Qed.

(** C3 fails as stated: with both timers expired and both IRQs asserted,
    the write of 0x1C to register 0x13 (bit 4 set) clears status bit 0 and
    the IRQ state bit of Timer A, but Timer B still asserts the IRQ: the
    IRQ state stays at 2 and the callback, which was invoked with 1 at
    each expiry, is not invoked with 0. *)
Lemma timer_reset_counterexample :
  irq_handler example_timers_expired = true
  /\ Z.testbit 0x1C 4 = true
  /\ status example_timers_expired = 3
  /\ irqstate example_timers_expired = 3
  /\ irq_calls example_timers_expired = [1; 1]
  /\ status (ymf271_write_timer example_timers_expired 0x13 0x1C) = 2
  /\ irqstate (ymf271_write_timer example_timers_expired 0x13 0x1C) = 2
  /\ irq_calls (ymf271_write_timer example_timers_expired 0x13 0x1C)
     = [1; 1].
Proof. repeat split; vm_compute; reflexivity. Qed.

(** ** Examples for the memory bounds *)

Lemma example_pcm_mem_size :
  mem_size example_pcm = 16 /\ mem_size example_pcm_longer_rom = 16.
Proof. split; vm_compute; reflexivity. Qed.

Lemma example_pcm_bytes_agree (i : Z) :
  0 <= i < mem_size example_pcm ->
  mem_byte example_pcm_longer_rom i = mem_byte example_pcm i.
Proof.
  destruct example_pcm_mem_size as [-> _]. intros Hi.
  assert (Hcases : i = 0 \/ i = 1 \/ i = 2 \/ i = 3 \/ i = 4 \/ i = 5 \/ i = 6
                   \/ i = 7 \/ i = 8 \/ i = 9 \/ i = 10 \/ i = 11 \/ i = 12
                   \/ i = 13 \/ i = 14 \/ i = 15) by lia.
  repeat (destruct Hcases as [-> | Hcases]; [vm_compute; reflexivity|]).
  subst i. vm_compute. reflexivity.
Qed.

(** The example ROM has 16 bytes.  The chip with three more bytes behind
    them fetches the same sample, and a fetch at sample position 17 reads
    nothing and yields 0. *)
Lemma pcm_fetch_in_bounds_witness :
  mem_size example_pcm_longer_rom = mem_size example_pcm
  /\ pcm_fetch example_pcm_longer_rom example_slot_past_end
     = pcm_fetch example_pcm example_slot_past_end
  /\ pcm_fetch example_pcm example_slot_past_end = 0
  /\ rom_index example_pcm 17 = None
  /\ rom_index example_pcm (2 ^ 23 + 3) = Some 3.
Proof.
  assert (Hsize : mem_size example_pcm_longer_rom = mem_size example_pcm)
    by (vm_compute; reflexivity).
  destruct (pcm_fetch_in_bounds example_pcm example_pcm_longer_rom
              example_slot_past_end Hsize example_pcm_bytes_agree)
    as [_ Hfetch].
  split; [exact Hsize|]. split; [exact Hfetch|].
  split; [vm_compute; reflexivity|].
  split; vm_compute; reflexivity.
Defined.

(** ** Envelope generator *)

(** The rate tables of a chip started at the standard clock give steps in
    range for every rate and every Decay1 level. *)
Lemma env_tables_std : env_tables_in_rangeb example_start = true.
Proof. vm_compute. reflexivity. Qed.

(** C8: on an envelope update of a slot whose steps and volume are in the
    ranges that key-on establishes, the volume does not decrease in the
    Attack stage and does not increase in the Decay1, Decay2 and Release
    stages; it stays between 0 and 255<<16, and the steps, computed at
    key-on, are left as they are. *)
Theorem envelope_monotone (slot : YMF271Slot) :
  env_steps_in_range slot ->
  env_volume_in_range slot ->
  let slot' := update_envelope slot in
  (if env_state slot =? ENV_ATTACK
   then volume slot <= volume slot'
   else volume slot' <= volume slot)
  /\ env_volume_in_range slot'
  /\ env_steps_in_range slot'.
Proof.
  unfold env_steps_in_range, env_step_in_range, env_volume_in_range.
  change (Z.shiftl 255 ENV_VOLUME_SHIFT) with 16711680.
  change (2 ^ 31 - 1 - 16711680) with 2130771967.
  intros (Ha & Hd1 & Hd2 & Hr) Hv.
  destruct slot as [? ? ? ? ? ? ? ? ? ? ? ? ? ? ? ? ? ? ? ? ? ? ? ? ? ? ? ? ? ?
                       ? ? ? ? ? ? ? vol st sa sd1 sd2 sr ? ? ? ? ? ? ?].
  unfold update_envelope, check_envelope_end.
  change (Z.shiftl 255 ENV_VOLUME_SHIFT) with 16711680.
  cbn -[to_INT32 Z.shiftr Z.shiftl Z.leb Z.eqb] in *.
  destruct (st =? ENV_ATTACK) eqn:E0.
  { rewrite to_INT32_small by lia.
    destruct (16711680 <=? vol + sa) eqn:E; cbn -[Z.leb];
      [apply Z.leb_le in E | apply Z.leb_gt in E]; lia. }
  destruct (st =? ENV_DECAY1) eqn:E1.
  { rewrite to_INT32_small by lia.
    destruct (vol - sd1 <=? 0) eqn:E; cbn -[Z.leb Z.shiftr Z.shiftl];
      [apply Z.leb_le in E | apply Z.leb_gt in E].
    - lia.
    - destruct (_ <=? _); cbn; lia. }
  destruct (st =? ENV_DECAY2) eqn:E2.
  { rewrite to_INT32_small by lia.
    destruct (vol - sd2 <=? 0) eqn:E; cbn -[Z.leb];
      [apply Z.leb_le in E | apply Z.leb_gt in E]; lia. }
  destruct (st =? ENV_RELEASE) eqn:E3.
  { rewrite to_INT32_small by lia.
    destruct (vol - sr <=? 0) eqn:E; cbn -[Z.leb];
      [apply Z.leb_le in E | apply Z.leb_gt in E]; lia. }
  cbn. lia.
Qed.

Lemma get_keyscaled_rate_range (rate keycode keyscale : Z) :
  0 <= get_keyscaled_rate rate keycode keyscale <= 63.
Proof.
  unfold get_keyscaled_rate. cbv zeta.
  repeat match goal with
         | |- context [if ?b then _ else _] => destruct b eqn:?
         end;
    repeat match goal with
           | H : (_ <? _) = true |- _ => apply Z.ltb_lt in H
           | H : (_ <? _) = false |- _ => apply Z.ltb_ge in H
           end; lia.
Qed.

Lemma env_step_in_rangeb_spec (st : Z) :
  env_step_in_rangeb st = true -> env_step_in_range st.
Proof.
  unfold env_step_in_rangeb, env_step_in_range.
  intros H. apply andb_true_iff in H as [H1 H2].
  apply Z.leb_le in H1. apply Z.leb_le in H2. lia.
Qed.

Lemma env_tables_in_range_spec (chip : YMF271Chip) (rate lvl : Z) :
  env_tables_in_rangeb chip = true ->
  0 <= rate <= 63 -> 0 <= lvl <= 15 ->
  env_step_in_range (env_step (lut_ar chip) 255 rate)
  /\ env_step_in_range (env_step (lut_dc chip) 255 rate)
  /\ env_step_in_range (env_step (lut_dc chip) (Z.shiftl lvl 4) rate).
Proof.
  intros Hok Hrate Hlvl. unfold env_tables_in_rangeb in Hok.
  rewrite forallb_forall in Hok.
  specialize (Hok rate). 
  assert (Hin : In rate (seqZ 0 64)).
  { apply list_elem_of_In, elem_of_seqZ. lia. }
  specialize (Hok Hin).
  apply andb_true_iff in Hok as [Hok Hl].
  apply andb_true_iff in Hok as [Har Hdc].
  rewrite forallb_forall in Hl.
  assert (Hinl : In lvl (seqZ 0 16)).
  { apply list_elem_of_In, elem_of_seqZ. lia. }
  specialize (Hl lvl Hinl).
  repeat split; apply env_step_in_rangeb_spec; assumption.
Qed.

(** Key-on establishes the ranges: [init_envelope] computes steps in range
    from rate tables that pass the check, and starts the Attack stage at
    volume 95<<16. *)
Lemma init_envelope_ranges (chip : YMF271Chip) (slot : YMF271Slot) :
  env_tables_in_rangeb chip = true ->
  0 <= decay1lvl slot <= 15 ->
  let slot' := init_envelope chip slot in
  env_steps_in_range slot' /\ env_volume_in_range slot'
  /\ env_state slot' = ENV_ATTACK.
Proof.
  intros Hok Hlvl.
  destruct slot as [? ? ? ? ? ? ? ? ? ksc rar rd1 rd2 lvl rrl blk ? fn ? wf
                       ? ? ? ? ? ? ? ? ? ? ? sn sb ? ? ? ? ? ? ? ? ? ? ? ? ? ?
                       ? ? ?].
  unfold init_envelope.
  cbn -[env_step get_keyscaled_rate get_internal_keycode get_external_keycode Z.shiftl Z.sub] in *.
  unfold env_steps_in_range, env_volume_in_range.
  cbn -[env_step get_keyscaled_rate get_internal_keycode get_external_keycode Z.shiftl Z.sub].
  change (255 - 0) with 255.
  replace (255 - (255 - Z.shiftl lvl 4)) with (Z.shiftl lvl 4) by lia.
  set (keycode := if negb (wf =? 7) then _ else _).
  pose proof (fun rate => env_tables_in_range_spec chip
                (get_keyscaled_rate rate keycode ksc) lvl Hok
                (get_keyscaled_rate_range rate keycode ksc) Hlvl) as Hr.
  split; [|split; [|reflexivity]].
  - split; [apply (Hr (rar * 2))|].
    split; [apply (Hr (rd1 * 2))|].
    split; [apply (Hr (rd2 * 2)) | apply (Hr (rrl * 4))].
  - change (Z.shiftl (255 - 160) ENV_VOLUME_SHIFT) with 6225920.
    change (Z.shiftl 255 ENV_VOLUME_SHIFT) with 16711680. lia.
Qed.

(** The example voice right after key-on: Attack stage, ranges satisfied. *)
Lemma envelope_monotone_witness :
  env_steps_in_range (get_slot example_pcm 0)
  /\ env_volume_in_range (get_slot example_pcm 0)
  /\ env_state (get_slot example_pcm 0) = ENV_ATTACK
  /\ volume (get_slot example_pcm 0)
     <= volume (update_envelope (get_slot example_pcm 0)).
Proof.
  assert (Hs : env_steps_in_range (get_slot example_pcm 0)).
  { unfold env_steps_in_range, env_step_in_range.
    repeat split; vm_compute; discriminate. }
  assert (Hv : env_volume_in_range (get_slot example_pcm 0)).
  { unfold env_volume_in_range. split; vm_compute; discriminate. }
  assert (Hst : env_state (get_slot example_pcm 0) = ENV_ATTACK)
    by (vm_compute; reflexivity).
  destruct (envelope_monotone (get_slot example_pcm 0) Hs Hv) as (Hm & _).
  rewrite Hst in Hm. change (ENV_ATTACK =? ENV_ATTACK) with true in Hm.
  split; [exact Hs|]. split; [exact Hv|]. split; [exact Hst|]. exact Hm.
Defined.

(** ** Accumulator path of the PCM engine *)


Lemma pcm_loop_chip_frame (chip : YMF271Chip) (slotnum : Z) (slot : YMF271Slot) :
  let chip' := (pcm_loop chip slotnum slot).1 in
  acc_buffer chip' = acc_buffer chip /\ mix_buffer chip' = mix_buffer chip
  /\ lut_attenuation chip' = lut_attenuation chip
  /\ mem_base chip' = mem_base chip /\ mem_size chip' = mem_size chip
  /\ slots chip' = slots chip.
Proof.
  unfold pcm_loop, calculate_status_end. cbv zeta.
  case_ifs; repeat split; reflexivity.
Qed.



Lemma tab_buf_set_eq (l : list Z) (i v : Z) :
  (Z.to_nat i < length l)%nat -> tab (buf_set i v l) i = v.
Proof.
  intros Hi. unfold tab, buf_set.
  rewrite list_lookup_insert_eq by exact Hi. reflexivity.
Qed.

Lemma tab_buf_set_ne (l : list Z) (i j v : Z) :
  Z.to_nat i <> Z.to_nat j -> tab (buf_set i v l) j = tab l j.
Proof.
  intros Hij. unfold tab, buf_set.
  rewrite list_lookup_insert_ne by exact Hij. reflexivity.
Qed.

Lemma length_buf_set (l : list Z) (i v : Z) :
  length (buf_set i v l) = length l.
Proof. unfold buf_set. apply length_insert. Qed.

Lemma acc_saturate_range (x : Z) :
  ACC_18BIT_MIN <= acc_saturate x <= ACC_18BIT_MAX.
Proof.
  unfold acc_saturate, ACC_18BIT_MIN, ACC_18BIT_MAX.
  destruct (131071 <? x) eqn:E1; [lia|].
  destruct (x <? -131072) eqn:E2; [lia|].
  apply Z.ltb_ge in E1. apply Z.ltb_ge in E2. lia.
Qed.





Lemma length_pcm_acc_channel (chip : YMF271Chip) (idx output level : Z)
  (accp : list Z) :
  length (pcm_acc_channel chip idx output level accp) = length accp.
Proof. unfold pcm_acc_channel. cbv zeta. apply length_buf_set. Qed.


Lemma put_slot_buffers (n : Z) (s : YMF271Slot) (chip : YMF271Chip) :
  acc_buffer (put_slot n s chip) = acc_buffer chip
  /\ mix_buffer (put_slot n s chip) = mix_buffer chip.
Proof. split; reflexivity. Qed.


Lemma set_acc_buffer_buffers (accp : list Z) (chip : YMF271Chip) :
  acc_buffer (set_acc_buffer accp chip) = accp
  /\ mix_buffer (set_acc_buffer accp chip) = mix_buffer chip.
Proof. split; reflexivity. Qed.



Lemma tab_replicate_zero (n : nat) (k : Z) : tab (replicate n 0) k = 0.
Proof.
  unfold tab. destruct (replicate n 0 !! Z.to_nat k) as [x|] eqn:E.
  - apply lookup_replicate in E as [-> _]. reflexivity.
  - reflexivity.
Qed.

Lemma example_pcm_acc_buffer :
  acc_buffer example_pcm = replicate (Z.to_nat 17640) 0.
Proof. vm_compute. reflexivity. Qed.



(** ** Envelope termination *)

(** [update_pcm] returns at once for a slot that is not active. *)
Lemma update_pcm_inactive (chip : YMF271Chip) (slotnum length : Z) :
  active (get_slot chip slotnum) = 0 -> update_pcm chip slotnum length = chip.
Proof. intros H. unfold update_pcm, nonzero. rewrite H. reflexivity. Qed.

(** [update_envelope] in Decay1, Decay2 or Release: when the volume minus
    the step of the stage is at or below 0, [check_envelope_end] clears
    [active] and sets the volume to 0. *)
Lemma envelope_end_slot (slot : YMF271Slot) :
  env_state slot = ENV_DECAY1 \/ env_state slot = ENV_DECAY2
  \/ env_state slot = ENV_RELEASE ->
  to_INT32 (volume slot - env_stage_step slot) <= 0 ->
  active (update_envelope slot) = 0 /\ volume (update_envelope slot) = 0.
Proof.
  destruct slot as [? ? ? ? ? ? ? ? ? ? ? ? ? ? ? ? ? ? ? ? ? ? ? ? ? ? ? ? ? ?
                       ? ? ? ? ? ? ? vol st sa sd1 sd2 sr ? ? ? ? ? ? ?].
  unfold update_envelope, check_envelope_end, env_stage_step.
  cbn -[to_INT32 Z.shiftr Z.shiftl Z.leb Z.eqb].
  intros Hst Hv.
  destruct Hst as [-> | [-> | ->]];
    change (ENV_DECAY1 =? ENV_ATTACK) with false;
    change (ENV_DECAY2 =? ENV_ATTACK) with false;
    change (ENV_RELEASE =? ENV_ATTACK) with false;
    change (ENV_DECAY1 =? ENV_DECAY1) with true in *;
    change (ENV_DECAY2 =? ENV_DECAY1) with false in *;
    change (ENV_DECAY2 =? ENV_DECAY2) with true in *;
    change (ENV_RELEASE =? ENV_DECAY1) with false in *;
    change (ENV_RELEASE =? ENV_DECAY2) with false in *;
    change (ENV_RELEASE =? ENV_RELEASE) with true in *;
    cbv iota in *;
    apply Z.leb_le in Hv; rewrite Hv; cbn; split; reflexivity.
Qed.

(** A group adds nothing when every slot whose [active] flag is tested for
    its sync mode is inactive. *)
Lemma update_group_inactive (chip : YMF271Chip) (j n : Z) :
  (forall s, In s (gating_slots (sync (get_group chip j)) j) ->
             active (get_slot chip s) = 0) ->
  update_group j n chip = chip.
Proof.
  intros H. unfold update_group. cbv zeta.
  destruct (nonzero (Muted (get_group chip j)) || _); [reflexivity|].
  unfold gating_slots in H.
  destruct (sync (get_group chip j)) as [|[[p|p|]|[p|p|]|]|p]; try reflexivity.
  - (* 4 operator FM *)
    unfold nonzero. rewrite (H (j + 0 * 12)) by (simpl; tauto). reflexivity.
  - (* PCM *)
    rewrite (update_pcm_inactive chip (j + 0 * 12)) by (apply H; simpl; tauto).
    rewrite (update_pcm_inactive chip (j + 1 * 12)) by (apply H; simpl; tauto).
    rewrite (update_pcm_inactive chip (j + 2 * 12)) by (apply H; simpl; tauto).
    apply update_pcm_inactive. apply H. simpl; tauto.
  - (* 3 operator FM + PCM *)
    unfold nonzero. rewrite (H (j + 0 * 12)) by (simpl; tauto).
    simpl. apply update_pcm_inactive. apply H. simpl; tauto.
  - (* 2x 2 operator FM *)
    unfold update_group_fm2, nonzero.
    rewrite (H (j + (0 + 0) * 12)) by (simpl; tauto). simpl.
    rewrite (H (j + (1 + 0) * 12)) by (simpl; tauto). reflexivity.
Qed.

Lemma pcm_loop_env_frame (chip : YMF271Chip) (slotnum : Z) (slot : YMF271Slot) :
  same_env_regs slot (pcm_loop chip slotnum slot).2.
Proof.
  unfold pcm_loop, same_env_regs. cbv zeta. case_ifs; repeat split; reflexivity.
Qed.

Lemma update_lfo_active (chip : YMF271Chip) (slot : YMF271Slot) :
  active (update_lfo chip slot) = active slot
  /\ volume (update_lfo chip slot) = volume slot.
Proof.
  unfold update_lfo, calculate_step. cbv zeta. case_ifs; split; reflexivity.
Qed.

Lemma envelope_end_same_regs (slot slot1 : YMF271Slot) :
  same_env_regs slot slot1 ->
  env_state slot = ENV_DECAY1 \/ env_state slot = ENV_DECAY2
  \/ env_state slot = ENV_RELEASE ->
  to_INT32 (volume slot - env_stage_step slot) <= 0 ->
  active (update_envelope slot1) = 0 /\ volume (update_envelope slot1) = 0.
Proof.
  intros (Ha & Hv & Hs & H1 & H2 & Hr) Hst Hle.
  apply envelope_end_slot.
  - rewrite Hs. exact Hst.
  - unfold env_stage_step in *. rewrite Hv, Hs, H1, H2, Hr. exact Hle.
Qed.

Lemma pcm_store_slot (mixed : YMF271Chip) (slotnum : Z) (slot3 : YMF271Slot) :
  (Z.to_nat slotnum < length (slots mixed))%nat ->
  let slot' :=
    get_slot
      (put_slot slotnum
         (if 0 <? loop_direction slot3
          then set_stepptr (to_UINT64 (stepptr slot3 + step slot3)) slot3
          else set_stepptr (to_UINT64 (stepptr slot3 - step slot3)) slot3)
         mixed) slotnum in
  active slot' = active slot3 /\ volume slot' = volume slot3.
Proof.
  intros Hn slot'. subst slot'. rewrite get_put_slot_eq by exact Hn.
  destruct (0 <? loop_direction slot3); split; reflexivity.
Qed.

Lemma slots_set_buffers (buf : list Z) (chip : YMF271Chip) :
  slots (set_acc_buffer buf chip) = slots chip
  /\ slots (set_mix_buffer buf chip) = slots chip.
Proof. split; reflexivity. Qed.

Lemma update_pcm_sample_slot (chip : YMF271Chip) (slotnum i : Z) :
  (Z.to_nat slotnum < length (slots chip))%nat ->
  let slot1 := (pcm_loop chip slotnum (get_slot chip slotnum)).2 in
  let slot' := get_slot (update_pcm_sample slotnum i chip) slotnum in
  active slot' = active (update_envelope slot1)
  /\ volume slot' = volume (update_envelope slot1).
Proof.
  intros Hn slot1 slot'. subst slot1 slot'. unfold update_pcm_sample.
  pose proof (pcm_loop_chip_frame chip slotnum (get_slot chip slotnum)) as Hc.
  destruct (pcm_loop chip slotnum (get_slot chip slotnum)) as [chip1 slot1].
  cbn [fst snd] in *. cbv zeta in Hc. destruct Hc as (_ & _ & _ & _ & _ & Hsl).
  cbv zeta.
  destruct (update_lfo_active chip1 (update_envelope slot1)) as [Ha Hv].
  rewrite <- Ha, <- Hv.
  apply pcm_store_slot.
  destruct (nonzero (accon _)).
  - rewrite (proj1 (slots_set_buffers _ chip1)), Hsl. exact Hn.
  - rewrite (proj2 (slots_set_buffers _ chip1)), Hsl. exact Hn.
Qed.

Lemma calculate_op_slot (chip : YMF271Chip) (slotnum inp : Z) :
  (Z.to_nat slotnum < length (slots chip))%nat ->
  let slot := get_slot chip slotnum in
  let slot' := get_slot (calculate_op slotnum inp chip).2 slotnum in
  active slot' = active (update_envelope slot)
  /\ volume slot' = volume (update_envelope slot).
Proof.
  intros Hn slot slot'. subst slot slot'. unfold calculate_op. cbv zeta.
  destruct (update_lfo_active chip (update_envelope (get_slot chip slotnum)))
    as [Ha Hv].
  rewrite <- Ha, <- Hv.
  generalize (update_lfo chip (update_envelope (get_slot chip slotnum))).
  intros slot3.
  destruct (inp =? OP_INPUT_FEEDBACK);
    [| destruct (negb (inp =? OP_INPUT_NONE))];
    cbn [snd]; rewrite get_put_slot_eq by exact Hn; split; reflexivity.
Qed.

(** C4 (as the code has it): for a slot in Decay1, Decay2 or Release whose
    volume reaches 0 or less on an envelope update, [update_envelope]
    marks the slot inactive with volume 0; the PCM sample and the FM
    operator evaluation that ran this update store the slot back inactive
    with volume 0.  The [active] flag is tested once per chunk, on entry
    of [update_pcm] and on the key-on slot of each FM configuration: from
    the next chunk on [update_pcm] leaves the chip as it is for this slot,
    and a group whose tested slots are all inactive adds nothing to the
    mix. *)
Theorem envelope_end (chip : YMF271Chip) (slotnum : Z) :
  let slot := get_slot chip slotnum in
  (Z.to_nat slotnum < length (slots chip))%nat ->
  env_state slot = ENV_DECAY1 \/ env_state slot = ENV_DECAY2
  \/ env_state slot = ENV_RELEASE ->
  to_INT32 (volume slot - env_stage_step slot) <= 0 ->
  (active (update_envelope slot) = 0 /\ volume (update_envelope slot) = 0)
  /\ (forall i,
        let chip' := update_pcm_sample slotnum i chip in
        active (get_slot chip' slotnum) = 0
        /\ volume (get_slot chip' slotnum) = 0
        /\ forall n, update_pcm chip' slotnum n = chip')
  /\ (forall inp,
        let chip' := (calculate_op slotnum inp chip).2 in
        active (get_slot chip' slotnum) = 0
        /\ volume (get_slot chip' slotnum) = 0)
  /\ (forall chip' j n,
        (forall s, In s (gating_slots (sync (get_group chip' j)) j) ->
                   active (get_slot chip' s) = 0) ->
        update_group j n chip' = chip').
Proof.
  intros slot Hn Hst Hle.
  split; [apply envelope_end_slot; assumption|].
  split; [|split].
  - intros i chip'. subst chip'.
    destruct (update_pcm_sample_slot chip slotnum i Hn) as [Ha Hv].
    destruct (envelope_end_same_regs slot _
                (pcm_loop_env_frame chip slotnum slot) Hst Hle) as [Ha0 Hv0].
    fold slot in Ha, Hv. rewrite Ha0 in Ha. rewrite Hv0 in Hv.
    split; [exact Ha|]. split; [exact Hv|].
    intros n. apply update_pcm_inactive. exact Ha.
  - intros inp chip'. subst chip'.
    destruct (calculate_op_slot chip slotnum inp Hn) as [Ha Hv].
    destruct (envelope_end_slot slot Hst Hle) as [Ha0 Hv0].
    fold slot in Ha, Hv. rewrite Ha0 in Ha. rewrite Hv0 in Hv.
    split; assumption.
  - intros chip' j n H. apply update_group_inactive. exact H.
Qed.

Lemma example_pcm_ending_slots : length (slots example_pcm_ending) = 48%nat.
Proof. vm_compute. reflexivity. Qed.

(** The released example voice at the sample that ends its envelope:
    volume 32213 against a release step of 66599. *)
Lemma envelope_end_witness :
  env_state (get_slot example_pcm_ending 0) = ENV_RELEASE
  /\ volume (get_slot example_pcm_ending 0) = 32213
  /\ env_stage_step (get_slot example_pcm_ending 0) = 66599
  /\ active (get_slot (update_pcm_sample 0 0 example_pcm_ending) 0) = 0
  /\ volume (get_slot (update_pcm_sample 0 0 example_pcm_ending) 0) = 0
  /\ update_pcm (update_pcm_sample 0 0 example_pcm_ending) 0 3
     = update_pcm_sample 0 0 example_pcm_ending.
Proof.
  assert (Hs : env_state (get_slot example_pcm_ending 0) = ENV_RELEASE)
    by (vm_compute; reflexivity).
  assert (Hv : volume (get_slot example_pcm_ending 0) = 32213)
    by (vm_compute; reflexivity).
  assert (Hr : env_stage_step (get_slot example_pcm_ending 0) = 66599)
    by (vm_compute; reflexivity).
  assert (Hn : (Z.to_nat 0 < length (slots example_pcm_ending))%nat)
    by (rewrite example_pcm_ending_slots; simpl; lia).
  assert (Hle : to_INT32 (volume (get_slot example_pcm_ending 0)
                          - env_stage_step (get_slot example_pcm_ending 0)) <= 0)
    by (rewrite Hv, Hr; vm_compute; discriminate).
  destruct (envelope_end example_pcm_ending 0 Hn (or_intror (or_intror Hs)) Hle)
    as (_ & Hpcm & _).
  pose proof (Hpcm 0) as H0. cbv zeta in H0. destruct H0 as (Ha & Hv0 & Hid).
  split; [exact Hs|]. split; [exact Hv|]. split; [exact Hr|].
  split; [exact Ha|]. split; [exact Hv0|]. exact (Hid 3).
Defined.

(** C4 fails as stated: within the chunk in which the envelope ends the
    remaining samples are still generated.  The example voice (Accon=1,
    where the envelope volume does not enter the output) ends its envelope
    in the first sample of a chunk of three; it is inactive with volume 0
    after that sample, yet all three output frames carry its signal.  The
    following chunk is silent. *)
Lemma envelope_end_counterexample :
  env_state (get_slot example_pcm_ending 0) = ENV_RELEASE
  /\ active (get_slot example_pcm_ending 0) = 1
  /\ accon (get_slot example_pcm_ending 0) = 1
  /\ to_INT32 (volume (get_slot example_pcm_ending 0)
               - env_stage_step (get_slot example_pcm_ending 0)) = -34386
  /\ active (get_slot (update_pcm example_pcm_ending 0 1) 0) = 0
  /\ volume (get_slot (update_pcm example_pcm_ending 0 1) 0) = 0
  /\ (update_chunk 3 example_pcm_ending).2
     = [(8351, 8351); (8351, 8351); (8351, 8351)]
  /\ (update_chunk 3 (update_chunk 3 example_pcm_ending).1).2
     = [(0, 0); (0, 0); (0, 0)].
Proof. repeat split; vm_compute; reflexivity. Qed.

(** ** Broadcast of the synchronized registers *)

(** A property kept by every iteration holds after the loop. *)
Lemma for_range_invariant (P : YMF271Chip -> Prop)
  (body : Z -> YMF271Chip -> YMF271Chip) (n : nat) :
  forall (i : Z) (chip : YMF271Chip),
  (forall j c, i <= j < i + Z.of_nat n -> P c -> P (body j c)) ->
  P chip -> P (for_range i n body chip).
Proof.
  induction n as [|n IH]; intros i chip Hbody Hc; simpl.
  - exact Hc.
  - apply IH.
    + intros j c Hj. apply Hbody. lia.
    + apply Hbody; [lia | exact Hc].
Qed.

Lemma fm_tab_range (address : Z) :
  tab fm_tab (Z.land address 0xf) <> -1 ->
  0 <= tab fm_tab (Z.land address 0xf) < 12.
Proof.
  assert (H : 0 <= Z.land address 0xf < 16).
  { change 0xf with (Z.ones 4). rewrite Z.land_ones by lia.
    apply Z.mod_pos_bound. lia. }
  revert H. generalize (Z.land address 0xf). intros a H.
  assert (Hcases : a = 0 \/ a = 1 \/ a = 2 \/ a = 3 \/ a = 4 \/ a = 5 \/ a = 6
                   \/ a = 7 \/ a = 8 \/ a = 9 \/ a = 10 \/ a = 11 \/ a = 12
                   \/ a = 13 \/ a = 14 \/ a = 15) by lia.
  clear H. decompose [or] Hcases; subst a;
    match goal with
    | |- context [tab fm_tab ?k] =>
        let v := eval vm_compute in (tab fm_tab k) in
        change (tab fm_tab k) with v
    end; lia.
Qed.

Lemma calculate_status_end_slots (chip : YMF271Chip) (slotnum state : Z) :
  slots (calculate_status_end chip slotnum state) = slots chip
  /\ groups (calculate_status_end chip slotnum state) = groups chip.
Proof. unfold calculate_status_end. cbv zeta. case_ifs; split; reflexivity. Qed.

Lemma get_slot_same_slots (chip chip' : YMF271Chip) (n : Z) :
  slots chip' = slots chip -> get_slot chip' n = get_slot chip n.
Proof. intros H. unfold get_slot. rewrite H. reflexivity. Qed.

Lemma get_group_same_groups (chip chip' : YMF271Chip) (n : Z) :
  groups chip' = groups chip -> get_group chip' n = get_group chip n.
Proof. intros H. unfold get_group. rewrite H. reflexivity. Qed.

Lemma groups_put_slot (n : Z) (s : YMF271Slot) (chip : YMF271Chip) :
  groups (put_slot n s chip) = groups chip.
Proof. reflexivity. Qed.

Lemma keeps_other_slots_refl (touched : Z -> Prop) (chip : YMF271Chip) :
  keeps_other_slots touched chip chip.
Proof. repeat split. Qed.

Lemma keeps_other_slots_trans (touched : Z -> Prop) (a b c : YMF271Chip) :
  keeps_other_slots touched a b -> keeps_other_slots touched b c ->
  keeps_other_slots touched a c.
Proof.
  intros (Hg & Hl & Hs) (Hg' & Hl' & Hs'). repeat split.
  - congruence.
  - congruence.
  - intros t Ht Hn. rewrite Hs', Hs by assumption. reflexivity.
Qed.

Lemma keeps_other_slots_weaken (P Q : Z -> Prop) (a b : YMF271Chip) :
  (forall t, P t -> Q t) -> keeps_other_slots P a b -> keeps_other_slots Q a b.
Proof.
  intros HPQ (Hg & Hl & Hs). repeat split; try assumption.
  intros t Ht Hn. apply Hs; [exact Ht|]. intros HP. apply Hn, HPQ, HP.
Qed.

Lemma put_slot_keeps (n : Z) (s : YMF271Slot) (chip : YMF271Chip) :
  0 <= n -> keeps_other_slots (fun t => t = n) chip (put_slot n s chip).
Proof.
  intros Hn. repeat split.
  - apply length_put_slot.
  - intros t Ht Hne. apply get_put_slot_ne. lia.
Qed.

Lemma keyon_init_other_keeps (other_slot : Z) (chip : YMF271Chip) :
  0 <= other_slot ->
  keeps_other_slots (fun t => t = other_slot) chip
    (keyon_init_other other_slot chip).
Proof.
  intros Hn. unfold keyon_init_other. cbv zeta. apply put_slot_keeps. exact Hn.
Qed.

Lemma put_slot_keeps_all (n : Z) (s : YMF271Slot) (chip : YMF271Chip) :
  keeps_other_slots (fun _ => True) chip (put_slot n s chip).
Proof.
  repeat split.
  - apply length_put_slot.
  - intros t _ Hn. exfalso. apply Hn. exact I.
Qed.

Lemma calculate_status_end_keeps (touched : Z -> Prop) (chip : YMF271Chip)
  (slotnum state : Z) :
  keeps_other_slots touched chip (calculate_status_end chip slotnum state).
Proof.
  destruct (calculate_status_end_slots chip slotnum state) as [Hs Hg].
  repeat split.
  - exact Hg.
  - rewrite Hs. reflexivity.
  - intros t _ _. apply get_slot_same_slots. exact Hs.
Qed.

Lemma calculate_step_keyon_regs (chip : YMF271Chip) (slot : YMF271Slot) :
  ext_en (calculate_step chip slot) = ext_en slot
  /\ ext_out (calculate_step chip slot) = ext_out slot
  /\ active (calculate_step chip slot) = active slot
  /\ env_state (calculate_step chip slot) = env_state slot.
Proof.
  unfold calculate_step. cbv zeta. case_ifs; repeat split; reflexivity.
Qed.

Lemma init_lfo_keyon_regs (chip : YMF271Chip) (slot : YMF271Slot) :
  ext_en (init_lfo chip slot) = ext_en slot
  /\ ext_out (init_lfo chip slot) = ext_out slot
  /\ active (init_lfo chip slot) = active slot
  /\ env_state (init_lfo chip slot) = env_state slot.
Proof. repeat split; reflexivity. Qed.

Lemma init_envelope_keyon_regs (chip : YMF271Chip) (slot : YMF271Slot) :
  ext_en (init_envelope chip slot) = ext_en slot
  /\ ext_out (init_envelope chip slot) = ext_out slot
  /\ active (init_envelope chip slot) = active slot
  /\ env_state (init_envelope chip slot) = ENV_ATTACK.
Proof. repeat split; reflexivity. Qed.

(** The slot that a key-on stores. *)
Lemma keyon_slot_fields (chip : YMF271Chip) (slot : YMF271Slot) :
  let slot' :=
    set_feedback_modulation1 0
      (set_feedback_modulation0 0
         (calculate_step chip
            (init_lfo chip
               (init_envelope chip
                  (set_loop_direction 1
                     (set_active 1 (set_stepptr 0 (set_step 0 slot)))))))) in
  ext_en slot' = ext_en slot /\ ext_out slot' = ext_out slot
  /\ active slot' = 1 /\ env_state slot' = ENV_ATTACK.
Proof.
  cbv zeta.
  generalize (eq_refl (set_loop_direction 1
                         (set_active 1 (set_stepptr 0 (set_step 0 slot))))).
  generalize (set_loop_direction 1
                (set_active 1 (set_stepptr 0 (set_step 0 slot)))) at 2 3 4 5 6.
  intros s0 Hs0.
  assert (H0 : ext_en s0 = ext_en slot /\ ext_out s0 = ext_out slot
               /\ active s0 = 1) by (rewrite <- Hs0; repeat split; reflexivity).
  clear Hs0. destruct H0 as (He0 & Ho0 & Ha0).
  destruct (init_envelope_keyon_regs chip s0) as (He1 & Ho1 & Ha1 & Hs1).
  revert He1 Ho1 Ha1 Hs1. generalize (init_envelope chip s0). intros s1 He1 Ho1 Ha1 Hs1.
  destruct (init_lfo_keyon_regs chip s1) as (He2 & Ho2 & Ha2 & Hs2).
  revert He2 Ho2 Ha2 Hs2. generalize (init_lfo chip s1). intros s2 He2 Ho2 Ha2 Hs2.
  destruct (calculate_step_keyon_regs chip s2) as (He3 & Ho3 & Ha3 & Hs3).
  revert He3 Ho3 Ha3 Hs3. generalize (calculate_step chip s2).
  intros s3 He3 Ho3 Ha3 Hs3.
  change (ext_en s3 = ext_en slot /\ ext_out s3 = ext_out slot
          /\ active s3 = 1 /\ env_state s3 = ENV_ATTACK).
  repeat split; congruence.
Qed.

Lemma write_register_keeps_all (chip : YMF271Chip) (slotnum reg data : Z) :
  keeps_other_slots (fun _ => True) chip (write_register chip slotnum reg data).
Proof.
  unfold write_register. cbv zeta.
  destruct reg as [|p|p];
    [ | do 4 (try destruct p as [p|p|]);
        first [ apply keeps_other_slots_refl | apply put_slot_keeps_all ]
      | apply keeps_other_slots_refl ].
  destruct (nonzero (Z.land data 1)); [| apply put_slot_keeps_all].
  match goal with
  | |- context [put_slot slotnum ?s (calculate_status_end chip slotnum 0)] =>
      generalize s; intros ks
  end.
  assert (Hk : keeps_other_slots (fun _ => True) chip
                 (put_slot slotnum ks (calculate_status_end chip slotnum 0))).
  { eapply keeps_other_slots_trans;
      [apply calculate_status_end_keeps | apply put_slot_keeps_all]. }
  revert Hk.
  generalize (put_slot slotnum ks (calculate_status_end chip slotnum 0)).
  intros c Hk.
  assert (Hother : forall t c', keeps_other_slots (fun _ => True) chip c' ->
            keeps_other_slots (fun _ => True) chip (keyon_init_other t c')).
  { intros t c' Hc'. eapply keeps_other_slots_trans; [exact Hc'|].
    unfold keyon_init_other. cbv zeta. apply put_slot_keeps_all. }
  case_ifs; try exact Hk; try (apply Hother; exact Hk);
    (apply for_range_invariant; [intros j c' _; apply Hother | exact Hk]).
Qed.

(** A write other than a key-on that initialises the other slots of a
    group changes the addressed slot only. *)
Lemma write_register_keeps_one (chip : YMF271Chip) (slotnum reg data : Z) :
  0 <= slotnum ->
  reg <> 0 \/ nonzero (Z.land data 1) = false
  \/ (sync (get_group chip (Z.rem slotnum 12)) = 0 /\ Z.quot slotnum 12 <> 0) ->
  keeps_other_slots (fun t => t = slotnum) chip
    (write_register chip slotnum reg data).
Proof.
  intros Hn Hcase. unfold write_register. cbv zeta.
  destruct reg as [|p|p];
    [ | do 4 (try destruct p as [p|p|]);
        first [ apply keeps_other_slots_refl | apply put_slot_keeps; exact Hn ]
      | apply keeps_other_slots_refl ].
  destruct (nonzero (Z.land data 1)) eqn:Hkey; [| apply put_slot_keeps; exact Hn].
  destruct Hcase as [Hreg | [Hoff | [Hsync Hbank]]];
    [contradiction Hreg; reflexivity | discriminate Hoff |].
  rewrite Hsync. apply Z.eqb_neq in Hbank. rewrite Hbank.
  change ((0 =? 0) && false) with false. change (0 =? 1) with false.
  change ((0 =? 2) && false) with false. cbv iota.
  eapply keeps_other_slots_trans;
    [apply calculate_status_end_keeps | apply put_slot_keeps; exact Hn].
Qed.

(** The addressed slot after a write of a synchronized register, in a
    group in sync mode 0. *)
Lemma write_register_fields (chip : YMF271Chip) (slotnum reg data : Z) :
  is_sync_reg reg = true ->
  0 <= slotnum -> (Z.to_nat slotnum < length (slots chip))%nat ->
  sync (get_group chip (Z.rem slotnum 12)) = 0 ->
  sync_reg_written reg data (get_slot chip slotnum)
    (get_slot (write_register chip slotnum reg data) slotnum).
Proof.
  intros Hreg Hn Hlen Hsync. unfold write_register. cbv zeta.
  generalize dependent (get_slot chip slotnum). intros slot.
  destruct reg as [|p|p];
    [ | do 4 (try destruct p as [p|p|]); try discriminate Hreg;
        rewrite get_put_slot_eq by exact Hlen; split; reflexivity
      | discriminate Hreg ].
  unfold sync_reg_written.
  destruct (nonzero (Z.land data 1)) eqn:Hkey.
  - (* key on *)
    pose proof (keyon_slot_fields chip
                  (set_ext_out (Z.land (Z.shiftr data 3) 15)
                     (set_ext_en (flag (nonzero (Z.land data 128))) slot)))
      as Hks.
    cbv zeta in Hks. revert Hks.
    match goal with
    | |- context [put_slot slotnum ?s (calculate_status_end chip slotnum 0)] =>
        generalize s; intros ks Hks
    end.
    assert (Hput : get_slot (put_slot slotnum ks
                               (calculate_status_end chip slotnum 0)) slotnum
                   = ks).
    { apply get_put_slot_eq.
      rewrite (proj1 (calculate_status_end_slots chip slotnum 0)). exact Hlen. }
    assert (Hfinal :
              forall c, c = put_slot slotnum ks
                              (calculate_status_end chip slotnum 0) ->
              get_slot
                (if (sync (get_group chip (Z.rem slotnum 12)) =? 0)
                    && (Z.quot slotnum 12 =? 0)
                 then for_range 1 3
                        (fun i => keyon_init_other (Z.rem slotnum 12 + i * 12)) c
                 else if sync (get_group chip (Z.rem slotnum 12)) =? 1 then
                   if Z.quot slotnum 12 =? 0
                   then keyon_init_other (Z.rem slotnum 12 + 2 * 12) c
                   else if Z.quot slotnum 12 =? 1
                        then keyon_init_other (Z.rem slotnum 12 + 3 * 12) c
                        else c
                 else if (sync (get_group chip (Z.rem slotnum 12)) =? 2)
                         && (Z.quot slotnum 12 =? 0)
                      then for_range 1 2
                             (fun i =>
                                keyon_init_other (Z.rem slotnum 12 + i * 12)) c
                      else c) slotnum = ks).
    { intros c Hc. rewrite Hsync.
      change (0 =? 0) with true. change (0 =? 1) with false.
      change (0 =? 2) with false. cbv iota. cbn [andb].
      destruct (Z.quot slotnum 12 =? 0) eqn:Hbank.
      - apply Z.eqb_eq in Hbank.
        pose proof (Z.quot_rem' slotnum 12) as Hqr. rewrite Hbank in Hqr.
        apply (for_range_invariant (fun c' => get_slot c' slotnum = ks)).
        + intros j c' Hj Hc'.
          destruct (keyon_init_other_keeps (Z.rem slotnum 12 + j * 12) c'
                      ltac:(lia)) as (_ & _ & Hs).
          rewrite Hs by lia. exact Hc'.
        + rewrite Hc. exact Hput.
      - rewrite Hc. exact Hput. }
    rewrite (Hfinal _ eq_refl).
    destruct Hks as (He & Ho & Ha & Hst).
    rewrite He, Ho. repeat split; assumption.
  - (* key off *)
    rewrite get_put_slot_eq by exact Hlen.
    destruct (nonzero (active _)) eqn:Hact; repeat split; reflexivity.
Qed.

Lemma slot_group_bank (g k : Z) :
  0 <= g < 12 -> 0 <= k ->
  Z.rem (12 * k + g) 12 = g /\ Z.quot (12 * k + g) 12 = k.
Proof.
  intros Hg Hk.
  pose proof (Z.quot_rem' (12 * k + g) 12) as Hqr.
  pose proof (Z.rem_bound_pos (12 * k + g) 12 ltac:(lia) ltac:(lia)) as Hr.
  lia.
Qed.

Lemma sync_reg_written_keyon (data : Z) (old old' new : YMF271Slot) :
  nonzero (Z.land data 1) = true ->
  sync_reg_written 0 data old new -> sync_reg_written 0 data old' new.
Proof. unfold sync_reg_written. intros ->. tauto. Qed.

Lemma sync_written_step (chip0 chip : YMF271Chip) (g reg data k : Z) :
  0 <= g < 12 -> 0 <= k < 4 ->
  is_sync_reg reg = true ->
  length (slots chip0) = 48%nat ->
  sync (get_group chip0 g) = 0 ->
  sync_written_upto chip0 g reg data k chip ->
  sync_written_upto chip0 g reg data (k + 1)
    (write_register chip (12 * k + g) reg data).
Proof.
  intros Hg Hk Hreg Hlen Hsync (Hgr & Hl & Hdone & Htodo).
  destruct (slot_group_bank g k Hg ltac:(lia)) as [Hrem Hquot].
  assert (Hsync' : sync (get_group chip (Z.rem (12 * k + g) 12)) = 0).
  { rewrite Hrem, (get_group_same_groups chip0 chip g Hgr). exact Hsync. }
  destruct (write_register_keeps_all chip (12 * k + g) reg data)
    as (Hgr' & Hl' & _).
  assert (Hone : reg <> 0 \/ nonzero (Z.land data 1) = false \/ k <> 0 ->
            forall b, 0 <= b -> b <> k ->
            get_slot (write_register chip (12 * k + g) reg data) (12 * b + g)
            = get_slot chip (12 * b + g)).
  { intros Hc b Hb Hbk.
    destruct (write_register_keeps_one chip (12 * k + g) reg data)
      as (_ & _ & Hs).
    - lia.
    - rewrite Hquot. tauto.
    - apply Hs; lia. }
  repeat split.
  - congruence.
  - congruence.
  - intros b Hb. destruct (Z.eq_dec b k) as [-> | Hbk].
    + pose proof (write_register_fields chip (12 * k + g) reg data Hreg
                    ltac:(lia) ltac:(lia) Hsync') as Hw.
      destruct (Z.eq_dec reg 0) as [Hr0 | Hr0];
        [destruct (nonzero (Z.land data 1)) eqn:Hkey |].
      * subst reg. eapply sync_reg_written_keyon; [exact Hkey | exact Hw].
      * rewrite <- (Htodo k) by (lia || tauto). exact Hw.
      * rewrite <- (Htodo k) by (lia || tauto). exact Hw.
    + rewrite Hone by lia. apply Hdone. lia.
  - intros b Hb Hc. rewrite Hone by (lia || tauto). apply Htodo; [lia | exact Hc].
Qed.

(** C2 (as the code has it): in a group in sync mode 0, a write of a
    synchronized register (0x0, 0x9, 0xA, 0xC, 0xD, 0xE) through bank 0
    is applied to the four slots of the group.  For registers 0x0, 0xA,
    0xC, 0xD and 0xE every slot gets the fields decoded from the data
    byte.  For register 0x9 every slot gets [fns] and [block] built from
    the data byte and from its own [fns_hi] latch: the four slots agree
    when their latches agree.  A register that is not synchronized is
    written to the addressed slot and changes no other slot. *)
Theorem sync_broadcast (chip : YMF271Chip) (address data : Z) :
  let g := tab fm_tab (Z.land address 0xf) in
  let reg := Z.land (Z.shiftr address 4) 0xf in
  length (slots chip) = 48%nat ->
  g <> -1 ->
  sync (get_group chip g) = 0 ->
  (is_sync_reg reg = true ->
   let chip' := ymf271_write_fm chip 0 address data in
   (forall b, 0 <= b < 4 ->
      sync_reg_written reg data (get_slot chip (12 * b + g))
        (get_slot chip' (12 * b + g)))
   /\ (reg = 9 ->
       (forall b, 0 <= b < 4 ->
          fns_hi (get_slot chip (12 * b + g)) = fns_hi (get_slot chip g)) ->
       forall b, 0 <= b < 4 ->
         fns (get_slot chip' (12 * b + g)) = fns (get_slot chip' g)
         /\ block (get_slot chip' (12 * b + g)) = block (get_slot chip' g)))
  /\ (is_sync_reg reg = false ->
      forall bank, 0 <= bank < 4 ->
        let chip' := ymf271_write_fm chip bank address data in
        chip' = write_register chip (12 * bank + g) reg data
        /\ forall t, 0 <= t -> t <> 12 * bank + g ->
                     get_slot chip' t = get_slot chip t).
Proof.
  intros g reg Hlen Hg Hsync.
  pose proof (fm_tab_range address Hg) as Hrange. fold g in Hrange.
  assert (Hgne : (g =? -1) = false) by (apply Z.eqb_neq; exact Hg).
  split.
  - intros Hreg chip'.
    assert (Hall : forall b, 0 <= b < 4 ->
              sync_reg_written reg data (get_slot chip (12 * b + g))
                (get_slot chip' (12 * b + g))).
    { subst chip'. unfold ymf271_write_fm. fold g reg. cbv zeta.
      rewrite Hgne, Hsync, Hreg.
      change (is_keyon_bank 0 0 && true) with true. cbv iota.
      assert (H0 : sync_written_upto chip g reg data 0 chip).
      { repeat split. intros b Hb. lia. }
      pose proof (sync_written_step chip _ g reg data 0 Hrange ltac:(lia)
                    Hreg Hlen Hsync H0) as H1.
      pose proof (sync_written_step chip _ g reg data 1 Hrange ltac:(lia)
                    Hreg Hlen Hsync H1) as H2.
      pose proof (sync_written_step chip _ g reg data 2 Hrange ltac:(lia)
                    Hreg Hlen Hsync H2) as H3.
      pose proof (sync_written_step chip _ g reg data 3 Hrange ltac:(lia)
                    Hreg Hlen Hsync H3) as H4.
      destruct H4 as (_ & _ & Hdone & _). exact Hdone. }
    split; [exact Hall|].
    intros Hreg9 Hlatch b Hb.
    pose proof (Hall b Hb) as Hwb. pose proof (Hall 0 ltac:(lia)) as Hw0.
    rewrite Hreg9 in Hwb, Hw0. unfold sync_reg_written in Hwb, Hw0.
    replace (12 * 0 + g) with g in Hw0 by lia.
    destruct Hwb as [Hfb Hbb]. destruct Hw0 as [Hf0 Hb0].
    rewrite Hfb, Hbb, Hf0, Hb0, (Hlatch b Hb). split; reflexivity.
  - intros Hreg bank Hbank chip'. subst chip'.
    assert (Heq : ymf271_write_fm chip bank address data
                  = write_register chip (12 * bank + g) reg data).
    { unfold ymf271_write_fm. fold g reg. cbv zeta.
      rewrite Hgne, Hreg, andb_false_r. reflexivity. }
    split; [exact Heq|].
    intros t Ht Hne. rewrite Heq.
    destruct (write_register_keeps_one chip (12 * bank + g) reg data)
      as (_ & _ & Hs).
    + lia.
    + left. intros H0. rewrite H0 in Hreg. discriminate Hreg.
    + apply Hs; assumption.
Qed.

Lemma example_fns_latch_slots : length (slots example_fns_latch) = 48%nat.
Proof. vm_compute. reflexivity. Qed.

(** The example of the broadcast of register 0xC: all four slots of group
    0 hold algorithm 5. *)
Lemma sync_broadcast_witness :
  sync (get_group example_fns_latch 0) = 0
  /\ algorithm (get_slot (ymf271_write_fm example_fns_latch 0 0xC0 5) 0) = 5
  /\ algorithm (get_slot (ymf271_write_fm example_fns_latch 0 0xC0 5) 12) = 5
  /\ algorithm (get_slot (ymf271_write_fm example_fns_latch 0 0xC0 5) 24) = 5
  /\ algorithm (get_slot (ymf271_write_fm example_fns_latch 0 0xC0 5) 36) = 5.
Proof.
  assert (Hsync : sync (get_group example_fns_latch 0) = 0)
    by (vm_compute; reflexivity).
  destruct (sync_broadcast example_fns_latch 0xC0 5 example_fns_latch_slots
              ltac:(vm_compute; discriminate) Hsync) as [Hs _].
  destruct (Hs eq_refl) as [Hall _].
  split; [exact Hsync|].
  split; [exact (Hall 0 ltac:(lia))|].
  split; [exact (Hall 1 ltac:(lia))|].
  split; [exact (Hall 2 ltac:(lia))|].
  exact (Hall 3 ltac:(lia)).
Defined.

(** C2 fails as stated for register 0x9: with the latch 0x12 held by slot
    12 alone, the write of 0x34 to register 0x9 through bank 0 gives
    fns 0x034, block 0 on slot 0 and fns 0x234, block 1 on slot 12. *)
Lemma sync_fns_counterexample :
  sync (get_group example_fns_latch 0) = 0
  /\ fns_hi (get_slot example_fns_latch 0) = 0x00
  /\ fns_hi (get_slot example_fns_latch 12) = 0x12
  /\ fns (get_slot (ymf271_write_fm example_fns_latch 0 0x90 0x34) 0) = 0x034
  /\ fns (get_slot (ymf271_write_fm example_fns_latch 0 0x90 0x34) 12) = 0x234
  /\ block (get_slot (ymf271_write_fm example_fns_latch 0 0x90 0x34) 0) = 0
  /\ block (get_slot (ymf271_write_fm example_fns_latch 0 0x90 0x34) 12) = 1
  /\ fns (get_slot (writes [ (0x0, 0x90); (0x1, 0x34) ] example_fns_latch) 12)
     = 0x234.
Proof. repeat split; vm_compute; reflexivity. Qed.

(** * Further properties *)

(** ** ROM image *)

Lemma read_memory_in_rom (chip : YMF271Chip) (m : list Z) (k : Z) :
  mem_base chip = Some m -> mem_size chip <= 2 ^ 23 ->
  0 <= k < mem_size chip ->
  ymf271_read_memory chip k = default 0 (m !! Z.to_nat k).
Proof.
  intros Hm Hsz Hk. unfold ymf271_read_memory, rom_index.
  rewrite mask23_small by lia.
  destruct (k <? mem_size chip) eqn:Hlt; [| apply Z.ltb_ge in Hlt; lia].
  unfold mem_byte. rewrite Hm. reflexivity.
Qed.





(** X2: ymf271_alloc_rom with the size the ROM already has changes
    nothing; with another size (at most 8 MiB) the new ROM reads 0xFF at
    every address below the size and 0 from the size up to the end of the
    23-bit address space, and slots and groups are kept. *)
Theorem alloc_rom_blank (chip : YMF271Chip) (memsize : Z) :
  0 <= memsize <= 2 ^ 23 ->
  let chip' := ymf271_alloc_rom chip memsize in
  (mem_size chip = memsize -> chip' = chip)
  /\ (mem_size chip <> memsize ->
      mem_size chip' = memsize
      /\ (forall k, 0 <= k < memsize -> ymf271_read_memory chip' k = 0xFF)
      /\ (forall k, memsize <= k < 2 ^ 23 -> ymf271_read_memory chip' k = 0)
      /\ slots chip' = slots chip /\ groups chip' = groups chip).
Proof.
  intros Hsz chip'. subst chip'. unfold ymf271_alloc_rom. split.
  - intros Heq. apply Z.eqb_eq in Heq. rewrite Heq. reflexivity.
  - intros Hne. apply Z.eqb_neq in Hne. rewrite Hne. cbv zeta.
    split; [reflexivity|]. split; [|split; [|split; reflexivity]].
    + intros k Hk.
      destruct (Z.eqb_spec memsize 0) as [Hz|Hz]; [lia|].
      rewrite (read_memory_in_rom _ (replicate (Z.to_nat memsize) 0xFF) k)
        by (try reflexivity; cbn [mem_size set_mem_base set_mem_size]; lia).
      rewrite lookup_replicate_2 by lia. reflexivity.
    + intros k Hk. unfold ymf271_read_memory, rom_index.
      rewrite mask23_small by lia.
      cbn [mem_size set_mem_base set_mem_size].
      destruct (k <? memsize) eqn:Hlt; [apply Z.ltb_lt in Hlt; lia|].
      reflexivity.
Qed.

(** The blank 16-byte ROM reads 0xFF at its last byte and 0 behind it. *)
Lemma alloc_rom_blank_witness :
  ymf271_read_memory (ymf271_alloc_rom example_start 16) 15 = 0xFF
  /\ ymf271_read_memory (ymf271_alloc_rom example_start 16) 16 = 0.
Proof.
  destruct (alloc_rom_blank example_start 16 ltac:(lia)) as [_ H].
  destruct H as (_ & Hin & Hout & _); [vm_compute; discriminate|].
  split; [exact (Hin 15 ltac:(lia)) | exact (Hout 16 ltac:(lia))].
Defined.

(** ** What the host sets and what the generator runs *)

Lemma same_registers_refl (chip : YMF271Chip) : same_registers chip chip.
Proof. split; reflexivity. Qed.

Lemma same_registers_trans (a b c : YMF271Chip) :
  same_registers a b -> same_registers b c -> same_registers a c.
Proof.
  intros [Hh Hs] [Hh' Hs']. split.
  - congruence.
  - intros k. rewrite Hs', Hs. reflexivity.
Qed.

Lemma put_slot_same_registers (n : Z) (s : YMF271Slot) (chip : YMF271Chip) :
  slot_regs s = slot_regs (get_slot chip n) ->
  same_registers chip (put_slot n s chip).
Proof.
  intros Hs. split.
  - unfold host_state, put_slot. cbn [groups regs_main mem_base mem_size clock
      mixbuf_smpls timerA timerB enable irqstate status busy_flag ext_address
      ext_rw ext_readlatch irq_handler ext_write_handler irq_calls ext_writes
      slots mix_buffer acc_buffer set_slots].
    rewrite length_insert. reflexivity.
  - intros k.
    destruct (decide (Z.to_nat n = Z.to_nat k)) as [He|Hne].
    + destruct (decide (Z.to_nat n < length (slots chip))%nat) as [Hlt|Hge].
      * assert (Hk : get_slot chip k = get_slot chip n)
          by (unfold get_slot; rewrite He; reflexivity).
        rewrite Hk, <- Hs. f_equal.
        unfold get_slot, put_slot. cbn [slots set_slots]. rewrite <- He.
        rewrite list_lookup_insert_eq by exact Hlt. reflexivity.
      * f_equal. unfold get_slot, put_slot. cbn [slots set_slots].
        rewrite list_insert_ge by lia. reflexivity.
    + rewrite get_put_slot_ne by exact Hne. reflexivity.
Qed.

Lemma update_envelope_regs (slot : YMF271Slot) :
  slot_regs (update_envelope slot) = slot_regs slot.
Proof.
  unfold update_envelope, check_envelope_end. cbv zeta.
  case_ifs; reflexivity.
Qed.

Lemma calculate_step_regs (chip : YMF271Chip) (slot : YMF271Slot) :
  slot_regs (calculate_step chip slot) = slot_regs slot.
Proof. unfold calculate_step. cbv zeta. case_ifs; reflexivity. Qed.

Lemma update_lfo_regs (chip : YMF271Chip) (slot : YMF271Slot) :
  slot_regs (update_lfo chip slot) = slot_regs slot.
Proof. unfold update_lfo. cbv zeta. rewrite calculate_step_regs. reflexivity. Qed.

Lemma pcm_loop_regs (chip : YMF271Chip) (slotnum : Z) (slot : YMF271Slot) :
  slot_regs (pcm_loop chip slotnum slot).2 = slot_regs slot.
Proof. unfold pcm_loop. cbv zeta. case_ifs; reflexivity. Qed.

Lemma same_registers_buffers (chip : YMF271Chip) (mixp accp : list Z) :
  length mixp = length (mix_buffer chip) ->
  length accp = length (acc_buffer chip) ->
  same_registers chip (set_mix_buffer mixp chip)
  /\ same_registers chip (set_acc_buffer accp chip).
Proof.
  intros Hm Ha. split; (split; [|intros k; reflexivity]).
  - unfold host_state. cbn [groups regs_main mem_base mem_size clock
      mixbuf_smpls timerA timerB enable irqstate status busy_flag ext_address
      ext_rw ext_readlatch irq_handler ext_write_handler irq_calls ext_writes
      slots mix_buffer acc_buffer set_mix_buffer].
    rewrite Hm. reflexivity.
  - unfold host_state. cbn [groups regs_main mem_base mem_size clock
      mixbuf_smpls timerA timerB enable irqstate status busy_flag ext_address
      ext_rw ext_readlatch irq_handler ext_write_handler irq_calls ext_writes
      slots mix_buffer acc_buffer set_acc_buffer].
    rewrite Ha. reflexivity.
Qed.

Lemma calculate_status_end_registers (chip : YMF271Chip) (slotnum state : Z) :
  same_registers chip (calculate_status_end chip slotnum state).
Proof.
  unfold calculate_status_end. cbv zeta.
  case_ifs; split; intros; reflexivity.
Qed.

Lemma pcm_loop_registers (chip : YMF271Chip) (slotnum : Z) (slot : YMF271Slot) :
  same_registers chip (pcm_loop chip slotnum slot).1.
Proof.
  unfold pcm_loop. cbv zeta.
  case_ifs; cbn [fst];
    first [apply same_registers_refl | apply calculate_status_end_registers].
Qed.

Lemma length_pcm_mix_channel (idx sample ch_vol : Z) (mixp : list Z) :
  length (pcm_mix_channel idx sample ch_vol mixp) = length mixp.
Proof. unfold pcm_mix_channel. apply length_buf_set. Qed.

(** One sample of a PCM voice. *)
Lemma update_pcm_sample_registers (slotnum i : Z) (chip : YMF271Chip) :
  same_registers chip (update_pcm_sample slotnum i chip).
Proof.
  unfold update_pcm_sample.
  pose proof (pcm_loop_registers chip slotnum (get_slot chip slotnum)) as Hc.
  pose proof (pcm_loop_regs chip slotnum (get_slot chip slotnum)) as Hs.
  destruct (pcm_loop chip slotnum (get_slot chip slotnum)) as [chip1 slot1].
  cbn [fst snd] in Hc, Hs. cbv zeta.
  assert (Hs3 : slot_regs (update_lfo chip1 (update_envelope slot1))
                = slot_regs (get_slot chip1 slotnum)).
  { rewrite update_lfo_regs, update_envelope_regs, Hs.
    symmetry. apply (proj2 Hc). }
  revert Hs3. generalize (update_lfo chip1 (update_envelope slot1)).
  intros slot3 Hs3.
  generalize (pcm_fetch chip1 slot1). intros sample.
  eapply same_registers_trans; [exact Hc|]. clear Hc Hs chip.
  assert (Hstep : forall st, slot_regs (set_stepptr st slot3) = slot_regs slot3)
    by reflexivity.
  assert (Hput : forall c, same_registers chip1 c ->
            same_registers chip1
              (put_slot slotnum
                 (if 0 <? loop_direction slot3
                  then set_stepptr (to_UINT64 (stepptr slot3 + step slot3)) slot3
                  else set_stepptr (to_UINT64 (stepptr slot3 - step slot3)) slot3)
                 c)).
  { intros c Hc. eapply same_registers_trans; [exact Hc|].
    apply put_slot_same_registers.
    rewrite (proj2 Hc), <- Hs3. destruct (0 <? loop_direction slot3); apply Hstep. }
  apply Hput.
  destruct (nonzero (accon slot3)).
  - apply (same_registers_buffers chip1 (mix_buffer chip1)); [reflexivity|].
    rewrite !length_pcm_acc_channel. reflexivity.
  - apply (same_registers_buffers chip1 _ (acc_buffer chip1)); [|reflexivity].
    rewrite !length_pcm_mix_channel. reflexivity.
Qed.

Lemma update_pcm_registers (chip : YMF271Chip) (slotnum n : Z) :
  same_registers chip (update_pcm chip slotnum n).
Proof.
  unfold update_pcm. destruct (negb _); [apply same_registers_refl|].
  apply (for_range_invariant (same_registers chip)).
  - intros j c _ Hc. eapply same_registers_trans; [exact Hc|].
    apply update_pcm_sample_registers.
  - apply same_registers_refl.
Qed.

Lemma op_keeps_ret {A : Type} (a : A) : op_keeps (mret a).
Proof. intros chip. apply same_registers_refl. Qed.

Lemma op_keeps_bind {A B : Type} (m : op A) (f : A -> op B) :
  op_keeps m -> (forall a, op_keeps (f a)) -> op_keeps (mbind f m).
Proof.
  intros Hm Hf chip. unfold mbind, op_bind.
  specialize (Hm chip). destruct (m chip) as [a chip1]. cbn [snd] in Hm.
  eapply same_registers_trans; [exact Hm | apply Hf].
Qed.

Lemma operator_input_regs (slot : YMF271Slot) (inp : Z) :
  slot_regs
    (if inp =? OP_INPUT_FEEDBACK then
       (Z.quot
          (to_INT64 (feedback_modulation0 slot + feedback_modulation1 slot)) 2,
        set_feedback_modulation0 (feedback_modulation1 slot) slot)
     else if negb (inp =? OP_INPUT_NONE) then
       (to_INT64 (to_INT64 (Z.shiftl inp (SIN_BITS - 2))
                  * tab modulation_level (feedback slot)),
        slot)
     else (0, slot)).2 = slot_regs slot.
Proof. case_ifs; reflexivity. Qed.

Lemma calculate_op_keeps (slotnum inp : Z) : op_keeps (calculate_op slotnum inp).
Proof.
  intros chip. unfold calculate_op. cbv zeta.
  assert (Hs : slot_regs (update_lfo chip (update_envelope (get_slot chip slotnum)))
               = slot_regs (get_slot chip slotnum))
    by (rewrite update_lfo_regs, update_envelope_regs; reflexivity).
  revert Hs.
  generalize (update_lfo chip (update_envelope (get_slot chip slotnum))).
  intros slot Hs.
  pose proof (operator_input_regs slot inp) as Hin.
  destruct (if inp =? OP_INPUT_FEEDBACK then _ else _) as [slot_input slot'].
  cbn [snd] in *. apply put_slot_same_registers.
  rewrite <- Hs, <- Hin. reflexivity.
Qed.

Lemma calculate_op_pfm_keeps (slotnum inp : Z) :
  op_keeps (calculate_op_pfm slotnum inp).
Proof.
  intros chip. unfold calculate_op_pfm. cbv zeta.
  assert (Hs : slot_regs (update_lfo chip (update_envelope (get_slot chip slotnum)))
               = slot_regs (get_slot chip slotnum))
    by (rewrite update_lfo_regs, update_envelope_regs; reflexivity).
  revert Hs.
  generalize (update_lfo chip (update_envelope (get_slot chip slotnum))).
  intros slot Hs.
  pose proof (operator_input_regs slot inp) as Hin.
  destruct (if inp =? OP_INPUT_FEEDBACK then _ else _) as [slot_input slot'].
  cbn [snd] in *. apply put_slot_same_registers.
  rewrite <- Hs, <- Hin. reflexivity.
Qed.

Lemma set_feedback_keeps (slotnum inp : Z) : op_keeps (set_feedback slotnum inp).
Proof.
  intros chip. unfold set_feedback. cbv zeta. cbn [snd].
  apply put_slot_same_registers. reflexivity.
Qed.

Lemma carrier_keeps (pfm_enabled slotnum inp : Z) :
  op_keeps (carrier pfm_enabled slotnum inp).
Proof.
  unfold carrier. destruct (nonzero pfm_enabled);
    [apply calculate_op_pfm_keeps | apply calculate_op_keeps].
Qed.

Lemma carrier_or_keeps (pfm_enabled slotnum inp value : Z) :
  op_keeps (carrier_or pfm_enabled slotnum inp value).
Proof.
  unfold carrier_or. destruct (nonzero pfm_enabled);
    [apply calculate_op_pfm_keeps | apply op_keeps_ret].
Qed.

(** Every step of a topology is one of the operator computations. *)
Ltac op_keeps_steps :=
  repeat first
    [ apply op_keeps_ret
    | apply calculate_op_keeps
    | apply set_feedback_keeps
    | apply carrier_keeps
    | apply carrier_or_keeps
    | apply op_keeps_bind; [| intros ?] ].

Lemma fm4_algorithm_keeps (slot1 slot2 slot3 slot4 pfm_enabled alg : Z) :
  op_keeps (fm4_algorithm slot1 slot2 slot3 slot4 pfm_enabled alg).
Proof.
  unfold fm4_algorithm.
  destruct alg as [|p|p]; [ | do 4 (try destruct p as [p|p|]) | ];
    op_keeps_steps.
Qed.

Lemma fm2_algorithm_keeps (slot1 slot3 pfm_enabled alg : Z) :
  op_keeps (fm2_algorithm slot1 slot3 pfm_enabled alg).
Proof.
  unfold fm2_algorithm.
  destruct alg as [|p|p]; [ | do 2 (try destruct p as [p|p|]) | ];
    op_keeps_steps.
Qed.

Lemma fm3_algorithm_keeps (slot1 slot2 slot3 pfm_enabled alg : Z) :
  op_keeps (fm3_algorithm slot1 slot2 slot3 pfm_enabled alg).
Proof.
  unfold fm3_algorithm.
  destruct alg as [|p|p]; [ | do 3 (try destruct p as [p|p|]) | ];
    op_keeps_steps.
Qed.

Lemma fm_mix_registers (i : Z) (outs : list (Z * Z)) (chip : YMF271Chip) :
  same_registers chip (fm_mix i outs chip).
Proof.
  unfold fm_mix. cbv zeta.
  apply (same_registers_buffers chip _ (acc_buffer chip)); [|reflexivity].
  unfold fm_mix_channel. cbv zeta. rewrite !length_buf_set. reflexivity.
Qed.

Lemma fm4_sample_registers (slot1 slot2 slot3 slot4 pfm_enabled i : Z)
  (chip : YMF271Chip) :
  same_registers chip (fm4_sample slot1 slot2 slot3 slot4 pfm_enabled i chip).
Proof.
  unfold fm4_sample.
  pose proof (fm4_algorithm_keeps slot1 slot2 slot3 slot4 pfm_enabled
                (algorithm (get_slot chip slot1)) chip) as H.
  destruct (fm4_algorithm _ _ _ _ _ _ chip) as [[[[o1 o2] o3] o4] chip1].
  cbn [snd] in H. eapply same_registers_trans; [exact H|]. apply fm_mix_registers.
Qed.

Lemma fm2_sample_registers (slot1 slot3 pfm_enabled i : Z) (chip : YMF271Chip) :
  same_registers chip (fm2_sample slot1 slot3 pfm_enabled i chip).
Proof.
  unfold fm2_sample.
  pose proof (fm2_algorithm_keeps slot1 slot3 pfm_enabled
                (Z.land (algorithm (get_slot chip slot1)) 3) chip) as H.
  destruct (fm2_algorithm _ _ _ _ chip) as [[o1 o3] chip1].
  cbn [snd] in H. eapply same_registers_trans; [exact H|]. apply fm_mix_registers.
Qed.

Lemma fm3_sample_registers (slot1 slot2 slot3 pfm_enabled i : Z)
  (chip : YMF271Chip) :
  same_registers chip (fm3_sample slot1 slot2 slot3 pfm_enabled i chip).
Proof.
  unfold fm3_sample.
  pose proof (fm3_algorithm_keeps slot1 slot2 slot3 pfm_enabled
                (Z.land (algorithm (get_slot chip slot1)) 7) chip) as H.
  destruct (fm3_algorithm _ _ _ _ _ chip) as [[[o1 o2] o3] chip1].
  cbn [snd] in H. eapply same_registers_trans; [exact H|]. apply fm_mix_registers.
Qed.

Lemma for_range_registers (body : Z -> YMF271Chip -> YMF271Chip) (i : Z)
  (n : nat) (chip : YMF271Chip) :
  (forall j c, same_registers c (body j c)) ->
  same_registers chip (for_range i n body chip).
Proof.
  intros Hbody. apply (for_range_invariant (same_registers chip)).
  - intros j c _ Hc. eapply same_registers_trans; [exact Hc | apply Hbody].
  - apply same_registers_refl.
Qed.

Lemma update_group_registers (j n : Z) (chip : YMF271Chip) :
  same_registers chip (update_group j n chip).
Proof.
  unfold update_group. cbv zeta.
  destruct (nonzero (Muted (get_group chip j)) || _);
    [apply same_registers_refl|].
  destruct (sync (get_group chip j)) as [|[[p|p|]|[p|p|]|]|p];
    try apply same_registers_refl.
  - (* 4 operator FM *)
    destruct (nonzero _); [|apply same_registers_refl].
    apply for_range_registers. intros i c. apply fm4_sample_registers.
  - (* PCM *)
    do 3 (eapply same_registers_trans; [|apply update_pcm_registers]).
    apply update_pcm_registers.
  - (* 3 operator FM + PCM *)
    eapply same_registers_trans; [|apply update_pcm_registers].
    destruct (nonzero _); [|apply same_registers_refl].
    apply for_range_registers. intros i c. apply fm3_sample_registers.
  - (* 2x 2 operator FM *)
    assert (H : forall op_ c,
              same_registers c
                (update_group_fm2 j op_ n (pfm_enabled_of j (get_group chip j)) c)).
    { intros op_ c. unfold update_group_fm2. cbv zeta.
      destruct (nonzero _); [|apply same_registers_refl].
      apply for_range_registers. intros i c'. apply fm2_sample_registers. }
    eapply same_registers_trans; apply H.
Qed.

Lemma length_clear_samples (n : Z) (buf : list Z) :
  length (clear_samples n buf) = length buf.
Proof.
  unfold clear_samples. rewrite length_app, length_replicate, length_drop. lia.
Qed.

Lemma output_sample_registers (i : Z) (chip : YMF271Chip) :
  same_registers chip (output_sample i chip).1.
Proof.
  unfold output_sample. cbv zeta. cbn [fst].
  apply (same_registers_buffers chip _ (acc_buffer chip)); [|reflexivity].
  rewrite !length_buf_set. reflexivity.
Qed.

Lemma output_samples_step (n : nat) (i : Z) (chip : YMF271Chip) :
  output_samples i (S n) chip
  = ((output_samples (i + 1) n (output_sample i chip).1).1,
     (output_sample i chip).2
     :: (output_samples (i + 1) n (output_sample i chip).1).2).
Proof.
  cbn [output_samples]. destruct (output_sample i chip) as [chip1 lr].
  cbn [fst snd]. destruct (output_samples (i + 1) n chip1). reflexivity.
Qed.

Lemma output_samples_registers (n : nat) (i : Z) (chip : YMF271Chip) :
  same_registers chip (output_samples i n chip).1
  /\ length (output_samples i n chip).2 = n.
Proof.
  revert i chip. induction n as [|n IH]; intros i chip.
  - split; [apply same_registers_refl | reflexivity].
  - rewrite output_samples_step. cbn [fst snd length].
    destruct (IH (i + 1) (output_sample i chip).1) as [H2 Hlen].
    split.
    + eapply same_registers_trans; [apply output_sample_registers | exact H2].
    + rewrite Hlen. reflexivity.
Qed.

Lemma clear_mix_registers (n : Z) (chip : YMF271Chip) :
  same_registers chip
    (set_mix_buffer (clear_samples n (mix_buffer chip)) chip).
Proof.
  apply (same_registers_buffers chip _ (acc_buffer chip));
    [apply length_clear_samples | reflexivity].
Qed.

Lemma clear_acc_registers (n : Z) (chip : YMF271Chip) :
  same_registers chip
    (set_acc_buffer (clear_samples n (acc_buffer chip)) chip).
Proof.
  apply (same_registers_buffers chip (mix_buffer chip));
    [reflexivity | apply length_clear_samples].
Qed.

(** A chunk keeps the registers and gives one output frame per sample. *)
Lemma update_chunk_registers (n : Z) (chip : YMF271Chip) :
  same_registers chip (update_chunk n chip).1
  /\ length (update_chunk n chip).2 = Z.to_nat n.
Proof.
  unfold update_chunk. cbv zeta.
  match goal with
  | |- context [output_samples 0 _ ?c0] =>
      assert (Hc : same_registers chip c0); [| revert Hc; generalize c0]
  end; [| intros c Hc].
  { eapply same_registers_trans;
      [| apply for_range_registers; intros j c; apply update_group_registers].
    eapply same_registers_trans;
      [apply clear_mix_registers | apply clear_acc_registers]. }
  destruct (output_samples_registers (Z.to_nat n) 0 c) as [H Hlen].
  split; [|exact Hlen]. eapply same_registers_trans; [exact Hc | exact H].
Qed.

Lemma same_registers_mixbuf (chip chip' : YMF271Chip) :
  same_registers chip chip' -> mixbuf_smpls chip' = mixbuf_smpls chip.
Proof. intros [Hh _]. unfold host_state in Hh. congruence. Qed.

Lemma update_from_returns (fuel : nat) :
  forall (smpl_ofs samples : Z) (chip : YMF271Chip),
  0 < mixbuf_smpls chip ->
  (Z.to_nat (samples - smpl_ofs) <= fuel)%nat ->
  exists chip' out,
    ymf271_update_from fuel smpl_ofs samples chip = Some (chip', out)
    /\ length out = Z.to_nat (samples - smpl_ofs)
    /\ same_registers chip chip'.
Proof.
  induction fuel as [|fuel IH]; intros smpl_ofs samples chip Hmix Hfuel;
    cbn [ymf271_update_from];
    destruct (samples <=? smpl_ofs) eqn:Hdone;
    try (apply Z.leb_le in Hdone; exists chip, [];
         split; [reflexivity|]; split; [simpl; lia | apply same_registers_refl]).
  - apply Z.leb_gt in Hdone. lia.
  - apply Z.leb_gt in Hdone. cbv zeta.
    set (proc := if mixbuf_smpls chip <? samples - smpl_ofs
                 then mixbuf_smpls chip else samples - smpl_ofs).
    assert (Hproc : 0 < proc <= samples - smpl_ofs)
      by (subst proc; destruct (Z.ltb_spec (mixbuf_smpls chip)
                                  (samples - smpl_ofs)); lia).
    destruct (update_chunk_registers proc chip) as [Hreg Hlen].
    destruct (update_chunk proc chip) as [chip1 out1]. cbn [fst snd] in *.
    destruct (IH (smpl_ofs + proc) samples chip1) as (chip2 & out2 & -> & Hl2 & Hr2).
    + rewrite (same_registers_mixbuf chip chip1 Hreg). exact Hmix.
    + lia.
    + exists chip2, (out1 ++ out2). split; [reflexivity|]. split.
      * rewrite length_app, Hlen, Hl2. lia.
      * eapply same_registers_trans; [exact Hreg | exact Hr2].
Qed.

(** X3: When the chunk size mixbuf_smpls is positive, ymf271_update ends
    and delivers exactly as many stereo samples as were asked for,
    whatever the state of the chip. *)
Theorem update_gives_all_samples (chip : YMF271Chip) (samples : Z) :
  0 < mixbuf_smpls chip ->
  exists chip' out,
    ymf271_update chip samples = Some (chip', out)
    /\ length out = Z.to_nat samples.
Proof.
  intros Hmix. unfold ymf271_update.
  destruct (update_from_returns (Z.to_nat samples) 0 samples chip Hmix
              ltac:(lia)) as (chip' & out & Heq & Hlen & _).
  exists chip', out. split; [exact Heq|].
  rewrite Hlen. f_equal. lia.
Qed.

Lemma update_from_registers (fuel : nat) :
  forall (smpl_ofs samples : Z) (chip chip' : YMF271Chip) (out : list (Z * Z)),
  ymf271_update_from fuel smpl_ofs samples chip = Some (chip', out) ->
  same_registers chip chip'.
Proof.
  induction fuel as [|fuel IH]; intros smpl_ofs samples chip chip' out;
    cbn [ymf271_update_from];
    destruct (samples <=? smpl_ofs);
    try (intros [= <- <-]; apply same_registers_refl).
  cbv zeta.
  match goal with
  | |- context [update_chunk ?p chip] =>
      pose proof (proj1 (update_chunk_registers p chip)) as Hreg;
      destruct (update_chunk p chip) as [chip1 out1]
  end.
  cbn [fst] in Hreg.
  destruct (ymf271_update_from fuel _ samples chip1) as [[chip2 rest]|] eqn:Hrest;
    [|discriminate].
  intros [= <- <-]. eapply same_registers_trans; [exact Hreg|].
  eapply IH. exact Hrest.
Qed.

(** X4: Sound generation never changes what the host has programmed: after
    ymf271_update every register field of every slot, the groups, the port
    latches, the ROM, the timers, the status and the external-memory
    registers are as before; only the running state of the voices, the end
    flags and the contents of the sample buffers move. *)
Theorem update_keeps_registers (chip chip' : YMF271Chip) (samples : Z)
  (out : list (Z * Z)) :
  ymf271_update chip samples = Some (chip', out) ->
  host_state chip' = host_state chip
  /\ forall k, slot_regs (get_slot chip' k) = slot_regs (get_slot chip k).
Proof. intros H. eapply update_from_registers. exact H. Qed.

(** X5: When the chunk size mixbuf_smpls is 0 (as after a start with a
    clock of 3000 Hz) and at least one sample is asked for, the chunk loop
    of ymf271_update makes no progress: it returns no result, however many
    chunks it is allowed to run. *)
Theorem update_without_buffer_stalls (fuel : nat) :
  forall (smpl_ofs samples : Z) (chip : YMF271Chip),
  mixbuf_smpls chip = 0 -> smpl_ofs < samples ->
  ymf271_update_from fuel smpl_ofs samples chip = None.
Proof.
  induction fuel as [|fuel IH]; intros smpl_ofs samples chip Hmix Hofs;
    cbn [ymf271_update_from];
    destruct (samples <=? smpl_ofs) eqn:Hdone;
    try (apply Z.leb_le in Hdone; lia); [reflexivity|].
  cbv zeta. rewrite Hmix.
  destruct (0 <? samples - smpl_ofs) eqn:Hlt; [|apply Z.ltb_ge in Hlt; lia].
  destruct (update_chunk_registers 0 chip) as [Hreg _].
  destruct (update_chunk 0 chip) as [chip1 out1]. cbn [fst] in Hreg.
  rewrite IH; [reflexivity | | lia].
  rewrite (same_registers_mixbuf chip chip1 Hreg). exact Hmix.
Qed.

(** Five samples of the example voice. *)
Lemma update_gives_all_samples_witness :
  0 < mixbuf_smpls example_pcm
  /\ exists chip' out,
       ymf271_update example_pcm 5 = Some (chip', out) /\ length out = 5%nat.
Proof.
  assert (H : 0 < mixbuf_smpls example_pcm) by (vm_compute; reflexivity).
  split; [exact H|].
  exact (update_gives_all_samples example_pcm 5 H).
Defined.

(** Five samples of the example voice leave its total level and the groups
    alone. *)
Lemma update_keeps_registers_witness :
  exists chip' out,
    ymf271_update example_pcm 5 = Some (chip', out)
    /\ tl (get_slot chip' 0) = tl (get_slot example_pcm 0)
    /\ groups chip' = groups example_pcm.
Proof.
  destruct (update_from_returns (Z.to_nat 5) 0 5 example_pcm
              ltac:(vm_compute; reflexivity) ltac:(lia))
    as (chip' & out & Heq & _ & _).
  exists chip', out. split; [exact Heq|].
  destruct (update_keeps_registers example_pcm chip' 5 out Heq) as [Hh Hs].
  split.
  - specialize (Hs 0). unfold slot_regs in Hs. congruence.
  - unfold host_state in Hh. congruence.
Defined.

(** A chip started at 3000 Hz has a chunk size of 0, and one sample is
    never delivered. *)
Lemma update_without_buffer_stalls_witness :
  mixbuf_smpls example_slow_clock = 0
  /\ ymf271_update example_slow_clock 1 = None.
Proof.
  assert (H : mixbuf_smpls example_slow_clock = 0) by (vm_compute; reflexivity).
  split; [exact H|].
  exact (update_without_buffer_stalls (Z.to_nat 1) 0 1 example_slow_clock H
           ltac:(lia)).
Defined.

(** ** Groups that generate nothing *)

Lemma update_group_idle (chip : YMF271Chip) (j n : Z) :
  group_idle chip j -> update_group j n chip = chip.
Proof.
  intros [Hm | [Hrom | Hact]].
  - unfold update_group. cbv zeta. unfold nonzero at 1.
    apply Z.eqb_neq in Hm. rewrite Hm. reflexivity.
  - unfold update_group. cbv zeta. rewrite Hrom.
    rewrite bool_decide_eq_false_2 by (intros [x Hx]; discriminate Hx).
    rewrite orb_true_r. reflexivity.
  - apply update_group_inactive. exact Hact.
Qed.

Lemma chip_idle_same (chip chip' : YMF271Chip) :
  slots chip' = slots chip -> groups chip' = groups chip ->
  mem_base chip' = mem_base chip ->
  chip_idle chip -> chip_idle chip'.
Proof.
  intros Hs Hg Hm Hidle j Hj. unfold group_idle.
  rewrite (get_group_same_groups chip chip' j Hg), Hm.
  destruct (Hidle j Hj) as [H | [H | H]]; [tauto | tauto |].
  right. right. intros s Hin. rewrite (get_slot_same_slots chip chip' s Hs).
  apply H. exact Hin.
Qed.

Lemma groups_loop_idle (n : Z) (chip : YMF271Chip) :
  chip_idle chip ->
  for_range 0 12 (fun j => update_group j n) chip = chip.
Proof.
  intros Hidle.
  apply (for_range_invariant (fun c => c = chip)); [|reflexivity].
  intros j c Hj ->. apply update_group_idle. apply Hidle. lia.
Qed.

Lemma tab_cleared (n : Z) (buf : list Z) (k : Z) :
  0 <= k < n -> tab (clear_samples n buf) k = 0.
Proof.
  intros Hk. unfold tab, clear_samples.
  destruct (decide (Z.to_nat k < length buf)%nat) as [Hlt|Hge].
  - rewrite lookup_app_l by (rewrite length_replicate; lia).
    rewrite lookup_replicate_2 by lia. reflexivity.
  - rewrite lookup_ge_None_2; [reflexivity|].
    rewrite length_app, length_replicate, length_drop. lia.
Qed.

Lemma buf_set_same (buf : list Z) (k : Z) :
  (Z.to_nat k < length buf)%nat -> buf_set k (tab buf k) buf = buf.
Proof.
  intros Hk. unfold buf_set, tab. apply list_insert_id.
  destruct (lookup_lt_is_Some_2 buf (Z.to_nat k) Hk) as [x Hx].
  rewrite Hx. reflexivity.
Qed.

Lemma set_mix_buffer_same (chip : YMF271Chip) :
  set_mix_buffer (mix_buffer chip) chip = chip.
Proof. destruct chip. reflexivity. Qed.

(** The mix-down of a frame whose eight buffer entries are 0. *)
Lemma output_sample_zero (i : Z) (chip : YMF271Chip) :
  0 <= i -> i * 4 + 3 < 2 ^ 32 ->
  (Z.to_nat (i * 4 + 3) < length (mix_buffer chip))%nat ->
  (forall k, i * 4 <= k < i * 4 + 4 ->
             tab (mix_buffer chip) k = 0 /\ tab (acc_buffer chip) k = 0) ->
  output_sample i chip = (chip, (0, 0)).
Proof.
  intros Hi H32 Hlen Hzero. unfold output_sample. cbv zeta.
  rewrite !to_UINT32_small by lia.
  assert (Hadd : forall k, i * 4 <= k < i * 4 + 4 ->
            buf_set k (to_INT32 (tab (mix_buffer chip) k
                                 + tab (acc_buffer chip) k)) (mix_buffer chip)
            = mix_buffer chip).
  { intros k Hk. destruct (Hzero k Hk) as [Hm Ha]. rewrite Ha, Z.add_0_r.
    rewrite to_INT32_small by (rewrite Hm; lia). apply buf_set_same. lia. }
  rewrite (Hadd (i * 4 + 0)) by lia. rewrite (Hadd (i * 4 + 1)) by lia.
  rewrite (Hadd (i * 4 + 2)) by lia. rewrite (Hadd (i * 4 + 3)) by lia.
  rewrite set_mix_buffer_same.
  rewrite (proj1 (Hzero (i * 4 + 0) ltac:(lia))).
  rewrite (proj1 (Hzero (i * 4 + 1) ltac:(lia))).
  rewrite (proj1 (Hzero (i * 4 + 2) ltac:(lia))).
  rewrite (proj1 (Hzero (i * 4 + 3) ltac:(lia))).
  reflexivity.
Qed.

Lemma output_samples_zero (n : nat) :
  forall (i : Z) (chip : YMF271Chip),
  0 <= i -> (i + Z.of_nat n) * 4 < 2 ^ 32 ->
  (i + Z.of_nat n) * 4 <= Z.of_nat (length (mix_buffer chip)) ->
  (forall k, i * 4 <= k < (i + Z.of_nat n) * 4 ->
             tab (mix_buffer chip) k = 0 /\ tab (acc_buffer chip) k = 0) ->
  output_samples i n chip = (chip, replicate n (0, 0)).
Proof.
  induction n as [|n IH]; intros i chip Hi H32 Hlen Hzero.
  - reflexivity.
  - rewrite output_samples_step.
    rewrite output_sample_zero; [| lia | lia | lia | intros k Hk; apply Hzero; lia].
    cbn [fst snd]. rewrite IH; [reflexivity | lia | lia | lia |].
    intros k Hk. apply Hzero. lia.
Qed.

(** A chunk of an idle chip: the buffers are cleared and every output
    frame is (0, 0). *)
Lemma update_chunk_idle (n : Z) (chip : YMF271Chip) :
  chip_idle chip -> 0 <= n -> n * 4 < 2 ^ 32 ->
  n * 4 <= Z.of_nat (length (mix_buffer chip)) ->
  update_chunk n chip
  = (set_acc_buffer (clear_samples (n * 4) (acc_buffer chip))
       (set_mix_buffer (clear_samples (n * 4) (mix_buffer chip)) chip),
     replicate (Z.to_nat n) (0, 0)).
Proof.
  intros Hidle Hn H32 Hlen. unfold update_chunk. cbv zeta.
  rewrite groups_loop_idle
    by (eapply chip_idle_same; [| | | exact Hidle]; reflexivity).
  apply output_samples_zero.
  - lia.
  - lia.
  - cbn [mix_buffer set_acc_buffer set_mix_buffer].
    rewrite length_clear_samples. lia.
  - intros k Hk. cbn [mix_buffer acc_buffer set_acc_buffer set_mix_buffer].
    split; apply tab_cleared; lia.
Qed.

Lemma update_from_idle (fuel : nat) :
  forall (smpl_ofs samples : Z) (chip : YMF271Chip),
  chip_idle chip -> buffers_allocated chip -> 0 < mixbuf_smpls chip ->
  (Z.to_nat (samples - smpl_ofs) <= fuel)%nat ->
  exists chip',
    ymf271_update_from fuel smpl_ofs samples chip
    = Some (chip', replicate (Z.to_nat (samples - smpl_ofs)) (0, 0))
    /\ slots chip' = slots chip.
Proof.
  induction fuel as [|fuel IH];
    intros smpl_ofs samples chip Hidle Hbuf Hmix Hfuel;
    cbn [ymf271_update_from];
    destruct (samples <=? smpl_ofs) eqn:Hdone;
    try (apply Z.leb_le in Hdone; exists chip;
         replace (Z.to_nat (samples - smpl_ofs)) with 0%nat by lia;
         split; reflexivity);
    apply Z.leb_gt in Hdone; [lia|].
  cbv zeta.
  set (proc := if mixbuf_smpls chip <? samples - smpl_ofs
               then mixbuf_smpls chip else samples - smpl_ofs).
  assert (Hproc : 0 < proc <= samples - smpl_ofs /\ proc <= mixbuf_smpls chip)
    by (subst proc; destruct (Z.ltb_spec (mixbuf_smpls chip)
                                (samples - smpl_ofs)); lia).
  destruct Hbuf as (H32 & Hlm & Hla).
  rewrite update_chunk_idle by (try exact Hidle; lia).
  destruct (IH (smpl_ofs + proc) samples
              (set_acc_buffer (clear_samples (proc * 4) (acc_buffer chip))
                 (set_mix_buffer (clear_samples (proc * 4) (mix_buffer chip))
                    chip)))
    as (chip' & -> & Hs).
  - eapply chip_idle_same; [| | | exact Hidle]; reflexivity.
  - unfold buffers_allocated.
    cbn [mixbuf_smpls mix_buffer acc_buffer set_acc_buffer set_mix_buffer].
    rewrite !length_clear_samples. lia.
  - exact Hmix.
  - lia.
  - exists chip'. split; [|exact Hs].
    rewrite <- replicate_add. do 3 f_equal. lia.
Qed.

Lemma update_idle (chip : YMF271Chip) (samples : Z) :
  chip_idle chip -> buffers_allocated chip -> 0 < mixbuf_smpls chip ->
  exists chip',
    ymf271_update chip samples
    = Some (chip', replicate (Z.to_nat samples) (0, 0))
    /\ slots chip' = slots chip.
Proof.
  intros Hidle Hbuf Hmix. unfold ymf271_update.
  destruct (update_from_idle (Z.to_nat samples) 0 samples chip Hidle Hbuf Hmix
              ltac:(lia)) as (chip' & Heq & Hs).
  exists chip'. split; [|exact Hs].
  rewrite Heq. do 3 f_equal. lia.
Qed.

(** *** After a reset *)

Lemma device_reset_buffers (chip : YMF271Chip) :
  let chip' := device_reset_ymf271 chip in
  mixbuf_smpls chip' = mixbuf_smpls chip
  /\ mix_buffer chip' = mix_buffer chip
  /\ acc_buffer chip' = acc_buffer chip.
Proof.
  unfold device_reset_ymf271.
  match goal with
  | |- context [for_range 0 48 ?f chip] =>
      assert (H : mixbuf_smpls (for_range 0 48 f chip) = mixbuf_smpls chip
                  /\ mix_buffer (for_range 0 48 f chip) = mix_buffer chip
                  /\ acc_buffer (for_range 0 48 f chip) = acc_buffer chip);
        [| revert H; generalize (for_range 0 48 f chip)]
  end.
  { apply (for_range_invariant
             (fun c => mixbuf_smpls c = mixbuf_smpls chip
                       /\ mix_buffer c = mix_buffer chip
                       /\ acc_buffer c = acc_buffer chip)).
    - intros j c _ H. exact H.
    - repeat split. }
  intros loop H. cbv zeta. destruct (irq_handler _); exact H.
Qed.

Lemma device_reset_inactive (chip : YMF271Chip) (k : Z) :
  0 <= k < 48 -> active (get_slot (device_reset_ymf271 chip) k) = 0.
Proof.
  intros Hk. rewrite device_reset_slot.
  pose proof (reset_loop_clears 48 0 k chip ltac:(lia) ltac:(simpl; lia)) as H.
  cbv zeta in H. exact (proj2 H).
Qed.

Lemma gating_slots_range (sy j s : Z) :
  0 <= j < 12 -> In s (gating_slots sy j) -> 0 <= s < 48.
Proof.
  intros Hj Hin. unfold gating_slots in Hin.
  destruct sy as [|[[p|p|]|[p|p|]|]|p]; cbn [In] in Hin;
    repeat destruct Hin as [<- | Hin]; try contradiction; lia.
Qed.

Lemma device_reset_idle (chip : YMF271Chip) :
  chip_idle (device_reset_ymf271 chip).
Proof.
  intros j Hj. right. right. intros s Hin.
  apply device_reset_inactive.
  eapply gating_slots_range; [exact Hj | exact Hin].
Qed.

(** X6: After device_reset_ymf271, on a chip whose sample buffers have the
    allocated size and a positive chunk size, ymf271_update outputs the
    sample (0, 0) for every sample asked for. *)
Theorem reset_then_silent (chip : YMF271Chip) (samples : Z) :
  buffers_allocated chip -> 0 < mixbuf_smpls chip ->
  exists chip',
    ymf271_update (device_reset_ymf271 chip) samples
    = Some (chip', replicate (Z.to_nat samples) (0, 0)).
Proof.
  intros Hbuf Hmix.
  destruct (device_reset_buffers chip) as (Hm & Hmb & Hab). cbv zeta in *.
  destruct (update_idle (device_reset_ymf271 chip) samples) as (chip' & Heq & _).
  - apply device_reset_idle.
  - unfold buffers_allocated. rewrite Hm, Hmb, Hab. exact Hbuf.
  - rewrite Hm. exact Hmix.
  - exists chip'. exact Heq.
Qed.

(** ** Mute mask *)

Lemma get_put_group_eq (chip : YMF271Chip) (n : Z) (g : YMF271Group) :
  (Z.to_nat n < length (groups chip))%nat ->
  get_group (put_group n g chip) n = g.
Proof.
  intros Hn. unfold get_group, put_group. cbn [groups set_groups].
  rewrite list_lookup_insert_eq by exact Hn. reflexivity.
Qed.

Lemma get_put_group_ne (chip : YMF271Chip) (n m : Z) (g : YMF271Group) :
  Z.to_nat n <> Z.to_nat m ->
  get_group (put_group n g chip) m = get_group chip m.
Proof.
  intros Hn. unfold get_group, put_group. cbn [groups set_groups].
  rewrite list_lookup_insert_ne by exact Hn. reflexivity.
Qed.

Lemma put_group_outside (n : Z) (g : YMF271Group) (chip : YMF271Chip) :
  outside_groups (put_group n g chip) = outside_groups chip.
Proof.
  unfold outside_groups, put_group.
  cbn [slots regs_main mem_base mem_size mixbuf_smpls mix_buffer acc_buffer
       timerA timerB enable irqstate status end_status groups set_groups].
  rewrite length_insert. reflexivity.
Qed.

Lemma mute_loop_groups (MuteMask : Z) (n : nat) :
  forall (i : Z) (chip : YMF271Chip) (j : Z),
  0 <= i -> 0 <= j -> (Z.to_nat j < length (groups chip))%nat ->
  let chip' :=
    for_range i n
      (fun CurChn chip =>
         put_group CurChn
           (set_Muted (Z.land (Z.shiftr MuteMask CurChn) 0x01)
              (get_group chip CurChn))
           chip)
      chip in
  outside_groups chip' = outside_groups chip
  /\ get_group chip' j =
     if (i <=? j) && (j <? i + Z.of_nat n)
     then set_Muted (Z.land (Z.shiftr MuteMask j) 0x01) (get_group chip j)
     else get_group chip j.
Proof.
  induction n as [|n IH]; intros i chip j Hi Hj Hlen; cbn [for_range].
  - split; [reflexivity|].
    destruct (Z.leb_spec i j), (Z.ltb_spec j (i + Z.of_nat 0));
      cbn [andb]; try reflexivity; lia.
  - cbv zeta.
    set (g := set_Muted (Z.land (Z.shiftr MuteMask i) 0x01) (get_group chip i)).
    destruct (IH (i + 1) (put_group i g chip) j ltac:(lia) Hj) as [Hout Hget].
    { unfold put_group. cbn [groups set_groups]. rewrite length_insert.
      exact Hlen. }
    cbv zeta in Hout, Hget. split.
    + rewrite Hout. apply put_group_outside.
    + rewrite Hget.
      destruct (Z.eq_dec j i) as [-> | Hne].
      * rewrite get_put_group_eq by exact Hlen.
        destruct (Z.leb_spec (i + 1) i), (Z.ltb_spec i (i + 1 + Z.of_nat n)),
          (Z.leb_spec i i), (Z.ltb_spec i (i + Z.of_nat (S n)));
          cbn [andb]; try reflexivity; lia.
      * rewrite get_put_group_ne by lia.
        destruct (Z.leb_spec (i + 1) j), (Z.ltb_spec j (i + 1 + Z.of_nat n)),
          (Z.leb_spec i j), (Z.ltb_spec j (i + Z.of_nat (S n)));
          cbn [andb]; try reflexivity; lia.
Qed.

Lemma mute_bit (MuteMask j : Z) :
  0 <= j ->
  Z.land (Z.shiftr MuteMask j) 0x01 = Z.b2z (Z.testbit MuteMask j).
Proof.
  intros Hj. change 1 with (Z.ones 1). rewrite Z.land_ones by lia.
  change (2 ^ 1) with 2. rewrite <- Z.bit0_mod.
  rewrite Z.shiftr_spec by lia. reflexivity.
Qed.

(** X7: ymf271_set_mute_mask sets the Muted flag of group j to bit j of
    the mask for each of the 12 groups and changes nothing else (sync and
    pfm of the groups, slots, buffers, timers); a group whose bit is set
    is skipped by the generation loop. *)
Theorem mute_mask_groups (chip : YMF271Chip) (MuteMask j : Z) :
  length (groups chip) = 12%nat -> 0 <= j < 12 ->
  let chip' := ymf271_set_mute_mask chip MuteMask in
  Muted (get_group chip' j) = Z.b2z (Z.testbit MuteMask j)
  /\ sync (get_group chip' j) = sync (get_group chip j)
  /\ pfm (get_group chip' j) = pfm (get_group chip j)
  /\ outside_groups chip' = outside_groups chip
  /\ (Z.testbit MuteMask j = true ->
      forall n, update_group j n chip' = chip').
Proof.
  intros Hlen Hj chip'. subst chip'. unfold ymf271_set_mute_mask.
  destruct (mute_loop_groups MuteMask 12 0 chip j ltac:(lia) ltac:(lia)
              ltac:(lia)) as [Hout Hget].
  cbv zeta in Hout, Hget. revert Hout Hget.
  match goal with
  | |- context [for_range 0 12 ?f chip] => generalize (for_range 0 12 f chip)
  end.
  intros chip' Hout Hget.
  destruct (Z.leb_spec 0 j), (Z.ltb_spec j (0 + Z.of_nat 12));
    cbn [andb] in Hget; try lia.
  assert (Hm : Muted (get_group chip' j) = Z.b2z (Z.testbit MuteMask j))
    by (rewrite Hget, <- mute_bit by lia; reflexivity).
  split; [exact Hm|]. rewrite Hget.
  split; [reflexivity|]. split; [reflexivity|]. split; [exact Hout|].
  intros Hbit n. apply update_group_idle. left.
  rewrite Hm, Hbit. discriminate.
Qed.

(** ** Start of the device *)

Lemma init_tables_outside (sin : float -> float)
  (pow : float -> float -> float) (chip : YMF271Chip) :
  outside_groups (init_tables sin pow chip) = outside_groups chip
  /\ groups (init_tables sin pow chip) = groups chip.
Proof. split; reflexivity. Qed.

Lemma start_clock_rate (cfg_clock : Z) :
  3840 <= cfg_clock < 2 ^ 32 ->
  0 < Z.quot (Z.quot cfg_clock 384) 10
  /\ Z.quot (Z.quot cfg_clock 384) 10 * 4 < 2 ^ 32.
Proof.
  intros Hc.
  rewrite (Z.quot_div_nonneg cfg_clock 384) by lia.
  assert (H1 : 10 <= cfg_clock / 384 < 2 ^ 32).
  { split; [apply Z.div_le_lower_bound; lia | apply Z.div_lt_upper_bound; lia]. }
  rewrite Z.quot_div_nonneg by lia. split.
  - apply Z.div_str_pos. lia.
  - assert (cfg_clock / 384 / 10 < 2 ^ 30); [|lia].
    apply Z.div_lt_upper_bound; lia.
Qed.

Lemma length_malloc_INT32 (fresh : Z -> Z) (n : Z) :
  length (malloc_INT32 fresh n) = Z.to_nat n.
Proof. unfold malloc_INT32. rewrite length_map. apply length_seqZ. Qed.

Lemma device_start_fields (sin : float -> float)
  (pow : float -> float -> float) (mix_fresh acc_fresh : Z -> Z)
  (cfg_clock : Z) :
  let chip :=
    device_start_ymf271 sin pow mix_fresh acc_fresh cfg_clock in
  let smpls := Z.quot (Z.quot cfg_clock 384) 10 in
  slots chip = replicate 48 slot_zero
  /\ mem_base chip = None /\ mem_size chip = 0
  /\ mixbuf_smpls chip = smpls
  /\ mix_buffer chip = malloc_INT32 mix_fresh (smpls * 4)
  /\ acc_buffer chip = malloc_INT32 acc_fresh (smpls * 4)
  /\ forall j, 0 <= j < 12 -> get_group chip j = group_zero.
Proof.
  unfold device_start_ymf271. cbv zeta.
  match goal with
  | |- context [init_tables sin pow ?c] =>
      destruct (init_tables_outside sin pow c) as [Hout Hg];
      assert (Hc : outside_groups c = outside_groups chip_calloc
                   /\ groups c = groups chip_calloc) by (split; reflexivity);
      rewrite (proj1 Hc) in Hout; rewrite (proj2 Hc) in Hg; clear Hc;
      revert Hout Hg; generalize (init_tables sin pow c)
  end.
  intros tables Hout Hg.
  change (clock (set_clock cfg_clock chip_calloc)) with cfg_clock.
  set (smpls := Z.quot (Z.quot cfg_clock 384) 10).
  match goal with
  | |- context [ymf271_set_mute_mask ?c 0] =>
      assert (Hc : outside_groups c
                   = (replicate 48 slot_zero, replicate 16 0, None, 0,
                      (smpls, malloc_INT32 mix_fresh (smpls * 4),
                       malloc_INT32 acc_fresh (smpls * 4)),
                      (0, 0, 0, 0, 0, 0), 12%nat)
                   /\ groups c = replicate 12 group_zero);
        [| revert Hc; generalize c]
  end.
  { unfold outside_groups in *.
    cbn [slots regs_main mem_base mem_size mixbuf_smpls mix_buffer acc_buffer
         timerA timerB enable irqstate status end_status groups
         set_mixbuf_smpls set_mix_buffer set_acc_buffer].
    split; [|exact Hg].
    injection Hout as H1 H2 H3 H4 H5 H6 H7 H8 H9 H10 H11 H12 H13 H14.
    rewrite H1, H2, H3, H4, H8, H9, H10, H11, H12, H13, Hg. reflexivity. }
  intros c [Hc Hgc].
  assert (Hmute : forall j, 0 <= j < 12 ->
            outside_groups (ymf271_set_mute_mask c 0) = outside_groups c
            /\ get_group (ymf271_set_mute_mask c 0) j = group_zero).
  { intros j Hj.
    destruct (mute_loop_groups 0 12 0 c j ltac:(lia) ltac:(lia)) as [Ho Hget].
    { rewrite Hgc, length_replicate. lia. }
    cbv zeta in Ho, Hget. split; [exact Ho|].
    unfold ymf271_set_mute_mask. rewrite Hget.
    destruct (Z.leb_spec 0 j), (Z.ltb_spec j (0 + Z.of_nat 12));
      cbn [andb]; try lia.
    unfold get_group. rewrite Hgc, lookup_replicate_2 by lia.
    rewrite Z.shiftr_0_l. reflexivity. }
  destruct (Hmute 0 ltac:(lia)) as [Ho _]. rewrite Hc in Ho.
  revert Ho Hmute. generalize (ymf271_set_mute_mask c 0). intros chip Ho Hmute.
  unfold outside_groups in Ho.
  injection Ho as Hs _ Hmb Hms Hmix Hmixb Haccb _ _ _ _ _ _ _.
  repeat split; try assumption. intros j Hj. apply (Hmute j Hj).
Qed.

(** X8: device_start_ymf271 with a clock from 3840 Hz up gives a chip with
    no ROM, all 48 slots and 12 groups zero and a chunk size of
    clock/384/10 samples, and ymf271_update on it outputs (0, 0) for every
    sample, whatever sin and pow of the C library return and whatever
    malloc has left in the two sample buffers. *)
Theorem start_then_silent (sin : float -> float)
  (pow : float -> float -> float) (mix_fresh acc_fresh : Z -> Z)
  (cfg_clock samples : Z) :
  3840 <= cfg_clock < 2 ^ 32 ->
  let chip :=
    device_start_ymf271 sin pow mix_fresh acc_fresh cfg_clock in
  mem_base chip = None
  /\ (forall k, get_slot chip k = slot_zero)
  /\ (forall j, 0 <= j < 12 -> get_group chip j = group_zero)
  /\ mixbuf_smpls chip = Z.quot (Z.quot cfg_clock 384) 10
  /\ exists chip',
       ymf271_update chip samples
       = Some (chip', replicate (Z.to_nat samples) (0, 0)).
Proof.
  intros Hclk.
  destruct (device_start_fields sin pow mix_fresh acc_fresh cfg_clock)
    as (Hs & Hmb & _ & Hmix & Hmixb & Haccb & Hg).
  destruct (start_clock_rate cfg_clock Hclk) as [Hpos H32].
  cbv zeta in *. revert Hs Hmb Hmix Hmixb Haccb Hg.
  generalize (device_start_ymf271 sin pow mix_fresh acc_fresh cfg_clock).
  intros chip Hs Hmb Hmix Hmixb Haccb Hg.
  split; [exact Hmb|]. split; [|split; [exact Hg|split; [exact Hmix|]]].
  - intros k. unfold get_slot. rewrite Hs.
    destruct (replicate 48 slot_zero !! Z.to_nat k) as [x|] eqn:E;
      [apply lookup_replicate in E as [-> _]|]; reflexivity.
  - destruct (update_idle chip samples) as (chip' & Heq & _).
    + intros j Hj. right. left. exact Hmb.
    + unfold buffers_allocated.
      rewrite Hmix, Hmixb, Haccb, !length_malloc_INT32. lia.
    + rewrite Hmix. exact Hpos.
    + exists chip'. exact Heq.
Qed.

(** The chip started at the standard clock: 10000 samples, in chunks of
    4410, are silent. *)
Lemma start_then_silent_witness :
  mem_base example_start = None
  /\ mixbuf_smpls example_start = 4410
  /\ exists chip',
       ymf271_update example_start 10000
       = Some (chip', replicate (Z.to_nat 10000) (0, 0)).
Proof.
  destruct (start_then_silent sin_unavailable pow_at_zero fresh_zeros
              fresh_zeros STD_CLOCK 10000
              ltac:(unfold STD_CLOCK; lia)) as (Hmb & _ & _ & Hmix & Hsil).
  split; [exact Hmb|]. split; [exact Hmix | exact Hsil].
Defined.

(** The playing example voice is silent after a reset. *)
Lemma reset_then_silent_witness :
  exists chip',
    ymf271_update (device_reset_ymf271 example_pcm) 3
    = Some (chip', replicate (Z.to_nat 3) (0, 0)).
Proof.
  apply reset_then_silent.
  - unfold buffers_allocated.
    assert (Hm : mixbuf_smpls example_pcm = 4410) by (vm_compute; reflexivity).
    assert (Hb : mix_buffer example_pcm = replicate (Z.to_nat 17640) 0)
      by (vm_compute; reflexivity).
    rewrite Hm, Hb, example_pcm_acc_buffer, length_replicate. lia.
  - vm_compute. reflexivity.
Defined.

(** Mask 0x001 mutes group 0 of the example voice, which is then skipped. *)
Lemma mute_mask_groups_witness :
  Muted (get_group (ymf271_set_mute_mask example_pcm 0x001) 0) = 1
  /\ update_group 0 3 (ymf271_set_mute_mask example_pcm 0x001)
     = ymf271_set_mute_mask example_pcm 0x001.
Proof.
  destruct (mute_mask_groups example_pcm 0x001 0
              ltac:(vm_compute; reflexivity) ltac:(lia))
    as (Hm & _ & _ & _ & Hskip).
  split; [exact Hm | exact (Hskip eq_refl 3)].
Defined.

(** ** Writes stay inside the group *)

Lemma group_member (g i : Z) :
  0 <= g < 12 -> 0 <= i -> Z.rem (g + i * 12) 12 = g.
Proof.
  intros Hg Hi.
  pose proof (Z.quot_rem' (g + i * 12) 12) as Hqr.
  pose proof (Z.rem_bound_pos (g + i * 12) 12 ltac:(lia) ltac:(lia)) as Hr.
  lia.
Qed.

Lemma keyon_init_other_keeps_group (g i : Z) (chip c : YMF271Chip) :
  0 <= g < 12 -> 0 <= i ->
  keeps_other_slots (fun t => Z.rem t 12 = g) chip c ->
  keeps_other_slots (fun t => Z.rem t 12 = g) chip
    (keyon_init_other (g + i * 12) c).
Proof.
  intros Hg Hi Hc. eapply keeps_other_slots_trans; [exact Hc|].
  eapply keeps_other_slots_weaken; [| apply keyon_init_other_keeps; lia].
  intros t ->. apply group_member; assumption.
Qed.

Lemma write_register_keeps_group (chip : YMF271Chip) (slotnum reg data : Z) :
  0 <= slotnum ->
  keeps_other_slots (fun t => Z.rem t 12 = Z.rem slotnum 12) chip
    (write_register chip slotnum reg data).
Proof.
  intros Hn.
  assert (Hput : forall s c,
            keeps_other_slots (fun t => Z.rem t 12 = Z.rem slotnum 12) c
              (put_slot slotnum s c)).
  { intros s c. eapply keeps_other_slots_weaken; [| apply put_slot_keeps; exact Hn].
    intros t ->. reflexivity. }
  pose proof (Z.rem_bound_pos slotnum 12 Hn ltac:(lia)) as Hg.
  unfold write_register. cbv zeta.
  remember (Z.rem slotnum 12) as g0 eqn:Eg. clear Eg.
  destruct reg as [|p|p];
    [ | do 4 (try destruct p as [p|p|]);
        first [ apply keeps_other_slots_refl | apply Hput ]
      | apply keeps_other_slots_refl ].
  destruct (nonzero (Z.land data 1)); [| apply Hput].
  match goal with
  | |- context [put_slot slotnum ?s (calculate_status_end chip slotnum 0)] =>
      generalize s; intros ks
  end.
  assert (Hk : keeps_other_slots (fun t => Z.rem t 12 = g0) chip
                 (put_slot slotnum ks (calculate_status_end chip slotnum 0))).
  { eapply keeps_other_slots_trans;
      [apply calculate_status_end_keeps | apply Hput]. }
  revert Hk.
  generalize (put_slot slotnum ks (calculate_status_end chip slotnum 0)).
  intros c Hk.
  case_ifs; try exact Hk.
  - apply for_range_invariant; [|exact Hk].
    intros j c' Hj Hc'. apply keyon_init_other_keeps_group; [exact Hg | lia | exact Hc'].
  - apply keyon_init_other_keeps_group; [exact Hg | lia | exact Hk].
  - apply keyon_init_other_keeps_group; [exact Hg | lia | exact Hk].
  - apply for_range_invariant; [|exact Hk].
    intros j c' Hj Hc'. apply keyon_init_other_keeps_group; [exact Hg | lia | exact Hc'].
Qed.

Lemma write_register_in_group (chip c : YMF271Chip) (g k reg data : Z) :
  0 <= g < 12 -> 0 <= k ->
  keeps_other_slots (fun t => Z.rem t 12 = g) chip c ->
  keeps_other_slots (fun t => Z.rem t 12 = g) chip
    (write_register c (12 * k + g) reg data).
Proof.
  intros Hg Hk Hc. eapply keeps_other_slots_trans; [exact Hc|].
  pose proof (write_register_keeps_group c (12 * k + g) reg data ltac:(lia))
    as H.
  rewrite (proj1 (slot_group_bank g k Hg Hk)) in H. exact H.
Qed.

(** X9: An FM register write reaches only the slots of the group its
    address selects: with an invalid group number the chip is unchanged,
    and in every sync mode (key-on initialisation of the other slots
    included) the groups, the number of slots and every slot of another
    group are unchanged. *)
Theorem write_fm_stays_in_group (chip : YMF271Chip) (bank address data : Z) :
  0 <= bank ->
  let g := tab fm_tab (Z.land address 0xf) in
  let chip' := ymf271_write_fm chip bank address data in
  (g = -1 -> chip' = chip)
  /\ groups chip' = groups chip
  /\ length (slots chip') = length (slots chip)
  /\ forall t, 0 <= t -> Z.rem t 12 <> g -> get_slot chip' t = get_slot chip t.
Proof.
  intros Hbank g chip'.
  assert (Hkeep : g <> -1 ->
            keeps_other_slots (fun t => Z.rem t 12 = g) chip chip').
  { intros Hg. pose proof (fm_tab_range address Hg) as Hrange. fold g in Hrange.
    subst chip'. unfold ymf271_write_fm. fold g. cbv zeta.
    apply Z.eqb_neq in Hg. rewrite Hg.
    pose proof (keeps_other_slots_refl (fun t => Z.rem t 12 = g) chip) as H0.
    destruct (_ && _);
      [ destruct (sync (get_group chip g)) as [|[[p|p|]|[p|p|]|]|p];
        try exact H0; try destruct (bank =? 0) |];
      repeat (apply write_register_in_group; [exact Hrange | lia |]);
      exact H0. }
  destruct (Z.eq_dec g (-1)) as [Hinv | Hvalid].
  - assert (Heq : chip' = chip).
    { subst chip'. unfold ymf271_write_fm. fold g. cbv zeta.
      rewrite Hinv. reflexivity. }
    split; [intros _; exact Heq|]. rewrite Heq. repeat split.
  - destruct (Hkeep Hvalid) as (Hg & Hl & Hs).
    split; [intros Hinv; contradiction|].
    split; [exact Hg|]. split; [exact Hl|].
    intros t Ht Hne. apply Hs; assumption.
Qed.

(** A key-on written to group 1 leaves slot 2 alone, and address 3 names
    no group. *)
Lemma write_fm_stays_in_group_witness :
  get_slot (ymf271_write_fm example_pcm 0 0x01 0x01) 2
  = get_slot example_pcm 2
  /\ ymf271_write_fm example_pcm 0 0x03 0x01 = example_pcm.
Proof.
  destruct (write_fm_stays_in_group example_pcm 0 0x01 0x01 ltac:(lia))
    as (_ & _ & _ & Hs).
  destruct (write_fm_stays_in_group example_pcm 0 0x03 0x01 ltac:(lia))
    as (Hinv & _).
  split.
  - apply Hs; [lia | vm_compute; discriminate].
  - apply Hinv. reflexivity.
Defined.

(** ** Address registers *)

Lemma testbit_small (d w n : Z) :
  0 <= d < 2 ^ w -> 0 <= w <= n -> Z.testbit d n = false.
Proof.
  intros Hd Hn.
  rewrite <- (Z.mod_small d (2 ^ w)) by exact Hd.
  rewrite Z.mod_pow2_bits_high by lia. reflexivity.
Qed.

Lemma testbit_to_UINT32 (x n : Z) :
  0 <= n -> Z.testbit (to_UINT32 x) n = (n <? 32) && Z.testbit x n.
Proof.
  intros Hn. unfold to_UINT32, wrap_u.
  destruct (Z.ltb_spec n 32).
  - rewrite Z.mod_pow2_bits_low by lia. reflexivity.
  - rewrite Z.mod_pow2_bits_high by lia. reflexivity.
Qed.

(** [(x & ~(mask << sh)) | (d << sh)], with [mask] = 2^w - 1: the bits
    [sh .. sh+w-1] become those of [d], the others stay. *)
Lemma testbit_field (x d sh w n : Z) :
  0 <= sh -> 0 <= w -> 0 <= n -> 0 <= d < 2 ^ w ->
  Z.testbit
    (Z.lor (to_UINT32 (Z.land x (Z.lnot (Z.shiftl (Z.ones w) sh))))
       (Z.shiftl d sh)) n
  = if (sh <=? n) && (n <? sh + w) then Z.testbit d (n - sh)
    else (n <? 32) && Z.testbit x n.
Proof.
  intros Hsh Hw Hn Hd.
  rewrite Z.lor_spec, testbit_to_UINT32, Z.land_spec, Z.lnot_spec by lia.
  rewrite !Z.shiftl_spec by lia. rewrite Z.testbit_ones by lia.
  destruct (Z.leb_spec sh n), (Z.ltb_spec n (sh + w)); cbn [andb].
  - replace (0 <=? n - sh) with true by lia.
    replace (n - sh <? w) with true by lia.
    cbn [andb negb]. rewrite !andb_false_r. reflexivity.
  - replace (n - sh <? w) with false by lia.
    rewrite andb_false_r. cbn [negb]. rewrite andb_true_r.
    rewrite (testbit_small d w (n - sh)) by lia. apply orb_false_r.
  - replace (0 <=? n - sh) with false by lia. cbn [andb negb].
    rewrite andb_true_r, (Z.testbit_neg_r d (n - sh)) by lia.
    apply orb_false_r.
  - lia.
Qed.

(** The three byte registers of a 23-bit address, written low to high. *)
Lemma address_bytes (x d0 d1 d2 : Z) :
  0 <= x < 2 ^ 24 -> 0 <= d0 < 256 -> 0 <= d1 < 256 -> 0 <= d2 < 256 ->
  let x1 := Z.lor (to_UINT32 (Z.land x (Z.lnot 0xff))) d0 in
  let x2 := Z.lor (to_UINT32 (Z.land x1 (Z.lnot 0xff00))) (Z.shiftl d1 8) in
  let x3 :=
    Z.lor (to_UINT32 (Z.land x2 (Z.lnot 0xff0000)))
      (Z.shiftl (Z.land d2 0x7f) 16) in
  x3 = Z.lor d0 (Z.lor (Z.shiftl d1 8) (Z.shiftl (Z.land d2 0x7f) 16)).
Proof.
  intros Hx H0 H1 H2. cbv zeta.
  assert (Hd2 : 0 <= Z.land d2 0x7f < 2 ^ 8).
  { change 0x7f with (Z.ones 7). rewrite Z.land_ones by lia.
    pose proof (Z.mod_pos_bound d2 (2 ^ 7) ltac:(lia)). lia. }
  revert Hd2. generalize (Z.land d2 0x7f). intros e2 Hd2.
  change 0xff with (Z.shiftl (Z.ones 8) 0).
  change 0xff00 with (Z.shiftl (Z.ones 8) 8).
  change 0xff0000 with (Z.shiftl (Z.ones 8) 16).
  change d0 with (Z.shiftl d0 0) at 1.
  apply Z.bits_inj'. intros n Hn.
  rewrite !testbit_field by lia.
  rewrite !Z.lor_spec, !Z.shiftl_spec by lia.
  destruct (Z.ltb_spec n 8); [|destruct (Z.ltb_spec n 16);
                                [|destruct (Z.ltb_spec n 24)]].
  - replace ((16 <=? n) && (n <? 16 + 8)) with false by lia.
    replace ((8 <=? n) && (n <? 8 + 8)) with false by lia.
    replace ((0 <=? n) && (n <? 0 + 8)) with true by lia.
    replace (n <? 32) with true by lia. cbn [andb].
    rewrite (Z.testbit_neg_r d1), (Z.testbit_neg_r e2) by lia.
    rewrite Z.sub_0_r, !orb_false_r. reflexivity.
  - replace ((16 <=? n) && (n <? 16 + 8)) with false by lia.
    replace ((8 <=? n) && (n <? 8 + 8)) with true by lia.
    replace (n <? 32) with true by lia. cbn [andb].
    rewrite (testbit_small d0 8 n), (Z.testbit_neg_r e2) by lia.
    rewrite orb_false_r. reflexivity.
  - replace ((16 <=? n) && (n <? 16 + 8)) with true by lia.
    rewrite (testbit_small d0 8 n), (testbit_small d1 8 (n - 8)) by lia.
    reflexivity.
  - replace ((16 <=? n) && (n <? 16 + 8)) with false by lia.
    replace ((8 <=? n) && (n <? 8 + 8)) with false by lia.
    replace ((0 <=? n) && (n <? 0 + 8)) with false by lia.
    rewrite (testbit_small x 24 n), (testbit_small d0 8 n),
      (testbit_small d1 8 (n - 8)), (testbit_small e2 8 (n - 16)) by lia.
    rewrite !andb_false_r. reflexivity.
Qed.

Lemma pcm_address_decode (ch r : Z) :
  0 <= ch < 16 -> 0 <= r < 16 ->
  Z.land (16 * r + ch) 0xf = ch
  /\ Z.land (Z.shiftr (16 * r + ch) 4) 0xf = r.
Proof.
  intros Hch Hr. change 0xf with (Z.ones 4).
  rewrite !Z.land_ones, Z.shiftr_div_pow2 by lia.
  change (2 ^ 4) with 16.
  split.
  - rewrite Z.add_comm, Z.mul_comm, Z.mod_add by lia. apply Z.mod_small. lia.
  - rewrite Z.add_comm, Z.mul_comm, Z.div_add by lia.
    rewrite (Z.div_small ch 16) by lia. apply Z.mod_small. lia.
Qed.

Lemma pcm_tab_range (ch : Z) :
  0 <= ch < 16 -> tab pcm_tab ch <> -1 -> 0 <= tab pcm_tab ch < 48.
Proof.
  intros H.
  assert (Hcases : ch = 0 \/ ch = 1 \/ ch = 2 \/ ch = 3 \/ ch = 4 \/ ch = 5
                   \/ ch = 6 \/ ch = 7 \/ ch = 8 \/ ch = 9 \/ ch = 10
                   \/ ch = 11 \/ ch = 12 \/ ch = 13 \/ ch = 14 \/ ch = 15)
    by lia.
  clear H. decompose [or] Hcases; subst ch;
    match goal with
    | |- context [tab pcm_tab ?k] =>
        let v := eval vm_compute in (tab pcm_tab k) in
        change (tab pcm_tab k) with v
    end; lia.
Qed.

Lemma land_0xf_range (a : Z) : 0 <= Z.land a 0xf < 16.
Proof.
  change 0xf with (Z.ones 4). rewrite Z.land_ones by lia.
  apply Z.mod_pos_bound. lia.
Qed.

(** A PCM register write changes the addressed slot only. *)
Lemma write_pcm_keeps (chip : YMF271Chip) (address data : Z) :
  keeps_other_slots (fun t => t = tab pcm_tab (Z.land address 0xf)) chip
    (ymf271_write_pcm chip address data).
Proof.
  unfold ymf271_write_pcm. cbv zeta.
  destruct (tab pcm_tab (Z.land address 0xf) =? -1) eqn:Hn;
    [apply keeps_other_slots_refl|].
  apply Z.eqb_neq in Hn.
  pose proof (pcm_tab_range _ (land_0xf_range address) Hn) as Hr.
  destruct (Z.land (Z.shiftr address 4) 0xf) as [|p|p];
    [ | do 4 (try destruct p as [p|p|]) | ];
    first [ apply keeps_other_slots_refl | apply put_slot_keeps; lia ].
Qed.

(** The start address after a write to its register [r] (0, 1 or 2). *)
Lemma write_pcm_startaddr (chip : YMF271Chip) (ch r data : Z) :
  0 <= ch < 16 -> 0 <= r < 3 -> tab pcm_tab ch <> -1 ->
  (Z.to_nat (tab pcm_tab ch) < length (slots chip))%nat ->
  let old := get_slot chip (tab pcm_tab ch) in
  let new := get_slot (ymf271_write_pcm chip (16 * r + ch) data) (tab pcm_tab ch) in
  startaddr new =
    (if r =? 0 then
       Z.lor (to_UINT32 (Z.land (startaddr old) (Z.lnot 0xff))) data
     else if r =? 1 then
       Z.lor (to_UINT32 (Z.land (startaddr old) (Z.lnot 0xff00)))
         (Z.shiftl data 8)
     else
       Z.lor (to_UINT32 (Z.land (startaddr old) (Z.lnot 0xff0000)))
         (Z.shiftl (Z.land data 0x7f) 16))
  /\ altloop new =
     (if r =? 2 then flag (nonzero (Z.land data 0x80)) else altloop old)
  /\ endaddr new = endaddr old /\ loopaddr new = loopaddr old.
Proof.
  intros Hch Hr Hn Hlen old new. subst old new.
  unfold ymf271_write_pcm.
  destruct (pcm_address_decode ch r Hch ltac:(lia)) as [-> ->].
  apply Z.eqb_neq in Hn. rewrite Hn. cbv zeta.
  generalize (get_slot chip (tab pcm_tab ch)). intros slot.
  assert (Hcases : r = 0 \/ r = 1 \/ r = 2) by lia.
  destruct Hcases as [-> | [-> | ->]]; cbv iota;
    rewrite get_put_slot_eq by exact Hlen; repeat split; reflexivity.
Qed.

(** X10: Writing the three start-address bytes of a PCM slot (PCM
    registers 0x0, 0x1, 0x2) gives startaddr = d0 | d1 << 8 | (d2 & 0x7f)
    << 16 and altloop = bit 7 of the third byte; the end and loop
    addresses of the slot and all other slots are unchanged. *)
Theorem pcm_start_address (chip : YMF271Chip) (ch d0 d1 d2 : Z) :
  0 <= ch < 16 ->
  let n := tab pcm_tab ch in
  n <> -1 -> (Z.to_nat n < length (slots chip))%nat ->
  0 <= startaddr (get_slot chip n) < 2 ^ 24 ->
  0 <= d0 < 256 -> 0 <= d1 < 256 -> 0 <= d2 < 256 ->
  let chip' :=
    ymf271_write_pcm
      (ymf271_write_pcm (ymf271_write_pcm chip ch d0) (0x10 + ch) d1)
      (0x20 + ch) d2 in
  startaddr (get_slot chip' n)
  = Z.lor d0 (Z.lor (Z.shiftl d1 8) (Z.shiftl (Z.land d2 0x7f) 16))
  /\ altloop (get_slot chip' n) = flag (nonzero (Z.land d2 0x80))
  /\ endaddr (get_slot chip' n) = endaddr (get_slot chip n)
  /\ loopaddr (get_slot chip' n) = loopaddr (get_slot chip n)
  /\ forall t, 0 <= t -> t <> n -> get_slot chip' t = get_slot chip t.
Proof.
  intros Hch n Hn Hlen Hx H0 H1 H2 chip'. subst chip'.
  change (ymf271_write_pcm
            (ymf271_write_pcm (ymf271_write_pcm chip ch d0) (0x10 + ch) d1)
            (0x20 + ch) d2)
    with (ymf271_write_pcm
            (ymf271_write_pcm (ymf271_write_pcm chip (16 * 0 + ch) d0)
               (16 * 1 + ch) d1)
            (16 * 2 + ch) d2).
  pose proof (write_pcm_keeps chip (16 * 0 + ch) d0) as K1.
  destruct (write_pcm_startaddr chip ch 0 d0 Hch ltac:(lia) Hn Hlen)
    as (S1 & _ & E1 & L1).
  cbv zeta in S1, E1, L1. fold n in S1, E1, L1.
  revert K1 S1 E1 L1. generalize (ymf271_write_pcm chip (16 * 0 + ch) d0).
  intros c1 K1 S1 E1 L1.
  rewrite (proj1 (pcm_address_decode ch 0 Hch ltac:(lia))) in K1. fold n in K1.
  destruct K1 as (_ & Hl1 & K1).
  pose proof (write_pcm_keeps c1 (16 * 1 + ch) d1) as K2.
  destruct (write_pcm_startaddr c1 ch 1 d1 Hch ltac:(lia) Hn
              ltac:(rewrite Hl1; exact Hlen)) as (S2 & _ & E2 & L2).
  cbv zeta in S2, E2, L2. fold n in S2, E2, L2.
  revert K2 S2 E2 L2. generalize (ymf271_write_pcm c1 (16 * 1 + ch) d1).
  intros c2 K2 S2 E2 L2.
  rewrite (proj1 (pcm_address_decode ch 1 Hch ltac:(lia))) in K2. fold n in K2.
  destruct K2 as (_ & Hl2 & K2).
  pose proof (write_pcm_keeps c2 (16 * 2 + ch) d2) as K3.
  destruct (write_pcm_startaddr c2 ch 2 d2 Hch ltac:(lia) Hn
              ltac:(rewrite Hl2, Hl1; exact Hlen)) as (S3 & A3 & E3 & L3).
  cbv zeta in S3, A3, E3, L3. fold n in S3, A3, E3, L3.
  revert K3 S3 A3 E3 L3. generalize (ymf271_write_pcm c2 (16 * 2 + ch) d2).
  intros c3 K3 S3 A3 E3 L3.
  rewrite (proj1 (pcm_address_decode ch 2 Hch ltac:(lia))) in K3. fold n in K3.
  destruct K3 as (_ & Hl3 & K3).
  change (0 =? 0) with true in S1. change (1 =? 0) with false in S2.
  change (1 =? 1) with true in S2. change (2 =? 0) with false in S3.
  change (2 =? 1) with false in S3. change (2 =? 2) with true in A3.
  cbv iota in S1, S2, S3, A3.
  split; [|split; [exact A3 | split; [congruence | split; [congruence|]]]].
  - rewrite S3, S2, S1.
    apply (address_bytes (startaddr (get_slot chip n)) d0 d1 d2); assumption.
  - intros t Ht Hne. rewrite K3, K2, K1 by assumption. reflexivity.
Qed.

(** The bytes 0x56, 0x34, 0x92 written to PCM channel 1 (slot 4). *)
Lemma pcm_start_address_witness :
  startaddr
    (get_slot
       (ymf271_write_pcm
          (ymf271_write_pcm (ymf271_write_pcm example_pcm 0x1 0x56) 0x11 0x34)
          0x21 0x92) 4) = 0x123456
  /\ altloop
       (get_slot
          (ymf271_write_pcm
             (ymf271_write_pcm (ymf271_write_pcm example_pcm 0x1 0x56) 0x11 0x34)
             0x21 0x92) 4) = 1.
Proof.
  destruct (pcm_start_address example_pcm 1 0x56 0x34 0x92 ltac:(lia)
              ltac:(vm_compute; discriminate)
              ltac:(vm_compute; repeat constructor)
              ltac:(vm_compute; split; [discriminate | reflexivity])
              ltac:(lia) ltac:(lia) ltac:(lia)) as (Hs & Ha & _).
  split; [exact Hs | exact Ha].
Defined.

(** ** External memory address and data *)

(** X11: Writing registers 0x14, 0x15 and 0x16 gives the 23-bit external
    address d0 | d1 << 8 | (d2 & 0x7f) << 16 and sets the read/write flag
    ext_rw from bit 7 of the third byte; slots and groups are unchanged. *)
Theorem ext_address_registers (chip : YMF271Chip) (d0 d1 d2 : Z) :
  0 <= ext_address chip < 2 ^ 24 ->
  0 <= d0 < 256 -> 0 <= d1 < 256 -> 0 <= d2 < 256 ->
  let chip' :=
    ymf271_write_timer
      (ymf271_write_timer (ymf271_write_timer chip 0x14 d0) 0x15 d1) 0x16 d2 in
  ext_address chip'
  = Z.lor d0 (Z.lor (Z.shiftl d1 8) (Z.shiftl (Z.land d2 0x7f) 16))
  /\ ext_rw chip' = flag (nonzero (Z.land d2 0x80))
  /\ slots chip' = slots chip /\ groups chip' = groups chip.
Proof.
  intros Hx H0 H1 H2 chip'. subst chip'.
  unfold ymf271_write_timer.
  change (Z.land 0x14 0xf0 =? 0) with false.
  change (Z.land 0x15 0xf0 =? 0) with false.
  change (Z.land 0x16 0xf0 =? 0) with false. cbv iota zeta.
  split; [|repeat split].
  cbn [ext_address set_ext_address set_ext_rw].
  apply (address_bytes (ext_address chip) d0 d1 d2); assumption.
Qed.

(** The bytes 0x56, 0x34, 0x92 written to registers 0x14 to 0x16. *)
Lemma ext_address_registers_witness :
  ext_address
    (ymf271_write_timer
       (ymf271_write_timer (ymf271_write_timer example_pcm 0x14 0x56) 0x15 0x34)
       0x16 0x92) = 0x123456.
Proof.
  destruct (ext_address_registers example_pcm 0x56 0x34 0x92
              ltac:(vm_compute; split; [discriminate | reflexivity])
              ltac:(lia) ltac:(lia) ltac:(lia)) as (Ha & _).
  exact Ha.
Defined.

(** *** Writes through register 0x17 *)

Lemma write_ext_data (chip : YMF271Chip) (data : Z) :
  let chip' := ymf271_write_timer chip 0x17 data in
  let forwarded := negb (nonzero (ext_rw chip)) && ext_write_handler chip in
  ext_address chip' = (ext_address chip + 1) mod 2 ^ 23
  /\ ext_writes chip'
     = ext_writes chip
       ++ (if forwarded then [((ext_address chip + 1) mod 2 ^ 23, data)]
           else [])
  /\ ext_rw chip' = ext_rw chip
  /\ ext_write_handler chip' = ext_write_handler chip.
Proof.
  unfold ymf271_write_timer.
  change (Z.land 0x17 0xf0 =? 0) with false. cbv iota zeta.
  cbn [ext_rw ext_write_handler set_ext_address].
  destruct (negb (nonzero (ext_rw chip)) && ext_write_handler chip);
    unfold call_ext_write_handler;
    cbn [ext_address ext_writes ext_rw ext_write_handler
         set_ext_address set_ext_writes];
    rewrite mask23_mod, ?app_nil_r; repeat split; reflexivity.
Qed.

(** X12: A sequence of writes to register 0x17 advances the external
    address by one (modulo 2^23) per byte; byte i is handed to the
    external-write handler with address ext_address + 1 + i, and only when
    ext_rw is 0 and a handler is installed - otherwise nothing is
    forwarded but the address still advances. *)
Theorem ext_write_sequence (data : list Z) :
  forall chip : YMF271Chip,
  let chip' := foldl (fun c d => ymf271_write_timer c 0x17 d) chip data in
  let forwarded := negb (nonzero (ext_rw chip)) && ext_write_handler chip in
  ext_writes chip'
  = ext_writes chip
    ++ (if forwarded then
          imap (fun i d => ((ext_address chip + 1 + Z.of_nat i) mod 2 ^ 23, d))
            data
        else [])
  /\ ext_address chip'
     = if decide (data = []) then ext_address chip
       else (ext_address chip + Z.of_nat (length data)) mod 2 ^ 23.
Proof.
  induction data as [|d data IH]; intros chip; cbn [foldl].
  - split; [|reflexivity]. cbv zeta.
    destruct (_ && _); cbn [imap]; rewrite app_nil_r; reflexivity.
  - destruct (write_ext_data chip d) as (Ha & Hw & Hrw & Hh).
    destruct (IH (ymf271_write_timer chip 23 d)) as [IHw IHa].
    cbv zeta in *. rewrite IHw, IHa, Hw, Ha, Hrw, Hh. clear IHw IHa Hw Ha Hrw Hh.
    destruct (decide (d :: data = [])) as [Hnil | _]; [discriminate Hnil|].
    split.
    + destruct (_ && _); [|rewrite !app_nil_r; reflexivity].
      rewrite <- app_assoc. f_equal. cbn [imap app]. f_equal.
      * rewrite Z.add_0_r. reflexivity.
      * apply imap_ext. intros i x _. unfold compose. f_equal.
        rewrite <- Z.add_assoc, Zplus_mod_idemp_l. f_equal. lia.
    + destruct (decide (data = [])) as [-> | Hne].
      * cbn [length]. reflexivity.
      * rewrite Zplus_mod_idemp_l. f_equal. cbn [length]. lia.
Qed.

(** *** Reads through port 2 *)

Lemma read_memory_same_rom (chip chip' : YMF271Chip) (offset : Z) :
  mem_base chip' = mem_base chip -> mem_size chip' = mem_size chip ->
  ymf271_read_memory chip' offset = ymf271_read_memory chip offset.
Proof.
  intros Hb Hs. apply read_memory_below_size; [exact Hs|].
  intros i _. unfold mem_byte. rewrite Hb. reflexivity.
Qed.

Lemma read_port2_step (chip : YMF271Chip) :
  ext_rw chip <> 0 ->
  let a := (ext_address chip + 1) mod 2 ^ 23 in
  let chip' := (ymf271_r chip 2).2 in
  (ymf271_r chip 2).1 = ext_readlatch chip
  /\ ext_readlatch chip' = ymf271_read_memory chip a
  /\ ext_address chip' = a /\ ext_rw chip' = ext_rw chip
  /\ mem_base chip' = mem_base chip /\ mem_size chip' = mem_size chip.
Proof.
  intros Hrw. unfold ymf271_r. change (Z.land 2 0xf) with 2. cbv iota.
  unfold nonzero. apply Z.eqb_neq in Hrw. rewrite Hrw. cbn [negb].
  cbv zeta. cbn [fst snd ext_readlatch ext_address ext_rw mem_base mem_size
                 set_ext_readlatch set_ext_address].
  rewrite mask23_mod. repeat split.
Qed.

(** X13: With ext_rw set, successive reads of port 2 stream the external
    memory: the first read returns the old read latch, and read i+1
    returns the byte at address ext_address + 1 + i (modulo 2^23), so the
    data arrives one read late. *)
Theorem ext_read_stream (n : nat) :
  forall chip : YMF271Chip,
  ext_rw chip <> 0 ->
  (reads (S n) 2 chip).1
  = ext_readlatch chip
    :: map (fun i => ymf271_read_memory chip
                       ((ext_address chip + 1 + i) mod 2 ^ 23))
         (seqZ 0 (Z.of_nat n)).
Proof.
  induction n as [|n IH]; intros chip Hrw.
  - cbn [reads]. destruct (read_port2_step chip Hrw) as (Hb & _).
    destruct (ymf271_r chip 2) as [b c]. cbn [fst snd] in *.
    rewrite Hb. reflexivity.
  - destruct (read_port2_step chip Hrw) as (Hb & Hl & Ha & Hrw' & Hmb & Hms).
    cbv zeta in *.
    assert (Hstep : (reads (S (S n)) 2 chip).1
                    = (ymf271_r chip 2).1 :: (reads (S n) 2 (ymf271_r chip 2).2).1).
    { cbn [reads]. destruct (ymf271_r chip 2) as [b c]. cbn [fst snd].
      destruct (ymf271_r c 2) as [b' c']. destruct (reads n 2 c') as [bs c''].
      reflexivity. }
    rewrite Hstep, Hb. f_equal.
    rewrite IH by (rewrite Hrw'; exact Hrw).
    rewrite Hl, Ha.
    replace (Z.of_nat (S n)) with (1 + Z.of_nat n) by lia.
    rewrite seqZ_app by lia. change (seqZ 0 1) with [0].
    cbn [map app]. rewrite Z.add_0_r. f_equal.
    replace (0 + 1) with (1 + 0) by lia. rewrite <- fmap_add_seqZ.
    change (@map Z Z) with (@fmap list _ Z Z).
    rewrite <- list_fmap_compose. apply list_fmap_ext. intros _ i _.
    unfold compose.
    rewrite (read_memory_same_rom chip _ _ Hmb Hms). f_equal.
    rewrite <- Z.add_assoc, Zplus_mod_idemp_l. reflexivity.
Qed.

(** The bytes 1, 2 written at offset 14 of the blank ROM, read back from
    address 13 on: the latch first, then the two bytes, then 0 behind the
    ROM. *)
Lemma ext_read_stream_witness :
  ext_address example_ext_reader = 13
  /\ (reads 4 2 example_ext_reader).1 = [0; 1; 2; 0].
Proof.
  split; [vm_compute; reflexivity|].
  rewrite (ext_read_stream 3 example_ext_reader) by (vm_compute; discriminate).
  vm_compute. reflexivity.
Defined.

(** ** Timer A period *)

Lemma timer_a_bits (t hi lo : Z) :
  0 <= hi < 256 ->
  to_UINT32
    (Z.lor (Z.land (to_UINT32 (Z.lor (Z.land t 0x003) (Z.shiftl hi 2))) 0x3fc)
       (Z.land lo 0x03))
  = Z.lor (Z.shiftl hi 2) (Z.land lo 0x03)
  /\ to_UINT32
       (Z.lor
          (Z.land (to_UINT32 (Z.lor (Z.land t 0x3fc) (Z.land lo 0x03))) 0x003)
          (Z.shiftl hi 2))
     = Z.lor (Z.shiftl hi 2) (Z.land lo 0x03).
Proof.
  intros Hhi.
  change 0x003 with (Z.ones 2). change 0x3fc with (Z.shiftl (Z.ones 8) 2).
  split; apply Z.bits_inj'; intros n Hn;
    rewrite ?testbit_to_UINT32, ?Z.lor_spec, ?Z.land_spec, ?testbit_to_UINT32,
      ?Z.lor_spec, ?Z.land_spec, ?Z.shiftl_spec, ?Z.testbit_ones by lia;
    destruct (Z.ltb_spec n 2); [| destruct (Z.ltb_spec n 10) | | destruct (Z.ltb_spec n 10)].
  - replace (n <? 32) with true by lia. replace (0 <=? n) with true by lia.
    replace (0 <=? n - 2) with false by lia.
    rewrite (Z.testbit_neg_r hi) by lia.
    cbn [andb orb]. rewrite ?andb_false_r, ?andb_true_r, ?orb_false_r.
    reflexivity.
  - replace (n <? 32) with true by lia. replace (0 <=? n) with true by lia.
    replace (0 <=? n - 2) with true by lia.
    replace (n - 2 <? 8) with true by lia.
    cbn [andb orb]. rewrite ?andb_false_r, ?andb_true_r, ?orb_false_r.
    reflexivity.
  - rewrite (testbit_small hi 8 (n - 2)) by lia.
    replace (n - 2 <? 8) with false by lia.
    rewrite ?andb_false_r, ?andb_true_r, ?orb_false_r. cbn [andb orb].
    rewrite ?andb_false_r, ?orb_false_r. reflexivity.
  - replace (n <? 32) with true by lia. replace (0 <=? n) with true by lia.
    replace (0 <=? n - 2) with false by lia.
    rewrite (Z.testbit_neg_r hi) by lia.
    cbn [andb orb]. rewrite ?andb_false_r, ?andb_true_r, ?orb_false_r.
    reflexivity.
  - replace (n <? 32) with true by lia. replace (0 <=? n) with true by lia.
    replace (0 <=? n - 2) with true by lia.
    replace (n - 2 <? 8) with true by lia.
    cbn [andb orb]. rewrite ?andb_false_r, ?andb_true_r, ?orb_false_r.
    reflexivity.
  - rewrite (testbit_small hi 8 (n - 2)) by lia.
    replace (n - 2 <? 8) with false by lia.
    rewrite ?andb_false_r, ?andb_true_r, ?orb_false_r. cbn [andb orb].
    rewrite ?andb_false_r, ?orb_false_r. reflexivity.
Qed.

Lemma timer_a_value (hi lo : Z) :
  Z.lor (Z.shiftl hi 2) (Z.land lo 0x03) = 4 * hi + lo mod 4.
Proof.
  assert (Hdisj : Z.land (Z.shiftl hi 2) (Z.land lo 0x03) = 0).
  { change 0x03 with (Z.ones 2). apply Z.bits_inj'. intros n Hn.
    rewrite !Z.land_spec, Z.shiftl_spec, Z.testbit_ones, Z.bits_0 by lia.
    destruct (Z.ltb_spec n 2).
    - rewrite (Z.testbit_neg_r hi) by lia. reflexivity.
    - rewrite !andb_false_r. reflexivity. }
  pose proof (Z.add_lor_land (Z.shiftl hi 2) (Z.land lo 0x03)) as Hadd.
  rewrite Hdisj, Z.add_0_r in Hadd. rewrite Hadd.
  rewrite Z.shiftl_mul_pow2 by lia.
  change 0x03 with (Z.ones 2). rewrite Z.land_ones by lia.
  change (2 ^ 2) with 4. lia.
Qed.

(** X14: The 10-bit period of timer A is 4 * hi + (lo mod 4) after the
    high byte is written to register 0x10 and the low bits to register
    0x11, in either order and whatever the period was before. *)
Theorem timer_a_period (chip : YMF271Chip) (hi lo : Z) :
  0 <= hi < 256 ->
  timerA (ymf271_write_timer (ymf271_write_timer chip 0x10 hi) 0x11 lo)
  = 4 * hi + lo mod 4
  /\ timerA (ymf271_write_timer (ymf271_write_timer chip 0x11 lo) 0x10 hi)
     = 4 * hi + lo mod 4.
Proof.
  intros Hhi. unfold ymf271_write_timer.
  change (Z.land 0x10 0xf0 =? 0) with false.
  change (Z.land 0x11 0xf0 =? 0) with false. cbv iota.
  cbn [timerA set_timerA].
  destruct (timer_a_bits (timerA chip) hi lo Hhi) as [H1 H2].
  rewrite H1, H2, timer_a_value. split; reflexivity.
Qed.

(** High byte 0xFF and low bits of 0xFE. *)
Lemma timer_a_period_witness :
  timerA (ymf271_write_timer (ymf271_write_timer example_start 0x10 0xFF) 0x11 0xFE)
  = 1022.
Proof.
  destruct (timer_a_period example_start 0xFF 0xFE ltac:(lia)) as [H _].
  exact H.
Defined.

(** ** Position of a PCM voice *)

Lemma position_of_parts (e x : Z) :
  0 <= e ->
  Z.shiftr (Z.lor (Z.shiftl e 16) (Z.land x 0xffff)) 16 = e
  /\ Z.shiftr (Z.lor (Z.land x 0xffff) (Z.shiftl e 16)) 16 = e.
Proof.
  intros He.
  assert (H : Z.shiftr (Z.land x 0xffff) 16 = 0).
  { rewrite Z.shiftr_land. change (Z.shiftr 0xffff 16) with 0.
    apply Z.land_0_r. }
  rewrite !Z.shiftr_lor, H, Z.shiftr_shiftl_l by lia.
  change (16 - 16) with 0. rewrite Z.shiftl_0_r, Z.lor_0_r, Z.lor_0_l.
  split; reflexivity.
Qed.

(** X15: For a PCM voice playing forward, the loop handling at the head of
    each sample leaves the sample position at or below the end address: a
    position not past the end is left alone with the chip unchanged, and a
    position past the end is brought back, sets the end flag of the slot
    and reverses the direction exactly when altloop is set. *)
Theorem pcm_loop_forward_bound (chip : YMF271Chip) (slotnum : Z)
  (slot : YMF271Slot) :
  0 < loop_direction slot -> 0 <= endaddr slot ->
  let slot' := (pcm_loop chip slotnum slot).2 in
  let chip' := (pcm_loop chip slotnum slot).1 in
  Z.shiftr (stepptr slot') 16 <= endaddr slot
  /\ endaddr slot' = endaddr slot
  /\ (Z.shiftr (stepptr slot) 16 <= endaddr slot ->
      slot' = slot /\ chip' = chip)
  /\ (endaddr slot < Z.shiftr (stepptr slot) 16 ->
      chip' = calculate_status_end chip slotnum 1
      /\ loop_direction slot'
         = if nonzero (altloop slot) then -1 else loop_direction slot).
Proof.
  intros Hdir Hend. unfold pcm_loop.
  apply Z.ltb_lt in Hdir. rewrite Hdir.
  destruct (endaddr slot <? Z.shiftr (stepptr slot) 16) eqn:Hpast.
  - apply Z.ltb_lt in Hpast. cbv zeta.
    destruct (nonzero (altloop slot)).
    + cbn [fst snd stepptr endaddr loop_direction set_stepptr set_loop_direction].
      rewrite (proj1 (position_of_parts (endaddr slot) (stepptr slot) Hend)).
      split; [lia|]. split; [reflexivity|]. split; [lia|].
      intros _. split; reflexivity.
    + cbn [endaddr stepptr loopaddr set_stepptr].
      set (s1 := to_UINT64 (stepptr slot - Z.shiftl (endaddr slot) 16
                            + Z.shiftl (loopaddr slot) 16)).
      destruct (endaddr slot <? Z.shiftr s1 16) eqn:H1.
      * cbn [endaddr stepptr loopaddr set_stepptr].
        destruct (endaddr slot
                  <? Z.shiftr (Z.lor (Z.land s1 65535)
                                 (Z.shiftl (loopaddr slot) 16)) 16) eqn:H2.
        -- cbn [fst snd stepptr endaddr loop_direction set_stepptr].
           rewrite Z.land_lor_distr_l.
           change (Z.land (Z.land s1 65535) 65535)
             with (Z.land (Z.land s1 (Z.ones 16)) (Z.ones 16)).
           rewrite <- Z.land_assoc, Z.land_diag.
           rewrite Z.shiftr_lor.
           assert (Hlow : Z.shiftr
                            (Z.lor (Z.land s1 (Z.ones 16))
                               (Z.land (Z.shiftl (loopaddr slot) 16) 65535)) 16
                          = 0).
           { rewrite Z.shiftr_lor, !Z.shiftr_land.
             change (Z.shiftr (Z.ones 16) 16) with 0.
             change (Z.shiftr 65535 16) with 0.
             rewrite !Z.land_0_r. reflexivity. }
           rewrite Hlow, Z.shiftr_shiftl_l by lia.
           change (16 - 16) with 0. rewrite Z.shiftl_0_r, Z.lor_0_l.
           split; [lia|]. split; [reflexivity|]. split; [lia|].
           intros _. split; reflexivity.
        -- cbn [fst snd stepptr endaddr loop_direction set_stepptr].
           apply Z.ltb_ge in H2.
           split; [exact H2|]. split; [reflexivity|]. split; [lia|].
           intros _. split; reflexivity.
      * cbn [fst snd stepptr endaddr loop_direction set_stepptr].
        apply Z.ltb_ge in H1. fold s1.
        split; [exact H1|]. split; [reflexivity|]. split; [lia|].
        intros _. split; reflexivity.
  - apply Z.ltb_ge in Hpast. cbn [fst snd].
    split; [exact Hpast|]. split; [reflexivity|].
    split; [intros _; split; reflexivity | lia].
Qed.

(** The example slot at position 17 of a sample that ends at 15. *)
Lemma pcm_loop_forward_bound_witness :
  endaddr example_slot_past_end = 15
  /\ Z.shiftr (stepptr example_slot_past_end) 16 = 17
  /\ Z.shiftr (stepptr (pcm_loop example_pcm 0 example_slot_past_end).2) 16
     <= 15.
Proof.
  assert (He : endaddr example_slot_past_end = 15) by (vm_compute; reflexivity).
  split; [exact He|]. split; [vm_compute; reflexivity|].
  destruct (pcm_loop_forward_bound example_pcm 0 example_slot_past_end
              ltac:(vm_compute; reflexivity) ltac:(rewrite He; lia))
    as (Hb & _).
  rewrite He in Hb. exact Hb.
Defined.

(** ** Envelope stages *)

(** X16: One step of update_envelope keeps the stage or moves it forward
    only: attack to decay 1 with the volume clamped to 255 << 16, or decay
    1 to decay 2 once the volume is at or below the decay level; release
    is never left, and the active flag is either kept or cleared together
    with the volume. *)
Theorem envelope_stage_order (slot : YMF271Slot) :
  let slot' := update_envelope slot in
  (env_state slot' = env_state slot
   \/ (env_state slot = ENV_ATTACK /\ env_state slot' = ENV_DECAY1
       /\ volume slot' = Z.shiftl 255 ENV_VOLUME_SHIFT)
   \/ (env_state slot = ENV_DECAY1 /\ env_state slot' = ENV_DECAY2
       /\ 0 < volume slot'
       /\ Z.shiftr (volume slot') ENV_VOLUME_SHIFT
          <= 255 - Z.shiftl (decay1lvl slot) 4))
  /\ (active slot' = active slot \/ (active slot' = 0 /\ volume slot' = 0))
  /\ (env_state slot = ENV_RELEASE -> env_state slot' = ENV_RELEASE).
Proof.
  unfold update_envelope, check_envelope_end. cbv zeta.
  destruct (env_state slot =? ENV_ATTACK) eqn:Ha.
  - apply Z.eqb_eq in Ha. rewrite Ha.
    cbn [volume set_volume].
    destruct (Z.shiftl 255 ENV_VOLUME_SHIFT
              <=? to_INT32 (volume slot + env_attack_step slot)).
    + split; [right; left; repeat split|].
      split; [left; reflexivity | discriminate].
    + split; [left; exact Ha|]. split; [left; reflexivity | discriminate].
  - destruct (env_state slot =? ENV_DECAY1) eqn:Hd1.
    + apply Z.eqb_eq in Hd1. rewrite Hd1. cbn [volume set_volume].
      destruct (to_INT32 (volume slot - env_decay1_step slot) <=? 0) eqn:Hend.
      * cbn [nonzero Z.eqb negb andb].
        split; [left; exact Hd1|].
        split; [right; split; reflexivity | discriminate].
      * cbn [nonzero Z.eqb negb andb volume set_volume decay1lvl].
        apply Z.leb_gt in Hend.
        destruct (Z.shiftr (to_INT32 (volume slot - env_decay1_step slot))
                    ENV_VOLUME_SHIFT
                  <=? 255 - Z.shiftl (decay1lvl slot) 4) eqn:Hlvl.
        -- apply Z.leb_le in Hlvl.
           split; [right; right; repeat split; assumption|].
           split; [left; reflexivity | discriminate].
        -- split; [left; exact Hd1|].
           split; [left; reflexivity | discriminate].
    + destruct (env_state slot =? ENV_DECAY2) eqn:Hd2.
      * apply Z.eqb_eq in Hd2. rewrite Hd2. cbn [volume set_volume].
        destruct (to_INT32 (volume slot - env_decay2_step slot) <=? 0);
          cbn [snd]; (split; [left; exact Hd2|]);
          (split; [| discriminate]);
          [right; split; reflexivity | left; reflexivity].
      * destruct (env_state slot =? ENV_RELEASE) eqn:Hr.
        -- apply Z.eqb_eq in Hr. rewrite Hr. cbn [volume set_volume].
           destruct (to_INT32 (volume slot - env_release_step slot) <=? 0);
             cbn [snd]; (split; [left; exact Hr|]);
             (split; [| intros _; exact Hr]);
             [right; split; reflexivity | left; reflexivity].
        -- split; [left; reflexivity|].
           split; [left; reflexivity | intros H; exact H].
Qed.

(** ** Key codes and scaled rates *)

Lemma land_7_range (x : Z) : 0 <= Z.land x 7 < 8.
Proof.
  change 7 with (Z.ones 3). rewrite Z.land_ones by lia.
  apply Z.mod_pos_bound. lia.
Qed.

Lemma internal_keycode_range (block fns : Z) :
  0 <= get_internal_keycode block fns <= 31.
Proof.
  unfold get_internal_keycode. cbv zeta.
  pose proof (land_7_range block). case_ifs; lia.
Qed.

Lemma external_keycode_range (block fns srcb srcnote : Z) :
  0 <= srcb -> 0 <= srcnote ->
  0 <= get_external_keycode block fns srcb srcnote <= 31.
Proof.
  intros Hb Hn. unfold get_external_keycode. cbv zeta.
  pose proof (land_7_range block).
  repeat match goal with
         | |- context [if ?a <? ?b then _ else _] =>
             destruct (Z.ltb_spec a b)
         end; lia.
Qed.

(** Every entry of the rate key scaling table is between 0 and 15. *)
Lemma RKS_Table_range (keycode keyscale : Z) :
  0 <= keycode <= 31 -> 0 <= keyscale <= 3 ->
  0 <= tab (default [] (RKS_Table !! Z.to_nat keycode)) keyscale <= 15.
Proof.
  intros Hk Hs.
  assert (Hin : Forall
            (fun row => Forall (fun x => 0 <= x <= 15) row /\ length row = 4%nat)
            RKS_Table /\ length RKS_Table = 32%nat).
  { split; [|reflexivity]. unfold RKS_Table.
    repeat (apply List.Forall_cons;
            [split; [repeat (apply List.Forall_cons; [lia|]);
                     apply List.Forall_nil
                    | reflexivity]|]).
    apply List.Forall_nil. }
  destruct Hin as [Hrows Hlen].
  destruct (lookup_lt_is_Some_2 RKS_Table (Z.to_nat keycode) ltac:(lia))
    as [row Hrow].
  rewrite Hrow. change (default [] (Some row)) with row.
  destruct (Forall_lookup_1 _ _ _ _ Hrows Hrow) as [Hentries Hl].
  unfold tab.
  destruct (lookup_lt_is_Some_2 row (Z.to_nat keyscale) ltac:(lia)) as [x Hx].
  rewrite Hx. change (default 0 (Some x)) with x.
  exact (Forall_lookup_1 _ _ _ _ Hentries Hx).
Qed.

(** X17: The key code of a slot (internal for FM, external for PCM) lies
    in 0..31, and the key-scaled rate always lies in 0..63, is at least
    min(rate, 63) and exceeds the programmed rate by at most 15. *)
Theorem keyscaled_rate_bounds (slot : YMF271Slot) (rate : Z) :
  0 <= rate -> 0 <= keyscale slot <= 3 -> 0 <= srcb slot -> 0 <= srcnote slot ->
  let keycode :=
    if negb (waveform slot =? 7) then
      get_internal_keycode (block slot) (fns slot)
    else
      get_external_keycode (block slot) (Z.land (fns slot) 0x7ff)
        (srcb slot) (srcnote slot) in
  let scaled := get_keyscaled_rate rate keycode (keyscale slot) in
  0 <= keycode <= 31
  /\ Z.min rate 63 <= scaled <= 63
  /\ scaled <= rate + 15.
Proof.
  intros Hr Hks Hb Hn keycode scaled.
  assert (Hk : 0 <= keycode <= 31).
  { subst keycode. destruct (negb _);
      [apply internal_keycode_range | apply external_keycode_range; assumption]. }
  split; [exact Hk|].
  subst scaled. unfold get_keyscaled_rate. cbv zeta.
  pose proof (RKS_Table_range keycode (keyscale slot) Hk Hks) as Ht.
  revert Ht. generalize (tab (default [] (RKS_Table !! Z.to_nat keycode))
                           (keyscale slot)). intros t Ht.
  destruct (Z.ltb_spec 63 (rate + t));
    match goal with
    | |- context [if ?a <? ?b then _ else _] => destruct (Z.ltb_spec a b)
    end; lia.
Qed.

(** Rate 62 of the example voice stays at or below 63. *)
Lemma keyscaled_rate_bounds_witness :
  0 <= get_keyscaled_rate 62
         (get_external_keycode (block (get_slot example_pcm 0))
            (Z.land (fns (get_slot example_pcm 0)) 0x7ff)
            (srcb (get_slot example_pcm 0)) (srcnote (get_slot example_pcm 0)))
         (keyscale (get_slot example_pcm 0)) <= 63.
Proof.
  destruct (keyscaled_rate_bounds (get_slot example_pcm 0) 62 ltac:(lia)
              ltac:(vm_compute; split; discriminate)
              ltac:(vm_compute; discriminate) ltac:(vm_compute; discriminate))
    as (_ & Hs & _).
  cbv zeta in Hs.
  change (negb (waveform (get_slot example_pcm 0) =? 7)) with false in Hs.
  cbv iota in Hs. lia.
Defined.

(** ** End-status flags *)

Lemma testbit_to_UINT16 (x n : Z) :
  0 <= n -> Z.testbit (to_UINT16 x) n = (n <? 16) && Z.testbit x n.
Proof.
  intros Hn. unfold to_UINT16, wrap_u.
  destruct (Z.ltb_spec n 16).
  - rewrite Z.mod_pow2_bits_low by lia. reflexivity.
  - rewrite Z.mod_pow2_bits_high by lia. reflexivity.
Qed.

Lemma testbit_UINT8 (x n : Z) :
  0 <= n -> Z.testbit (to_UINT8 x) n = (n <? 8) && Z.testbit x n.
Proof.
  intros Hn. unfold to_UINT8, wrap_u.
  destruct (Z.ltb_spec n 8).
  - rewrite Z.mod_pow2_bits_low by lia. reflexivity.
  - rewrite Z.mod_pow2_bits_high by lia. reflexivity.
Qed.

(** The flag of bit [b] after it is set or cleared, and the other flags. *)
Lemma end_status_bit (e b st k : Z) :
  0 <= b < 16 -> 0 <= k < 16 ->
  Z.testbit
    (if nonzero st then to_UINT16 (Z.lor e (Z.shiftl 1 b))
     else to_UINT16 (Z.land e (Z.lnot (Z.shiftl 1 b)))) k
  = if k =? b then nonzero st else Z.testbit e k.
Proof.
  intros Hb Hk.
  assert (Hbit : Z.testbit (Z.shiftl 1 b) k = (k =? b)).
  { rewrite Z.shiftl_spec by lia.
    destruct (Z.eqb_spec k b) as [-> | Hne].
    - rewrite Z.sub_diag. reflexivity.
    - destruct (Z.lt_ge_cases k b).
      + apply Z.testbit_neg_r. lia.
      + apply (testbit_small 1 1); lia. }
  destruct (nonzero st);
    rewrite testbit_to_UINT16, ?Z.lor_spec, ?Z.land_spec, ?Z.lnot_spec, Hbit
      by lia;
    replace (k <? 16) with true by lia;
    destruct (k =? b); cbn [andb orb negb];
    rewrite ?orb_true_r, ?orb_false_r, ?andb_true_r, ?andb_false_r;
    reflexivity.
Qed.

Lemma calculate_status_end_bits (chip : YMF271Chip) (s st : Z) :
  0 <= s < 48 -> Z.land s 3 = 0 ->
  0 <= end_flag_bit s < 12
  /\ forall k, 0 <= k < 16 ->
       Z.testbit (end_status (calculate_status_end chip s st)) k
       = if k =? end_flag_bit s then nonzero st
         else Z.testbit (end_status chip) k.
Proof.
  intros Hs H3.
  assert (Hq : 0 <= Z.quot s 12 < 4).
  { rewrite Z.quot_div_nonneg by lia. split.
    - apply Z.div_pos; lia.
    - apply Z.div_lt_upper_bound; lia. }
  assert (Hr : 0 <= Z.shiftr (Z.rem s 12) 2 < 3).
  { pose proof (Z.rem_bound_pos s 12 ltac:(lia) ltac:(lia)).
    rewrite Z.shiftr_div_pow2 by lia. change (2 ^ 2) with 4. split.
    - apply Z.div_pos; lia.
    - apply Z.div_lt_upper_bound; lia. }
  assert (Hbit : 0 <= end_flag_bit s < 12) by (unfold end_flag_bit; lia).
  split; [exact Hbit|]. intros k Hk.
  unfold calculate_status_end. rewrite H3.
  change (nonzero 0) with false. cbv iota zeta.
  assert (E1 : to_UINT8 (Z.quot s 12) = Z.quot s 12)
    by (apply wrap_u_small; lia).
  assert (E2 : to_UINT8 (Z.shiftr (Z.rem s 12) 2) = Z.shiftr (Z.rem s 12) 2)
    by (apply wrap_u_small; lia).
  rewrite E1, E2. fold (end_flag_bit s).
  pose proof (end_status_bit (end_status chip) (end_flag_bit s) st k
                ltac:(lia) Hk) as H.
  destruct (nonzero st); exact H.
Qed.

(** X18: calculate_status_end on a slot whose number is a multiple of 4
    sets or clears one bit of end_status that the host reads back: bits
    3..6 of status port 0 or bits 0..7 of status port 1, as in the bit
    scheme of the source comment; different such slots own different bits. *)
Theorem end_flag_readback (chip : YMF271Chip) (s st : Z) :
  0 <= s < 48 -> Z.land s 3 = 0 ->
  0 <= status chip < 4 ->
  let chip' := calculate_status_end chip s st in
  let b := end_flag_bit s in
  (if b <? 4 then Z.testbit (ymf271_r chip' 0).1 (3 + b)
   else Z.testbit (ymf271_r chip' 1).1 (b - 4)) = nonzero st
  /\ forall s', 0 <= s' < 48 -> Z.land s' 3 = 0 -> s' <> s ->
       end_flag_bit s' <> b.
Proof.
  intros Hs H3 Hst chip' b.
  destruct (calculate_status_end_bits chip s st Hs H3) as [Hb Hbits].
  fold b in Hb, Hbits. fold chip' in Hbits.
  assert (Hstatus : status chip' = status chip).
  { subst chip'. unfold calculate_status_end. cbv zeta. case_ifs; reflexivity. }
  split.
  - unfold ymf271_r. change (Z.land 0 0xf) with 0. change (Z.land 1 0xf) with 1.
    cbv iota. cbn [fst].
    destruct (Z.ltb_spec b 4).
    + rewrite testbit_UINT8, !Z.lor_spec, !Z.shiftl_spec, Z.land_spec by lia.
      replace (3 + b - 3) with b by lia.
      rewrite (Z.testbit_neg_r (busy_flag chip')) by lia.
      rewrite Hstatus, (testbit_small (status chip) 2 (3 + b)) by lia.
      change 0xf with (Z.ones 4). rewrite Z.testbit_ones by lia.
      replace (3 + b <? 8) with true by lia.
      replace (0 <=? b) with true by lia. replace (b <? 4) with true by lia.
      cbn [andb orb]. rewrite andb_true_r, Hbits by lia.
      rewrite Z.eqb_refl. reflexivity.
    + rewrite testbit_UINT8, Z.shiftr_spec by lia.
      replace (b - 4 <? 8) with true by lia. cbn [andb].
      replace (b - 4 + 4) with b by lia. rewrite Hbits by lia.
      rewrite Z.eqb_refl. reflexivity.
  - intros s' Hs' H3' Hne. subst b. unfold end_flag_bit.
    assert (Hdec : forall x, 0 <= x < 48 -> Z.land x 3 = 0 ->
              x = 12 * Z.quot x 12 + 4 * Z.shiftr (Z.rem x 12) 2
              /\ 0 <= Z.quot x 12 < 4 /\ 0 <= Z.shiftr (Z.rem x 12) 2 < 3).
    { intros x Hx Hx3.
      pose proof (Z.quot_rem' x 12) as Hqr.
      pose proof (Z.rem_bound_pos x 12 ltac:(lia) ltac:(lia)) as Hrb.
      assert (Hq : 0 <= Z.quot x 12 < 4).
      { rewrite Z.quot_div_nonneg by lia. split.
        - apply Z.div_pos; lia.
        - apply Z.div_lt_upper_bound; lia. }
      assert (Hx4 : x mod 4 = 0).
      { change 3 with (Z.ones 2) in Hx3. rewrite Z.land_ones in Hx3 by lia.
        exact Hx3. }
      assert (Hr4 : Z.rem x 12 mod 4 = 0).
      { replace (Z.rem x 12) with (x + (- 3 * Z.quot x 12) * 4) by lia.
        rewrite Z.mod_add by lia. exact Hx4. }
      rewrite Z.shiftr_div_pow2 by lia. change (2 ^ 2) with 4.
      pose proof (Z.div_mod (Z.rem x 12) 4 ltac:(lia)) as Hdm.
      rewrite Hr4 in Hdm.
      assert (0 <= Z.rem x 12 / 4 < 3).
      { split; [apply Z.div_pos; lia | apply Z.div_lt_upper_bound; lia]. }
      lia. }
    destruct (Hdec s Hs H3) as (E1 & Q1 & R1).
    destruct (Hdec s' Hs' H3') as (E2 & Q2 & R2).
    lia.
Qed.

(** Slot 12 owns bit 4 of port 0 and slot 44 bit 7 of port 1. *)
Lemma end_flag_readback_witness :
  Z.testbit (ymf271_r (calculate_status_end example_pcm 12 1) 0).1 4 = true
  /\ Z.testbit (ymf271_r (calculate_status_end example_pcm 44 1) 1).1 7 = true.
Proof.
  assert (Hst : 0 <= status example_pcm < 4)
    by (vm_compute; split; [discriminate | reflexivity]).
  destruct (end_flag_readback example_pcm 12 1 ltac:(lia) eq_refl Hst) as [H1 _].
  destruct (end_flag_readback example_pcm 44 1 ltac:(lia) eq_refl Hst) as [H2 _].
  split; [exact H1 | exact H2].
Defined.

(** ** Reset keeps the registers *)

(** X19: device_reset_ymf271 silences the voices but keeps everything the
    host has programmed: the register fields of all slots, the groups, the
    ROM, the timer periods, the port latches and the external address; the
    IRQ handler, when installed, is called once with 0. *)
Theorem reset_keeps_registers (chip : YMF271Chip) :
  let chip' := device_reset_ymf271 chip in
  (forall k, slot_regs (get_slot chip' k) = slot_regs (get_slot chip k))
  /\ groups chip' = groups chip
  /\ (mem_base chip', mem_size chip') = (mem_base chip, mem_size chip)
  /\ (timerA chip', timerB chip') = (timerA chip, timerB chip)
  /\ (regs_main chip', ext_address chip', ext_rw chip')
     = (regs_main chip, ext_address chip, ext_rw chip)
  /\ irq_calls chip'
     = irq_calls chip ++ (if irq_handler chip then [0] else []).
Proof.
  unfold device_reset_ymf271.
  match goal with
  | |- context [for_range 0 48 ?f chip] =>
      assert (H : same_registers chip (for_range 0 48 f chip));
        [| revert H; generalize (for_range 0 48 f chip)]
  end.
  { apply for_range_registers. intros j c. cbv zeta.
    apply put_slot_same_registers. reflexivity. }
  intros loop [Hh Hs]. cbv zeta.
  unfold host_state in Hh.
  injection Hh as Hg Hr Hmb Hms Hck Hmix HtA HtB Hen Hirq Hst Hbusy Hea Herw
    Herl Hih Heh Hic Hew Hls Hlm Hla.
  cbn [irq_handler set_debug_envelope set_busy_flag set_enable set_end_status
       set_status set_irqstate]. rewrite Hih.
  destruct (irq_handler chip); unfold call_irq_handler;
    cbn [groups mem_base mem_size timerA timerB regs_main ext_address ext_rw
         irq_calls set_irq_calls set_debug_envelope set_busy_flag set_enable
         set_end_status set_status set_irqstate];
    rewrite Hg, Hmb, Hms, HtA, HtB, Hr, Hea, Herw, Hic, ?app_nil_r;
    (split; [exact Hs | repeat split]).
Qed.

(** ** Group registers *)

(** X20: A write to a group register (addresses 0x00..0x0f) with an
    invalid group number changes nothing; otherwise it sets sync of that
    group to the low two bits of the data and pfm to bit 7, keeps the mute
    flag, and leaves every other group and the rest of the chip unchanged. *)
Theorem group_register_write (chip : YMF271Chip) (address data : Z) :
  Z.land address 0xf0 = 0 -> 0 <= data < 256 ->
  length (groups chip) = 12%nat ->
  let g := tab fm_tab (Z.land address 0xf) in
  let chip' := ymf271_write_timer chip address data in
  (g = -1 -> chip' = chip)
  /\ (g <> -1 ->
      sync (get_group chip' g) = data mod 4
      /\ pfm (get_group chip' g) = data / 128
      /\ 0 <= pfm (get_group chip' g) <= 1
      /\ Muted (get_group chip' g) = Muted (get_group chip g)
      /\ (forall j, 0 <= j -> j <> g -> get_group chip' j = get_group chip j)
      /\ outside_groups chip' = outside_groups chip).
Proof.
  intros Haddr Hdata Hlen g chip'. subst chip'. unfold ymf271_write_timer.
  rewrite Haddr. change (0 =? 0) with true. cbv iota zeta. fold g.
  split.
  - intros ->. reflexivity.
  - intros Hg. pose proof (fm_tab_range address Hg) as Hr. fold g in Hr.
    apply Z.eqb_neq in Hg. rewrite Hg.
    rewrite get_put_group_eq by lia.
    cbn [sync pfm Muted set_sync set_pfm].
    change 0x3 with (Z.ones 2). rewrite Z.land_ones by lia.
    rewrite Z.shiftr_div_pow2 by lia.
    change (2 ^ 2) with 4. change (2 ^ 7) with 128.
    split; [reflexivity|]. split; [reflexivity|].
    split; [split; [apply Z.div_pos; lia
                   | apply Z.lt_succ_r, Z.div_lt_upper_bound; lia]|].
    split; [reflexivity|]. split.
    + intros j Hj Hne. apply get_put_group_ne. lia.
    + apply put_group_outside.
Qed.

(** Data 0x83 written to the register of group 4. *)
Lemma group_register_write_witness :
  sync (get_group (ymf271_write_timer example_start 0x05 0x83) 4) = 3
  /\ pfm (get_group (ymf271_write_timer example_start 0x05 0x83) 4) = 1.
Proof.
  destruct (group_register_write example_start 0x05 0x83 eq_refl ltac:(lia)
              ltac:(vm_compute; reflexivity)) as [_ H].
  destruct H as (Hs & Hp & _); [vm_compute; discriminate|].
  split; [exact Hs | exact Hp].
Defined.

(** ** Slots that are written alone *)

Lemma write_register_alone (chip : YMF271Chip) (slotnum reg data : Z) :
  0 <= slotnum ->
  is_keyon_bank (sync (get_group chip (Z.rem slotnum 12)))
    (Z.quot slotnum 12) = false ->
  keeps_other_slots (fun t => t = slotnum) chip
    (write_register chip slotnum reg data).
Proof.
  intros Hn Hbank. unfold write_register. cbv zeta.
  destruct reg as [|p|p];
    [ | do 4 (try destruct p as [p|p|]);
        first [ apply keeps_other_slots_refl | apply put_slot_keeps; exact Hn ]
      | apply keeps_other_slots_refl ].
  destruct (nonzero (Z.land data 1)); [| apply put_slot_keeps; exact Hn].
  assert (Hk : forall s,
            keeps_other_slots (fun t => t = slotnum) chip
              (put_slot slotnum s (calculate_status_end chip slotnum 0))).
  { intros s. eapply keeps_other_slots_trans;
      [apply calculate_status_end_keeps | apply put_slot_keeps; exact Hn]. }
  revert Hbank. unfold is_keyon_bank.
  generalize (sync (get_group chip (Z.rem slotnum 12))).
  generalize (Z.quot slotnum 12). intros bank sy Hbank.
  destruct sy as [|[[p|p|]|[p|p|]|]|p]; cbn [Z.eqb Pos.eqb andb];
    try apply Hk.
  - rewrite Hbank. apply Hk.
  - rewrite Hbank. apply Hk.
  - apply orb_false_iff in Hbank as [H0 H1]. rewrite H0, H1. apply Hk.
Qed.

(** X21: When the bank written is not the key-on bank of the group's sync
    mode, ymf271_write_fm writes the register into the addressed slot
    alone, for every register (synchronized ones and key-on included): the
    result is write_register on slot 12 * bank + group, and groups and all
    other slots are unchanged. *)
Theorem write_fm_alone (chip : YMF271Chip) (bank address data : Z) :
  0 <= bank < 4 ->
  let g := tab fm_tab (Z.land address 0xf) in
  let reg := Z.land (Z.shiftr address 4) 0xf in
  g <> -1 ->
  is_keyon_bank (sync (get_group chip g)) bank = false ->
  let chip' := ymf271_write_fm chip bank address data in
  chip' = write_register chip (12 * bank + g) reg data
  /\ groups chip' = groups chip
  /\ forall t, 0 <= t -> t <> 12 * bank + g -> get_slot chip' t = get_slot chip t.
Proof.
  intros Hbank g reg Hg Hkey chip'. subst chip'.
  pose proof (fm_tab_range address Hg) as Hr. fold g in Hr.
  assert (Heq : ymf271_write_fm chip bank address data
                = write_register chip (12 * bank + g) reg data).
  { unfold ymf271_write_fm. fold g reg. cbv zeta.
    apply Z.eqb_neq in Hg. rewrite Hg, Hkey. reflexivity. }
  split; [exact Heq|]. rewrite Heq.
  destruct (slot_group_bank g bank Hr ltac:(lia)) as [Hrem Hquot].
  destruct (write_register_alone chip (12 * bank + g) reg data ltac:(lia))
    as (Hgr & _ & Hs).
  - rewrite Hrem, Hquot. exact Hkey.
  - split; [exact Hgr|]. intros t Ht Hne. apply Hs; assumption.
Qed.

(** Group 0 of the example voice is in sync mode 3: a key-on in bank 0
    leaves slot 12 alone. *)
Lemma write_fm_alone_witness :
  sync (get_group example_pcm 0) = 3
  /\ get_slot (ymf271_write_fm example_pcm 0 0x00 0x01) 12
     = get_slot example_pcm 12.
Proof.
  assert (Hs : sync (get_group example_pcm 0) = 3) by (vm_compute; reflexivity).
  split; [exact Hs|].
  destruct (write_fm_alone example_pcm 0 0x00 0x01 ltac:(lia)
              ltac:(vm_compute; discriminate)
              ltac:(vm_compute; reflexivity)) as (_ & _ & H).
  apply H; [lia | vm_compute; discriminate].
Defined.

(** ** Address and data ports *)

Lemma for_range_regs_main (body : Z -> YMF271Chip -> YMF271Chip) (r : list Z)
  (n : nat) :
  (forall j c, body j (set_regs_main r c) = set_regs_main r (body j c)) ->
  forall i c,
  for_range i n body (set_regs_main r c) = set_regs_main r (for_range i n body c).
Proof.
  intros Hbody. induction n as [|n IH]; intros i c; cbn [for_range].
  - reflexivity.
  - rewrite Hbody. apply IH.
Qed.

Lemma init_envelope_regs_main (r : list Z) (c : YMF271Chip) (s : YMF271Slot) :
  init_envelope (set_regs_main r c) s = init_envelope c s.
Proof.
  unfold init_envelope.
  change (lut_ar (set_regs_main r c)) with (lut_ar c).
  change (lut_dc (set_regs_main r c)) with (lut_dc c).
  reflexivity.
Qed.

Lemma init_lfo_regs_main (r : list Z) (c : YMF271Chip) (s : YMF271Slot) :
  init_lfo (set_regs_main r c) s = init_lfo c s.
Proof.
  unfold init_lfo.
  change (lut_alfo (set_regs_main r c)) with (lut_alfo c).
  change (lut_plfo (set_regs_main r c)) with (lut_plfo c).
  change (lut_lfo (set_regs_main r c)) with (lut_lfo c).
  reflexivity.
Qed.

Lemma calculate_step_regs_main (r : list Z) (c : YMF271Chip) (s : YMF271Slot) :
  calculate_step (set_regs_main r c) s = calculate_step c s.
Proof.
  unfold calculate_step.
  change (lut_detune (set_regs_main r c)) with (lut_detune c).
  reflexivity.
Qed.

Lemma put_slot_regs_main (n : Z) (s : YMF271Slot) (r : list Z) (c : YMF271Chip) :
  put_slot n s (set_regs_main r c) = set_regs_main r (put_slot n s c).
Proof. reflexivity. Qed.

Lemma keyon_init_other_regs_main (t : Z) (r : list Z) (c : YMF271Chip) :
  keyon_init_other t (set_regs_main r c) = set_regs_main r (keyon_init_other t c).
Proof.
  unfold keyon_init_other. cbv zeta.
  rewrite init_envelope_regs_main, init_lfo_regs_main, calculate_step_regs_main.
  change (get_slot (set_regs_main r c) t) with (get_slot c t).
  apply put_slot_regs_main.
Qed.

Lemma calculate_status_end_regs_main (n st : Z) (r : list Z) (c : YMF271Chip) :
  calculate_status_end (set_regs_main r c) n st
  = set_regs_main r (calculate_status_end c n st).
Proof. unfold calculate_status_end. cbv zeta. case_ifs; reflexivity. Qed.

(** The register writes do not read the port latches. *)
Lemma write_register_regs_main (chip : YMF271Chip) (slotnum reg data : Z)
  (r : list Z) :
  write_register (set_regs_main r chip) slotnum reg data
  = set_regs_main r (write_register chip slotnum reg data).
Proof.
  unfold write_register. cbv zeta.
  change (get_group (set_regs_main r chip)) with (get_group chip).
  change (get_slot (set_regs_main r chip) slotnum) with (get_slot chip slotnum).
  generalize (get_slot chip slotnum). intros slot.
  destruct reg as [|p|p];
    [ | do 4 (try destruct p as [p|p|]);
        first [ apply put_slot_regs_main | reflexivity ]
      | reflexivity ].
  destruct (nonzero (Z.land data 1)); [|apply put_slot_regs_main].
  rewrite init_envelope_regs_main, init_lfo_regs_main, calculate_step_regs_main.
  rewrite calculate_status_end_regs_main.
  generalize (calculate_status_end chip slotnum 0). intros c.
  rewrite put_slot_regs_main.
  match goal with
  | |- context [set_regs_main r ?c0] => generalize c0; intros c1
  end.
  case_ifs;
    first [ apply keyon_init_other_regs_main
          | apply for_range_regs_main; intros; apply keyon_init_other_regs_main
          | exact eq_refl ].
Qed.

Lemma write_fm_regs_main (chip : YMF271Chip) (bank address data : Z)
  (r : list Z) :
  ymf271_write_fm (set_regs_main r chip) bank address data
  = set_regs_main r (ymf271_write_fm chip bank address data).
Proof.
  unfold ymf271_write_fm. cbv zeta.
  change (get_group (set_regs_main r chip)) with (get_group chip).
  destruct (_ =? -1); [reflexivity|].
  destruct (_ && _);
    [ destruct (sync (get_group chip _)) as [|[[p|p|]|[p|p|]|]|p];
      try reflexivity; try destruct (bank =? 0) |];
    rewrite !write_register_regs_main; reflexivity.
Qed.

Lemma set_regs_main_twice (r r' : list Z) (c : YMF271Chip) :
  set_regs_main r (set_regs_main r' c) = set_regs_main r c.
Proof. reflexivity. Qed.

(** X22: The port protocol of an FM bank: a write to the even port 2 *
    bank only latches the address, and the following write to the odd port
    latches the data and performs ymf271_write_fm for that bank with the
    latched address; the register writes themselves never read the
    latches. *)
Theorem port_write_fm (chip : YMF271Chip) (bank address data : Z) :
  0 <= bank < 4 -> length (regs_main chip) = 16%nat ->
  let latched := ymf271_w chip (2 * bank) address in
  let chip' := ymf271_w latched (2 * bank + 1) data in
  latched = set_regs_main (buf_set (2 * bank) address (regs_main chip)) chip
  /\ chip'
     = set_regs_main
         (buf_set (2 * bank + 1) data
            (buf_set (2 * bank) address (regs_main chip)))
         (ymf271_write_fm chip bank address data).
Proof.
  intros Hbank Hlen latched chip'.
  assert (Hcases : bank = 0 \/ bank = 1 \/ bank = 2 \/ bank = 3) by lia.
  assert (Htab : forall off off1,
            0 <= off < 15 -> off1 = off + 1 ->
            tab (buf_set off1 data (buf_set off address (regs_main chip)))
              off = address).
  { intros off off1 Hoff ->. rewrite tab_buf_set_ne by lia.
    apply tab_buf_set_eq. rewrite Hlen. lia. }
  subst chip' latched.
  destruct Hcases as [-> | [-> | [-> | ->]]]; unfold ymf271_w;
    cbv zeta;
    repeat match goal with
           | |- context [Z.land ?a 15] =>
               let v := eval vm_compute in (Z.land a 15) in
               change (Z.land a 15) with v
           end; cbv iota;
    (split; [reflexivity|]);
    cbn [regs_main set_regs_main];
    match goal with
    | |- context [tab (buf_set ?o1 data (buf_set ?o address (regs_main chip))) _] =>
        rewrite (Htab o o1) by lia
    end;
    rewrite !write_fm_regs_main; apply set_regs_main_twice.
Qed.

(** Address 0xC0 on port 0 and data 5 on port 1 of the started chip, whose
    group 0 is in sync mode 0: the algorithm reaches slot 36. *)
Lemma port_write_fm_witness :
  algorithm
    (get_slot (ymf271_w (ymf271_w example_start 0 0xC0) 1 5) 36) = 5.
Proof.
  destruct (port_write_fm example_start 0 0xC0 5 ltac:(lia)
              ltac:(vm_compute; reflexivity)) as [_ H].
  change (2 * 0) with 0 in H. change (0 + 1) with 1 in H.
  rewrite H. vm_compute. reflexivity.
Defined.

(** ** Table indices *)

Lemma slot_indices_ok_regs (s s' : YMF271Slot) :
  slot_regs s' = slot_regs s -> slot_indices_ok s -> slot_indices_ok s'.
Proof.
  unfold slot_regs, slot_indices_ok. intros H.
  injection H as E1 E2 E3 E4 E5 E6 E7 E8 E9 E10 E11 E12 E13 E14 E15 E16 E17
    E18 E19 E20 E21 E22 E23 E24 E25 E26 E27 E28 E29 E30 E31 E32 E33 E34.
  rewrite E3, E4, E5, E7, E8, E9, E10, E16, E19, E20, E23, E24, E25, E26,
    E31, E32, E33.
  intros Hok. exact Hok.
Qed.

Lemma land_ones_range (x w : Z) : 0 <= w -> 0 <= Z.land x (Z.ones w) < 2 ^ w.
Proof.
  intros Hw. rewrite Z.land_ones by exact Hw. apply Z.mod_pos_bound. lia.
Qed.

Lemma land_3_range (x : Z) : 0 <= Z.land x 3 < 4.
Proof. apply (land_ones_range x 2). lia. Qed.
Lemma land_15_range (x : Z) : 0 <= Z.land x 15 < 16.
Proof. apply (land_ones_range x 4). lia. Qed.
Lemma land_127_range (x : Z) : 0 <= Z.land x 127 < 128.
Proof. apply (land_ones_range x 7). lia. Qed.

Lemma shiftr_4_range (data : Z) : 0 <= data < 256 -> 0 <= Z.shiftr data 4 < 16.
Proof.
  intros H. rewrite Z.shiftr_div_pow2 by lia. change (2 ^ 4) with 16.
  split; [apply Z.div_pos; lia | apply Z.div_lt_upper_bound; lia].
Qed.

Lemma put_slot_indices_ok (n : Z) (s : YMF271Slot) (chip : YMF271Chip) :
  slot_indices_ok s -> chip_indices_ok chip ->
  chip_indices_ok (put_slot n s chip).
Proof.
  intros Hs Hc k.
  destruct (get_slot_put_slot_cases chip n k s) as [-> | ->];
    [exact Hs | apply Hc].
Qed.

Lemma init_envelope_regs (chip : YMF271Chip) (slot : YMF271Slot) :
  slot_regs (init_envelope chip slot) = slot_regs slot.
Proof. reflexivity. Qed.

Lemma init_lfo_regs (chip : YMF271Chip) (slot : YMF271Slot) :
  slot_regs (init_lfo chip slot) = slot_regs slot.
Proof. reflexivity. Qed.

Lemma feedback_reset_regs (slot : YMF271Slot) :
  slot_regs (set_feedback_modulation1 0 (set_feedback_modulation0 0 slot))
  = slot_regs slot.
Proof. reflexivity. Qed.

(** The slot initialised by a key-on has the registers of [slot]. *)
Lemma keyon_regs (chip : YMF271Chip) (slot : YMF271Slot) :
  slot_regs
    (set_feedback_modulation1 0
       (set_feedback_modulation0 0
          (calculate_step chip (init_lfo chip (init_envelope chip slot)))))
  = slot_regs slot.
Proof.
  rewrite feedback_reset_regs, calculate_step_regs, init_lfo_regs.
  apply init_envelope_regs.
Qed.

Lemma keyon_init_other_indices_ok (t : Z) (chip : YMF271Chip) :
  chip_indices_ok chip -> chip_indices_ok (keyon_init_other t chip).
Proof.
  intros Hc. unfold keyon_init_other. cbv zeta.
  apply put_slot_indices_ok; [|exact Hc].
  eapply slot_indices_ok_regs; [apply keyon_regs|].
  eapply slot_indices_ok_regs; [|apply (Hc t)]. reflexivity.
Qed.

Lemma calculate_status_end_indices_ok (chip : YMF271Chip) (n st : Z) :
  chip_indices_ok chip -> chip_indices_ok (calculate_status_end chip n st).
Proof.
  intros Hc k.
  rewrite (get_slot_same_slots chip _ k
             (proj1 (calculate_status_end_slots chip n st))).
  apply Hc.
Qed.

Ltac solve_index_ranges Hd Hok :=
  unfold slot_indices_ok in Hok |- *;
  cbn [lfoFreq lfowave pms detune multiple tl keyscale block feedback waveform
       ch0_level ch1_level ch2_level ch3_level fs srcnote srcb fns_hi
       set_ext_en set_ext_out set_lfoFreq set_lfowave set_pms set_ams
       set_multiple set_detune set_tl set_ar set_keyscale set_decay1rate
       set_decay2rate set_relrate set_decay1lvl set_fns set_block set_fns_hi
       set_waveform set_feedback_reg set_accon set_algorithm set_ch0_level
       set_ch1_level set_ch2_level set_ch3_level set_env_state
       set_startaddr set_endaddr set_loopaddr set_altloop set_fs set_bits
       set_srcnote set_srcb];
  repeat match goal with
         | |- _ /\ _ => split
         end;
  first [ apply Hok | apply land_3_range | apply land_7_range
        | apply land_15_range | apply land_127_range
        | apply (shiftr_4_range _ Hd) | apply Hd ].

Lemma write_register_indices_ok (chip : YMF271Chip) (slotnum reg data : Z) :
  0 <= data < 256 -> chip_indices_ok chip ->
  chip_indices_ok (write_register chip slotnum reg data).
Proof.
  intros Hd Hc. unfold write_register. cbv zeta.
  pose proof (Hc slotnum) as Hok. revert Hok.
  generalize (get_slot chip slotnum). intros slot Hok.
  destruct reg as [|p|p];
    [ | do 4 (try destruct p as [p|p|]); try exact Hc;
        (apply put_slot_indices_ok; [|exact Hc]); solve_index_ranges Hd Hok
      | exact Hc ].
  assert (Hok' : slot_indices_ok
                   (set_ext_out (Z.land (Z.shiftr data 3) 15)
                      (set_ext_en (flag (nonzero (Z.land data 128))) slot)))
    by (solve_index_ranges Hd Hok).
  revert Hok'.
  generalize (set_ext_out (Z.land (Z.shiftr data 3) 15)
                (set_ext_en (flag (nonzero (Z.land data 128))) slot)).
  intros slot1 Hok1.
  destruct (nonzero (Z.land data 1)).
  - match goal with
    | |- context [put_slot slotnum ?s (calculate_status_end chip slotnum 0)] =>
        assert (Hk : chip_indices_ok
                       (put_slot slotnum s (calculate_status_end chip slotnum 0)));
          [| revert Hk;
             generalize (put_slot slotnum s (calculate_status_end chip slotnum 0))]
    end.
    { apply put_slot_indices_ok;
        [| apply calculate_status_end_indices_ok; exact Hc].
      eapply slot_indices_ok_regs; [apply keyon_regs|].
      eapply slot_indices_ok_regs; [|exact Hok1]. reflexivity. }
    intros c Hk.
    case_ifs; try exact Hk; try (apply keyon_init_other_indices_ok; exact Hk);
      (apply (for_range_invariant chip_indices_ok); [|exact Hk]);
      intros j c' _ Hc'; apply keyon_init_other_indices_ok; exact Hc'.
  - apply put_slot_indices_ok; [|exact Hc].
    destruct (nonzero (active slot1)); [|exact Hok1].
    eapply slot_indices_ok_regs; [|exact Hok1]. reflexivity.
Qed.

Lemma write_pcm_indices_ok (chip : YMF271Chip) (address data : Z) :
  0 <= data < 256 -> chip_indices_ok chip ->
  chip_indices_ok (ymf271_write_pcm chip address data).
Proof.
  intros Hd Hc. unfold ymf271_write_pcm. cbv zeta.
  destruct (_ =? -1); [exact Hc|].
  pose proof (Hc (tab pcm_tab (Z.land address 15))) as Hok. revert Hok.
  generalize (get_slot chip (tab pcm_tab (Z.land address 15))). intros slot Hok.
  destruct (Z.land (Z.shiftr address 4) 15) as [|p|p];
    [ | do 4 (try destruct p as [p|p|]); try exact Hc | exact Hc ];
    (apply put_slot_indices_ok; [|exact Hc]); solve_index_ranges Hd Hok.
Qed.

Lemma write_timer_slots (chip : YMF271Chip) (address data : Z) :
  slots (ymf271_write_timer chip address data) = slots chip.
Proof.
  unfold ymf271_write_timer, timer_reset, call_irq_handler,
    call_ext_write_handler. cbv zeta.
  destruct (Z.land address 240 =? 0).
  - destruct (_ =? -1); reflexivity.
  - destruct address as [|p|p];
      [ | do 5 (try destruct p as [p|p|]) | ]; try reflexivity;
      case_ifs; reflexivity.
Qed.

Lemma write_fm_indices_ok (chip : YMF271Chip) (bank address data : Z) :
  0 <= data < 256 -> chip_indices_ok chip ->
  chip_indices_ok (ymf271_write_fm chip bank address data).
Proof.
  intros Hd Hc. unfold ymf271_write_fm. cbv zeta.
  destruct (_ =? -1); [exact Hc|].
  destruct (_ && _);
    [ destruct (sync (get_group chip _)) as [|[[p|p|]|[p|p|]|]|p];
      try exact Hc; try destruct (bank =? 0) |];
    repeat (apply write_register_indices_ok; [exact Hd|]); exact Hc.
Qed.

Lemma ymf271_w_indices_ok (chip : YMF271Chip) (offset data : Z) :
  0 <= data < 256 -> chip_indices_ok chip ->
  chip_indices_ok (ymf271_w chip offset data).
Proof.
  intros Hd Hc. unfold ymf271_w. cbv zeta.
  match goal with
  | |- context [set_regs_main ?r chip] =>
      assert (Hc' : chip_indices_ok (set_regs_main r chip)) by exact Hc;
      revert Hc'; generalize (set_regs_main r chip); intros c Hc'
  end.
  destruct (Z.land offset 15) as [|p|p];
    [ | do 4 (try destruct p as [p|p|]) | ]; try exact Hc';
    first [ apply write_fm_indices_ok; assumption
          | apply write_pcm_indices_ok; assumption
          | intros k;
            rewrite (get_slot_same_slots c _ k (write_timer_slots c _ data));
            apply Hc' ].
Qed.

Lemma slot_zero_indices_ok : slot_indices_ok slot_zero.
Proof. unfold slot_indices_ok. cbn. lia. Qed.

Lemma same_registers_indices_ok (chip chip' : YMF271Chip) :
  same_registers chip chip' -> chip_indices_ok chip -> chip_indices_ok chip'.
Proof.
  intros [_ Hs] Hc k. eapply slot_indices_ok_regs; [apply Hs | apply Hc].
Qed.

Lemma device_reset_same_slot_regs (chip : YMF271Chip) (k : Z) :
  slot_regs (get_slot (device_reset_ymf271 chip) k)
  = slot_regs (get_slot chip k).
Proof.
  rewrite device_reset_slot.
  match goal with
  | |- context [for_range 0 48 ?f chip] =>
      assert (H : same_registers chip (for_range 0 48 f chip));
        [| exact (proj2 H k)]
  end.
  apply for_range_registers. intros j c.
  apply put_slot_same_registers. reflexivity.
Qed.

Lemma get_slot_replicate_zero (chip : YMF271Chip) (n : nat) (k : Z) :
  slots chip = replicate n slot_zero -> get_slot chip k = slot_zero.
Proof.
  intros Hs. unfold get_slot. rewrite Hs.
  destruct (replicate n slot_zero !! Z.to_nat k) as [x|] eqn:E;
    [apply lookup_replicate in E as [-> _]|]; reflexivity.
Qed.

(** X23: The register fields of a slot that index a table stay inside that
    table (lfoFreq < 256, lfowave < 4, pms < 8, detune < 8, multiple < 16,
    tl < 128, keyscale < 4, block < 16, feedback < 8, waveform < 8,
    channel levels < 16, fs < 4, srcnote < 4, srcb < 8): this holds after
    device start and is kept by every port write of a byte, by reset and
    by sound generation. *)
Theorem table_indices_invariant :
  (forall sin pow mix_fresh acc_fresh cfg_clock,
     chip_indices_ok
       (device_start_ymf271 sin pow mix_fresh acc_fresh cfg_clock))
  /\ (forall chip offset data,
        0 <= data < 256 -> chip_indices_ok chip ->
        chip_indices_ok (ymf271_w chip offset data))
  /\ (forall chip, chip_indices_ok chip ->
                   chip_indices_ok (device_reset_ymf271 chip))
  /\ (forall chip samples chip' out,
        chip_indices_ok chip ->
        ymf271_update chip samples = Some (chip', out) ->
        chip_indices_ok chip').
Proof.
  split; [|split; [|split]].
  - intros sin pow mix_fresh acc_fresh cfg_clock k.
    destruct (device_start_fields sin pow mix_fresh acc_fresh cfg_clock)
      as (Hs & _).
    cbv zeta in Hs. rewrite (get_slot_replicate_zero _ 48 k Hs).
    apply slot_zero_indices_ok.
  - intros chip offset data. apply ymf271_w_indices_ok.
  - intros chip Hc k.
    eapply slot_indices_ok_regs; [apply device_reset_same_slot_regs | apply Hc].
  - intros chip samples chip' out Hc Hup.
    eapply same_registers_indices_ok; [|exact Hc].
    eapply update_from_registers. exact Hup.
Qed.

(** A write of 0x77 to FM register 0x50 of the started chip. *)
Lemma table_indices_invariant_witness :
  slot_indices_ok
    (get_slot (ymf271_w (ymf271_w example_start 0 0x50) 1 0x77) 0).
Proof.
  destruct table_indices_invariant as (Hstart & Hwrite & _).
  apply Hwrite; [lia|]. apply Hwrite; [lia|].
  exact (Hstart sin_unavailable pow_at_zero fresh_zeros fresh_zeros
           STD_CLOCK).
Defined.

(** ** Range of the accumulator *)

Lemma pcm_acc_channel_range (chip : YMF271Chip) (idx output level : Z)
  (accp : list Z) (k : Z) :
  ACC_18BIT_MIN <= tab accp k <= ACC_18BIT_MAX ->
  ACC_18BIT_MIN <= tab (pcm_acc_channel chip idx output level accp) k
  <= ACC_18BIT_MAX.
Proof.
  intros H. unfold pcm_acc_channel. cbv zeta.
  match goal with
  | |- context [buf_set idx (to_INT32 (acc_saturate ?a)) accp] =>
      pose proof (acc_saturate_range a) as Hs; revert Hs;
      generalize (acc_saturate a); intros v Hs
  end.
  rewrite to_INT32_small by (unfold ACC_18BIT_MIN, ACC_18BIT_MAX in Hs; lia).
  destruct (decide (Z.to_nat idx = Z.to_nat k)) as [He | Hne].
  - destruct (decide (Z.to_nat idx < length accp)%nat) as [Hlt | Hge].
    + unfold tab, buf_set. rewrite <- He, list_lookup_insert_eq by exact Hlt.
      exact Hs.
    + unfold buf_set. rewrite list_insert_ge by lia. apply H.
  - unfold tab, buf_set. rewrite list_lookup_insert_ne by exact Hne. apply H.
Qed.

Lemma update_pcm_sample_acc (K : Z -> Prop) (slotnum i : Z)
  (chip : YMF271Chip) :
  acc_in_range_on K chip ->
  acc_in_range_on K (update_pcm_sample slotnum i chip).
Proof.
  intros Hacc. unfold update_pcm_sample.
  pose proof (pcm_loop_chip_frame chip slotnum (get_slot chip slotnum)) as Hc.
  destruct (pcm_loop chip slotnum (get_slot chip slotnum)) as [chip1 slot1].
  cbn [fst snd] in Hc. cbv zeta in Hc. destruct Hc as (Ha & _).
  cbv zeta.
  generalize (update_lfo chip1 (update_envelope slot1)). intros slot3.
  generalize (pcm_fetch chip1 slot1). intros sample.
  unfold acc_in_range_on. rewrite (proj1 (put_slot_buffers _ _ _)).
  destruct (nonzero (accon slot3)).
  - rewrite (proj1 (set_acc_buffer_buffers _ _)). intros k Hk.
    do 4 apply pcm_acc_channel_range. rewrite Ha. exact (Hacc k Hk).
  - cbn [acc_buffer set_mix_buffer]. rewrite Ha. exact Hacc.
Qed.

Lemma op_acc_ret {A : Type} (a : A) : op_acc (mret a).
Proof. intros chip. reflexivity. Qed.

Lemma op_acc_bind {A B : Type} (m : op A) (f : A -> op B) :
  op_acc m -> (forall a, op_acc (f a)) -> op_acc (mbind f m).
Proof.
  intros Hm Hf chip. unfold mbind, op_bind.
  specialize (Hm chip). destruct (m chip) as [a chip1]. cbn [snd] in Hm.
  rewrite Hf. exact Hm.
Qed.

Lemma calculate_op_acc (slotnum inp : Z) : op_acc (calculate_op slotnum inp).
Proof.
  intros chip. unfold calculate_op. cbv zeta.
  destruct (if inp =? OP_INPUT_FEEDBACK then _ else _) as [slot_input slot'].
  reflexivity.
Qed.

Lemma calculate_op_pfm_acc (slotnum inp : Z) :
  op_acc (calculate_op_pfm slotnum inp).
Proof.
  intros chip. unfold calculate_op_pfm. cbv zeta.
  destruct (if inp =? OP_INPUT_FEEDBACK then _ else _) as [slot_input slot'].
  reflexivity.
Qed.

Lemma set_feedback_acc (slotnum inp : Z) : op_acc (set_feedback slotnum inp).
Proof. intros chip. reflexivity. Qed.

Lemma carrier_acc (pfm_enabled slotnum inp : Z) :
  op_acc (carrier pfm_enabled slotnum inp).
Proof.
  unfold carrier. destruct (nonzero pfm_enabled);
    [apply calculate_op_pfm_acc | apply calculate_op_acc].
Qed.

Lemma carrier_or_acc (pfm_enabled slotnum inp value : Z) :
  op_acc (carrier_or pfm_enabled slotnum inp value).
Proof.
  unfold carrier_or. destruct (nonzero pfm_enabled);
    [apply calculate_op_pfm_acc | apply op_acc_ret].
Qed.

Ltac op_acc_steps :=
  repeat first
    [ apply op_acc_ret
    | apply calculate_op_acc
    | apply set_feedback_acc
    | apply carrier_acc
    | apply carrier_or_acc
    | apply op_acc_bind; [| intros ?] ].

Lemma fm4_algorithm_acc (slot1 slot2 slot3 slot4 pfm_enabled alg : Z) :
  op_acc (fm4_algorithm slot1 slot2 slot3 slot4 pfm_enabled alg).
Proof.
  unfold fm4_algorithm.
  destruct alg as [|p|p]; [ | do 4 (try destruct p as [p|p|]) | ];
    op_acc_steps.
Qed.

Lemma fm2_algorithm_acc (slot1 slot3 pfm_enabled alg : Z) :
  op_acc (fm2_algorithm slot1 slot3 pfm_enabled alg).
Proof.
  unfold fm2_algorithm.
  destruct alg as [|p|p]; [ | do 2 (try destruct p as [p|p|]) | ];
    op_acc_steps.
Qed.

Lemma fm3_algorithm_acc (slot1 slot2 slot3 pfm_enabled alg : Z) :
  op_acc (fm3_algorithm slot1 slot2 slot3 pfm_enabled alg).
Proof.
  unfold fm3_algorithm.
  destruct alg as [|p|p]; [ | do 3 (try destruct p as [p|p|]) | ];
    op_acc_steps.
Qed.

Lemma fm_samples_acc (j n : Z) (chip : YMF271Chip) :
  (forall s1 s2 s3 s4 p i c,
     acc_buffer (fm4_sample s1 s2 s3 s4 p i c) = acc_buffer c)
  /\ (forall s1 s3 p i c, acc_buffer (fm2_sample s1 s3 p i c) = acc_buffer c)
  /\ (forall s1 s2 s3 p i c,
        acc_buffer (fm3_sample s1 s2 s3 p i c) = acc_buffer c).
Proof.
  split; [|split].
  - intros s1 s2 s3 s4 p i c. unfold fm4_sample.
    pose proof (fm4_algorithm_acc s1 s2 s3 s4 p (algorithm (get_slot c s1)) c)
      as H.
    destruct (fm4_algorithm _ _ _ _ _ _ c) as [[[[o1 o2] o3] o4] c1].
    cbn [snd] in H. rewrite <- H. reflexivity.
  - intros s1 s3 p i c. unfold fm2_sample.
    pose proof (fm2_algorithm_acc s1 s3 p
                  (Z.land (algorithm (get_slot c s1)) 3) c) as H.
    destruct (fm2_algorithm _ _ _ _ c) as [[o1 o3] c1].
    cbn [snd] in H. rewrite <- H. reflexivity.
  - intros s1 s2 s3 p i c. unfold fm3_sample.
    pose proof (fm3_algorithm_acc s1 s2 s3 p
                  (Z.land (algorithm (get_slot c s1)) 7) c) as H.
    destruct (fm3_algorithm _ _ _ _ _ c) as [[[o1 o2] o3] c1].
    cbn [snd] in H. rewrite <- H. reflexivity.
Qed.

Lemma for_range_acc (K : Z -> Prop)
  (body : Z -> YMF271Chip -> YMF271Chip) (i : Z) (n : nat)
  (chip : YMF271Chip) :
  (forall j c, acc_in_range_on K c -> acc_in_range_on K (body j c)) ->
  acc_in_range_on K chip -> acc_in_range_on K (for_range i n body chip).
Proof.
  intros Hbody Hc. apply (for_range_invariant (acc_in_range_on K));
    [|exact Hc].
  intros j c _. apply Hbody.
Qed.

Lemma acc_in_range_same (K : Z -> Prop) (chip chip' : YMF271Chip) :
  acc_buffer chip' = acc_buffer chip ->
  acc_in_range_on K chip -> acc_in_range_on K chip'.
Proof. intros H Hc k. rewrite H. apply Hc. Qed.

Lemma update_pcm_acc (K : Z -> Prop) (chip : YMF271Chip) (slotnum n : Z) :
  acc_in_range_on K chip -> acc_in_range_on K (update_pcm chip slotnum n).
Proof.
  intros Hc. unfold update_pcm. destruct (negb _); [exact Hc|].
  apply for_range_acc; [|exact Hc]. intros j c. apply update_pcm_sample_acc.
Qed.

Lemma update_group_acc (K : Z -> Prop) (j n : Z) (chip : YMF271Chip) :
  acc_in_range_on K chip -> acc_in_range_on K (update_group j n chip).
Proof.
  intros Hc. destruct (fm_samples_acc j n chip) as (H4 & H2 & H3).
  unfold update_group. cbv zeta.
  destruct (nonzero (Muted (get_group chip j)) || _); [exact Hc|].
  destruct (sync (get_group chip j)) as [|[[p|p|]|[p|p|]|]|p]; try exact Hc.
  - destruct (nonzero _); [|exact Hc].
    apply for_range_acc; [|exact Hc].
    intros i c. apply acc_in_range_same, H4.
  - do 4 apply update_pcm_acc. exact Hc.
  - apply update_pcm_acc. destruct (nonzero _); [|exact Hc].
    apply for_range_acc; [|exact Hc].
    intros i c. apply acc_in_range_same, H3.
  - assert (H : forall op_ c, acc_in_range_on K c ->
              acc_in_range_on K
                (update_group_fm2 j op_ n (pfm_enabled_of j (get_group chip j))
                   c)).
    { intros op_ c Hc'. unfold update_group_fm2. cbv zeta.
      destruct (nonzero _); [|exact Hc'].
      apply for_range_acc; [|exact Hc'].
      intros i c'. apply acc_in_range_same, H2. }
    apply H, H, Hc.
Qed.

Lemma clear_samples_range (n : Z) (buf : list Z) (k : Z) :
  ACC_18BIT_MIN <= tab buf k <= ACC_18BIT_MAX ->
  ACC_18BIT_MIN <= tab (clear_samples n buf) k <= ACC_18BIT_MAX.
Proof.
  intros H. unfold tab, clear_samples.
  destruct (decide (Z.to_nat k < Z.to_nat n `min` length buf)%nat) as [Hlt|Hge].
  - rewrite lookup_app_l by (rewrite length_replicate; exact Hlt).
    rewrite lookup_replicate_2 by exact Hlt.
    cbn. unfold ACC_18BIT_MIN, ACC_18BIT_MAX. lia.
  - rewrite lookup_app_r by (rewrite length_replicate; lia).
    rewrite length_replicate, lookup_drop.
    destruct (decide (Z.to_nat n <= length buf)%nat) as [Hn|Hn].
    + replace (Z.to_nat n + (Z.to_nat k - Z.to_nat n `min` length buf))%nat
        with (Z.to_nat k) by lia.
      exact H.
    + rewrite lookup_ge_None_2 by lia.
      cbn. unfold ACC_18BIT_MIN, ACC_18BIT_MAX. lia.
Qed.

Lemma output_samples_acc (n : nat) (i : Z) (chip : YMF271Chip) :
  acc_buffer (output_samples i n chip).1 = acc_buffer chip.
Proof.
  revert i chip. induction n as [|n IH]; intros i chip; [reflexivity|].
  rewrite output_samples_step. cbn [fst]. rewrite IH. reflexivity.
Qed.

(** A chunk keeps the range of the entries that are in range once the
    chunk has cleared its part of the buffer. *)
Lemma update_chunk_acc_cleared (K : Z -> Prop) (n : Z) (chip : YMF271Chip) :
  (forall k, K k ->
     ACC_18BIT_MIN <= tab (clear_samples (n * 4) (acc_buffer chip)) k
     <= ACC_18BIT_MAX) ->
  acc_in_range_on K (update_chunk n chip).1.
Proof.
  intros Hc. unfold update_chunk. cbv zeta.
  eapply acc_in_range_same; [apply output_samples_acc|].
  apply for_range_acc; [intros j c; apply update_group_acc|].
  intros k Hk. cbn [acc_buffer set_acc_buffer set_mix_buffer].
  apply Hc, Hk.
Qed.

Lemma update_chunk_acc (n : Z) (chip : YMF271Chip) :
  acc_in_range chip -> acc_in_range (update_chunk n chip).1.
Proof.
  intros Hc. apply update_chunk_acc_cleared. intros k Hk.
  apply clear_samples_range, Hc, Hk.
Qed.

(** The entries of the samples of a chunk, whatever the buffer held. *)
Lemma update_chunk_acc_used (n : Z) (chip : YMF271Chip) :
  acc_in_range_on (fun k => 0 <= k < n * 4) (update_chunk n chip).1.
Proof.
  apply update_chunk_acc_cleared. intros k Hk.
  rewrite tab_cleared by exact Hk. unfold ACC_18BIT_MIN, ACC_18BIT_MAX. lia.
Qed.

Lemma clear_samples_all (n : Z) (buf : list Z) :
  Z.of_nat (length buf) <= n ->
  clear_samples n buf = replicate (length buf) 0.
Proof.
  intros Hn. unfold clear_samples.
  rewrite drop_ge by lia. rewrite app_nil_r. f_equal. lia.
Qed.

(** A chunk that covers the whole buffer. *)
Lemma update_chunk_acc_full (n : Z) (chip : YMF271Chip) :
  Z.of_nat (length (acc_buffer chip)) <= n * 4 ->
  acc_in_range (update_chunk n chip).1.
Proof.
  intros Hn. apply update_chunk_acc_cleared. intros k _.
  rewrite clear_samples_all by exact Hn. rewrite tab_replicate_zero.
  unfold ACC_18BIT_MIN, ACC_18BIT_MAX. lia.
Qed.

Lemma update_from_acc (fuel : nat) (smpl_ofs samples : Z)
  (chip chip' : YMF271Chip) (out : list (Z * Z)) :
  acc_in_range chip ->
  ymf271_update_from fuel smpl_ofs samples chip = Some (chip', out) ->
  acc_in_range chip'.
Proof.
  revert smpl_ofs chip out. induction fuel as [|fuel IH];
    intros smpl_ofs chip out Hc; cbn [ymf271_update_from];
    destruct (samples <=? smpl_ofs); try discriminate;
    try (intros [= <- _]; exact Hc).
  cbv zeta.
  match goal with
  | |- context [update_chunk ?p chip] =>
      pose proof (update_chunk_acc p chip Hc) as H1;
        destruct (update_chunk p chip) as [chip1 out1]
  end.
  cbn [fst] in H1.
  match goal with
  | |- context [ymf271_update_from fuel ?o samples chip1] =>
      pose proof (IH o chip1) as H2;
        destruct (ymf271_update_from fuel o samples chip1) as [[c2 r2]|]
  end; [|discriminate].
  intros [= <- _]. exact (H2 r2 H1 eq_refl).
Qed.

(** *** The register writes leave the accumulator alone *)

Lemma keyon_init_other_acc (t : Z) (c : YMF271Chip) :
  acc_buffer (keyon_init_other t c) = acc_buffer c.
Proof. unfold keyon_init_other. cbv zeta. exact eq_refl. Qed.

Lemma calculate_status_end_acc (c : YMF271Chip) (n st : Z) :
  acc_buffer (calculate_status_end c n st) = acc_buffer c.
Proof. unfold calculate_status_end. cbv zeta. case_ifs; reflexivity. Qed.

Lemma keyon_range_acc (i : Z) (n : nat) (c : YMF271Chip) :
  acc_buffer (for_range i n keyon_init_other c) = acc_buffer c.
Proof.
  apply (for_range_invariant (fun c' => acc_buffer c' = acc_buffer c));
    [|reflexivity].
  intros j c' _ H. rewrite keyon_init_other_acc. exact H.
Qed.

Lemma write_register_acc (chip : YMF271Chip) (slotnum reg data : Z) :
  acc_buffer (write_register chip slotnum reg data) = acc_buffer chip.
Proof.
  unfold write_register. cbv zeta.
  generalize (get_slot chip slotnum). intros slot.
  destruct reg as [|p|p];
    [ | do 4 (try destruct p as [p|p|]); exact eq_refl | exact eq_refl ].
  destruct (nonzero (Z.land data 1)); [|exact eq_refl].
  rewrite <- (calculate_status_end_acc chip slotnum 0).
  generalize (calculate_status_end chip slotnum 0). intros c.
  match goal with
  | |- context [put_slot slotnum ?s c] =>
      change (acc_buffer c) with (acc_buffer (put_slot slotnum s c));
        generalize (put_slot slotnum s c); intros c1
  end.
  case_ifs;
    first [ apply keyon_init_other_acc
          | apply keyon_range_acc
          | exact eq_refl ].
Qed.

Lemma write_fm_acc (chip : YMF271Chip) (bank address data : Z) :
  acc_buffer (ymf271_write_fm chip bank address data) = acc_buffer chip.
Proof.
  unfold ymf271_write_fm. cbv zeta.
  destruct (_ =? -1); [reflexivity|].
  destruct (_ && _);
    [ destruct (sync (get_group chip _)) as [|[[p|p|]|[p|p|]|]|p];
      try reflexivity; try destruct (bank =? 0) |];
    rewrite !write_register_acc; reflexivity.
Qed.

Lemma write_pcm_acc (chip : YMF271Chip) (address data : Z) :
  acc_buffer (ymf271_write_pcm chip address data) = acc_buffer chip.
Proof.
  unfold ymf271_write_pcm. cbv zeta.
  destruct (_ =? -1); [reflexivity|].
  generalize (get_slot chip (tab pcm_tab (Z.land address 15))). intros slot.
  destruct (Z.land (Z.shiftr address 4) 15) as [|p|p];
    [ | do 4 (try destruct p as [p|p|]) | ]; exact eq_refl.
Qed.

Lemma write_timer_acc (chip : YMF271Chip) (address data : Z) :
  acc_buffer (ymf271_write_timer chip address data) = acc_buffer chip.
Proof.
  unfold ymf271_write_timer, timer_reset, call_irq_handler,
    call_ext_write_handler. cbv zeta.
  destruct (Z.land address 240 =? 0).
  - destruct (_ =? -1); reflexivity.
  - destruct address as [|p|p];
      [ | do 5 (try destruct p as [p|p|]) | ]; try reflexivity;
      case_ifs; reflexivity.
Qed.

Lemma ymf271_w_acc (chip : YMF271Chip) (offset data : Z) :
  acc_buffer (ymf271_w chip offset data) = acc_buffer chip.
Proof.
  unfold ymf271_w. cbv zeta.
  match goal with
  | |- context [set_regs_main ?r chip] =>
      change (acc_buffer chip) with (acc_buffer (set_regs_main r chip));
        generalize (set_regs_main r chip); intros c
  end.
  destruct (Z.land offset 15) as [|p|p];
    [ | do 4 (try destruct p as [p|p|]) | ]; try reflexivity;
    first [ apply write_fm_acc | apply write_pcm_acc | apply write_timer_acc ].
Qed.

(** The first chunk of a call for at least [mixbuf_smpls] samples covers
    the two buffers. *)
Lemma update_full_chunk_acc (chip chip' : YMF271Chip) (samples : Z)
  (out : list (Z * Z)) :
  buffers_allocated chip -> 0 < mixbuf_smpls chip <= samples ->
  ymf271_update chip samples = Some (chip', out) ->
  acc_in_range chip'.
Proof.
  intros (_ & _ & Hlen) [Hpos Hle]. unfold ymf271_update.
  destruct (Z.to_nat samples) as [|fuel] eqn:Ef; [lia|].
  cbn [ymf271_update_from].
  destruct (Z.leb_spec samples 0) as [Hs|Hs]; [lia|]. cbv zeta.
  replace (if mixbuf_smpls chip <? samples - 0 then mixbuf_smpls chip
           else samples - 0)
    with (mixbuf_smpls chip)
    by (destruct (Z.ltb_spec (mixbuf_smpls chip) (samples - 0)); lia).
  pose proof (update_chunk_acc_full (mixbuf_smpls chip) chip ltac:(lia))
    as H1.
  destruct (update_chunk (mixbuf_smpls chip) chip) as [chip1 out1].
  cbn [fst] in H1.
  destruct (ymf271_update_from fuel (0 + mixbuf_smpls chip) samples chip1)
    as [[c2 r2]|] eqn:E2; [|discriminate].
  intros [= <- _]. eapply update_from_acc; [exact H1 | exact E2].
Qed.

(** X24: The entries of the shared ACC buffer that belong to the samples of
    a chunk are 18-bit values (-131072..131071) when ymf271_update mixes
    the chunk down, whatever the buffer held before (malloc leaves it
    uninitialised): the chunk clears them and the PCM path saturates each
    sum it stores.  A call for at least mixbuf_smpls samples on allocated
    buffers leaves every entry of the buffer an 18-bit value, and that is
    kept by every port write, by reset and by further sound generation. *)
Theorem accumulator_range_invariant :
  (forall n chip,
     acc_in_range_on (fun k => 0 <= k < n * 4) (update_chunk n chip).1)
  /\ (forall chip samples chip' out,
        buffers_allocated chip -> 0 < mixbuf_smpls chip <= samples ->
        ymf271_update chip samples = Some (chip', out) ->
        acc_in_range chip')
  /\ (forall chip offset data,
        acc_in_range chip -> acc_in_range (ymf271_w chip offset data))
  /\ (forall chip, acc_in_range chip ->
                   acc_in_range (device_reset_ymf271 chip))
  /\ (forall chip samples chip' out,
        acc_in_range chip ->
        ymf271_update chip samples = Some (chip', out) ->
        acc_in_range chip').
Proof.
  split; [|split; [|split; [|split]]].
  - intros n chip. apply update_chunk_acc_used.
  - intros chip samples chip' out. apply update_full_chunk_acc.
  - intros chip offset data. apply acc_in_range_same, ymf271_w_acc.
  - intros chip. apply acc_in_range_same.
    apply (device_reset_buffers chip).
  - intros chip samples chip' out Hc Hup.
    eapply update_from_acc; [exact Hc | exact Hup].
Qed.

(** 5000 samples of the example voice, more than its chunk of 4410: the
    last entry of the buffer is in range. *)
Lemma accumulator_range_invariant_witness :
  exists chip' out,
    ymf271_update example_pcm 5000 = Some (chip', out)
    /\ ACC_18BIT_MIN <= tab (acc_buffer chip') 17639 <= ACC_18BIT_MAX.
Proof.
  destruct (update_from_returns (Z.to_nat 5000) 0 5000 example_pcm
              ltac:(vm_compute; reflexivity) ltac:(lia))
    as (chip' & out & Heq & _ & _).
  exists chip', out. split; [exact Heq|].
  destruct accumulator_range_invariant as (_ & Hfull & _).
  apply (Hfull example_pcm 5000 chip' out); [| |exact Heq|exact I].
  - unfold buffers_allocated.
    assert (Hm : mixbuf_smpls example_pcm = 4410) by (vm_compute; reflexivity).
    assert (Hb : mix_buffer example_pcm = replicate (Z.to_nat 17640) 0)
      by (vm_compute; reflexivity).
    rewrite Hm, Hb, example_pcm_acc_buffer, length_replicate. lia.
  - assert (Hm : mixbuf_smpls example_pcm = 4410) by (vm_compute; reflexivity).
    rewrite Hm. lia.
Defined.

(** ** Tables of the started device *)

Lemma device_start_tables (sin : float -> float)
  (pow : float -> float -> float) (mix_fresh acc_fresh : Z -> Z)
  (cfg_clock : Z) :
  let chip :=
    device_start_ymf271 sin pow mix_fresh acc_fresh cfg_clock in
  let tables :=
    init_tables sin pow
      (set_debug_envelope 0
         (set_ext_write_handler false
            (set_irq_handler false
               (set_mem_base None
                  (set_mem_size 0 (set_clock cfg_clock chip_calloc)))))) in
  lut_alfo chip = lut_alfo tables /\ lut_detune chip = lut_detune tables.
Proof.
  unfold device_start_ymf271, ymf271_set_mute_mask. cbv zeta.
  match goal with
  | |- context [init_tables sin pow ?c] => generalize (init_tables sin pow c)
  end.
  intros tables.
  match goal with
  | |- context [for_range 0 12 ?f ?c] =>
      apply (for_range_invariant
               (fun c' => lut_alfo c' = lut_alfo tables
                          /\ lut_detune c' = lut_detune tables))
  end.
  - intros j c _ H. exact H.
  - split; reflexivity.
Qed.

Lemma fill_in {A : Type} (lo hi : Z) (f : Z -> A) (old : Z -> A) (i : Z) :
  lo <= i < hi -> fill lo hi f old i = f i.
Proof.
  intros Hi. unfold fill.
  destruct (Z.leb_spec lo i), (Z.ltb_spec i hi); try lia. reflexivity.
Qed.

Lemma alfo_entry_range (j i : Z) :
  0 <= i < LFO_LENGTH -> ALFO_MIN <= alfo_entry j i <= ALFO_MAX.
Proof.
  unfold LFO_LENGTH, ALFO_MIN, ALFO_MAX. intros Hi. unfold alfo_entry.
  unfold LFO_LENGTH, ALFO_MIN, ALFO_MAX. cbv zeta.
  change (Z.quot 256 2) with 128.
  rewrite (Z.rem_mod_nonneg i 128) by lia.
  pose proof (Z.mod_pos_bound i 128 ltac:(lia)) as Hm.
  rewrite (Z.quot_div_nonneg (i mod 128 * 65536) 128) by lia.
  rewrite (Z.quot_div_nonneg (i * 65536) 256) by lia.
  assert (H1 : 0 <= i * 65536 / 256 <= 65536).
  { split; [apply Z.div_pos; lia | apply Z.div_le_upper_bound; lia]. }
  assert (H2 : 0 <= i mod 128 * 65536 / 128 <= 65536).
  { split; [apply Z.div_pos; lia | apply Z.div_le_upper_bound; lia]. }
  destruct j as [|[[p|p|]|[p|p|]|]|p]; try destruct (i <? 128); lia.
Qed.

(** X25: The amplitude-LFO tables of a started chip hold values in
    0..65536 at each of the 256 phases: waveform 0 is 0, waveform 1 the
    falling ramp 65536 - 256 i, waveform 2 the square 65536 / 0, and
    waveform 3 the triangle that falls by 512 per phase in the first half
    and rises by 512 from 0 in the second. *)
Theorem alfo_table_range (sin : float -> float)
  (pow : float -> float -> float) (mix_fresh acc_fresh : Z -> Z)
  (cfg_clock j i : Z) :
  0 <= j < 4 -> 0 <= i < 256 ->
  let chip :=
    device_start_ymf271 sin pow mix_fresh acc_fresh cfg_clock in
  0 <= lut_alfo chip j i <= 65536
  /\ lut_alfo chip 0 i = 0
  /\ lut_alfo chip 1 i = 65536 - 256 * i
  /\ lut_alfo chip 2 i = (if i <? 128 then 65536 else 0)
  /\ lut_alfo chip 3 i
     = (if i <? 128 then 65536 - 512 * i else 512 * (i - 128)).
Proof.
  intros Hj Hi chip. subst chip.
  destruct (device_start_tables sin pow mix_fresh acc_fresh cfg_clock) as [Ha _].
  cbv zeta in Ha. rewrite Ha. clear Ha.
  assert (Hfill : forall j', 0 <= j' < 4 ->
            lut_alfo
              (init_tables sin pow
                 (set_debug_envelope 0
                    (set_ext_write_handler false
                       (set_irq_handler false
                          (set_mem_base None
                             (set_mem_size 0
                                (set_clock cfg_clock chip_calloc))))))) j' i
            = alfo_entry j' i).
  { intros j' Hj'. unfold init_tables, init_detune_table. cbv zeta.
    cbn [lut_alfo set_lut_detune set_lut_dc set_lut_ar set_lut_lfo
         set_lut_total_level set_lut_attenuation set_lut_env_volume
         set_lut_alfo].
    rewrite fill_in by exact Hj'. apply fill_in. exact Hi. }
  rewrite !Hfill by lia.
  split; [apply (alfo_entry_range j i); unfold LFO_LENGTH; lia|].
  unfold alfo_entry, LFO_LENGTH, ALFO_MAX, ALFO_MIN. cbv zeta.
  change (Z.quot 256 2) with 128.
  split; [reflexivity|].
  rewrite (Z.quot_div_nonneg (i * 65536) 256) by lia.
  replace (i * 65536) with (256 * i * 256) by lia.
  rewrite Z.div_mul by lia.
  split; [reflexivity|]. split; [reflexivity|].
  rewrite (Z.rem_mod_nonneg i 128) by lia.
  pose proof (Z.mod_pos_bound i 128 ltac:(lia)) as Hm.
  rewrite (Z.quot_div_nonneg (i mod 128 * 65536) 128) by lia.
  replace (i mod 128 * 65536) with (512 * (i mod 128) * 128) by lia.
  rewrite Z.div_mul by lia.
  destruct (Z.ltb_spec i 128).
  - rewrite Z.mod_small by lia. reflexivity.
  - replace i with (i - 128 + 1 * 128) at 1 by lia.
    rewrite Z.mod_add by lia. rewrite Z.mod_small by lia. reflexivity.
Qed.

(** Phase 130 of the triangle. *)
Lemma alfo_table_range_witness :
  lut_alfo
    (device_start_ymf271 sin_unavailable pow_at_zero fresh_zeros fresh_zeros
       16934400) 3 130
  = 1024.
Proof.
  destruct (alfo_table_range sin_unavailable pow_at_zero fresh_zeros
              fresh_zeros 16934400 3 130
              ltac:(lia) ltac:(lia)) as (_ & _ & _ & _ & H).
  rewrite H. reflexivity.
Defined.

(** *** Detune *)

Lemma to_INT32_opp (x : Z) : to_INT32 (x * -1) = to_INT32 (- to_INT32 (x * 1)).
Proof.
  unfold to_INT32, wrap_s.
  rewrite Z.mul_1_r.
  replace (x * -1) with (- x) by lia.
  change (2 ^ (32 - 1)) with 2147483648. change (2 ^ 32) with 4294967296.
  apply (f_equal (fun z => z - 2147483648)).
  replace (- ((x + 2147483648) mod 4294967296 - 2147483648) + 2147483648)
    with (4294967296 - (x + 2147483648) mod 4294967296) by lia.
  rewrite Zminus_mod_idemp_r.
  replace (4294967296 - (x + 2147483648))
    with (- x + 2147483648 + 0 * 4294967296) by lia.
  symmetry. apply Z.mod_add. lia.
Qed.

(** X26: In the detune table of a started chip the settings 4..7 are the
    negations of the settings 0..3 for every key code, whatever pow of the
    C library returns: entry [d + 4][k] is the 32-bit negation of entry
    [d][k], and equals - entry [d][k] unless that entry is INT32_MIN. *)
Theorem detune_table_mirror (sin : float -> float)
  (pow : float -> float -> float) (mix_fresh acc_fresh : Z -> Z)
  (cfg_clock d k : Z) :
  0 <= d < 4 -> 0 <= k < 32 ->
  let chip :=
    device_start_ymf271 sin pow mix_fresh acc_fresh cfg_clock in
  - 2 ^ 31 <= lut_detune chip d k < 2 ^ 31
  /\ lut_detune chip (d + 4) k = to_INT32 (- lut_detune chip d k)
  /\ (lut_detune chip d k <> - 2 ^ 31 ->
      lut_detune chip (d + 4) k = - lut_detune chip d k).
Proof.
  intros Hd Hk chip. subst chip.
  destruct (device_start_tables sin pow mix_fresh acc_fresh cfg_clock) as [_ Ht].
  cbv zeta in Ht. rewrite Ht. clear Ht.
  unfold init_tables, init_detune_table. cbv zeta.
  cbn [lut_detune set_lut_detune].
  rewrite !(fill_in 0 8) by lia. rewrite !(fill_in 0 32) by lia.
  destruct (Z.ltb_spec d 4); [|lia].
  destruct (Z.ltb_spec (d + 4) 4); [lia|].
  replace (d + 4 - 4) with d by lia.
  match goal with
  | |- context [to_INT32 (?o * 1)] => generalize o; intros offset
  end.
  assert (Hr : - 2 ^ 31 <= to_INT32 (offset * 1) < 2 ^ 31).
  { unfold to_INT32, wrap_s.
    pose proof (Z.mod_pos_bound (offset * 1 + 2 ^ (32 - 1)) (2 ^ 32)
                  ltac:(lia)).
    lia. }
  split; [exact Hr|]. split; [apply to_INT32_opp|].
  intros Hne. rewrite to_INT32_opp. apply to_INT32_small. lia.
Qed.

(** Detune 4 against detune 0 at key code 9. *)
Lemma detune_table_mirror_witness :
  lut_detune
    (device_start_ymf271 sin_unavailable pow_at_zero fresh_zeros fresh_zeros
       16934400) 4 9
  = - lut_detune
        (device_start_ymf271 sin_unavailable pow_at_zero fresh_zeros
           fresh_zeros 16934400) 0 9.
Proof.
  destruct (detune_table_mirror sin_unavailable pow_at_zero fresh_zeros
              fresh_zeros 16934400 0 9
              ltac:(lia) ltac:(lia)) as (_ & _ & H).
  apply H. vm_compute. discriminate.
Defined.
